(** * Feature engineering for match fixtures: a shallow embedding

    The development follows [src/01_data_preprocessing.py] and
    [src/02_feature_engineering.py].  A pandas [DataFrame] is embedded as
    an ordered list of labelled columns over a row count, a [Series] as a
    list of cells, and a Python exception as the [Raise] branch of a small
    error monad.

    Conventions of the embedding:
    - numbers are exact rationals ([Q]); float rounding is not modelled;
    - the row index is the default [RangeIndex] that [pd.read_csv] builds,
      so a row label is a row position; where the code sets another index
      the table carries it beside its columns;
    - a column lookup [df[name]] returns the first column carrying the
      label; tables read from CSV carry each label once;
    - a subtraction and a rolling mean accept numeric columns (numbers and
      NaN) and raise on any other cell;
    - a sort on one key keeps the order of appearance among rows with
      equal keys, where pandas promises none; the theorems on a sorted
      sequence state its order as an order that sorts the keys, the only
      one when no two keys are equal. *)

From Stdlib Require Import String Ascii List ZArith QArith Bool Arith Lia.
From Stdlib Require Import Sorted Permutation.
Import ListNotations.

Local Open Scope string_scope.
Local Open Scope list_scope.
Local Open Scope nat_scope.

(** ** Exceptions *)

Inductive exn : Type :=
| KeyError
| TypeError
| ValueError
| IndexError
| DataError           (* pandas.errors.DataError *)
| OSError.

Inductive result (A : Type) : Type :=
| Ok (a : A)
| Raise (e : exn).

Arguments Ok {A} a.
Arguments Raise {A} e.

Definition bind {A B : Type} (m : result A) (k : A -> result B) : result B :=
  match m with
  | Ok a => k a
  | Raise e => Raise e
  end.

Notation "x <- m ;; k" := (bind m (fun x => k))
  (at level 61, m at next level, right associativity).

Fixpoint foldM {A B : Type} (f : A -> B -> result A) (l : list B) (a : A)
  : result A :=
  match l with
  | [] => Ok a
  | x :: l' => a' <- f a x ;; foldM f l' a'
  end.

Fixpoint mapM {A B : Type} (f : A -> result B) (l : list A) : result (list B) :=
  match l with
  | [] => Ok []
  | x :: l' => y <- f x ;; ys <- mapM f l' ;; Ok (y :: ys)
  end.

Definition raises {A : Type} (m : result A) : Prop :=
  exists e, m = Raise e.

(** ** Cells, series and tables *)

Inductive cell : Type :=
| NaN                 (* missing value: NaN, NaT or None *)
| Num (q : Q)         (* int64 / float64 *)
| Str (s : string)    (* object column holding text *)
| Ts (t : Z).         (* datetime64 *)

Definition Series := list cell.

Record DataFrame : Type := mkDF
  { nrows : nat;
    columns : list (string * Series) }.

Definition names (df : DataFrame) : list string := map fst (columns df).

(** Every column has one cell per row. *)
Definition well_shaped (df : DataFrame) : bool :=
  forallb (fun c => length (snd c) =? nrows df) (columns df).

(** Equality of two cells as [==] computes it: a missing value equals
    nothing, itself included. *)
Definition cell_eq (a b : cell) : bool :=
  match a, b with
  | Num p, Num q => Qeq_bool p q
  | Str s, Str t => String.eqb s t
  | Ts s, Ts t => Z.eqb s t
  | _, _ => false
  end.

(** Equality of two cells as hashing sees it ([unique], [merge] keys):
    missing values are one value. *)
Definition cell_same (a b : cell) : bool :=
  match a, b with
  | NaN, NaN => true
  | _, _ => cell_eq a b
  end.

Definition is_numeric (c : cell) : bool :=
  match c with
  | NaN | Num _ => true
  | _ => false
  end.

Definition numeric (s : Series) : bool := forallb is_numeric s.

(** ** pandas primitives *)

Module pd.

(** [df[name]] *)
Fixpoint lookup (name : string) (cols : list (string * Series)) : option Series :=
  match cols with
  | [] => None
  | (n, s) :: cols' => if String.eqb n name then Some s else lookup name cols'
  end.

Definition getcol (df : DataFrame) (name : string) : result Series :=
  match lookup name (columns df) with
  | Some s => Ok s
  | None => Raise KeyError
  end.

(** [name in df.columns] *)
Definition has_column (df : DataFrame) (name : string) : bool :=
  existsb (String.eqb name) (names df).

(** [df[name] = s]: the column is replaced where it stands, or appended. *)
Fixpoint assign (name : string) (s : Series) (cols : list (string * Series))
  : list (string * Series) :=
  match cols with
  | [] => [(name, s)]
  | (n, s0) :: cols' =>
      if String.eqb n name then (n, s) :: cols' else (n, s0) :: assign name s cols'
  end.

Definition setcol (df : DataFrame) (name : string) (s : Series) : DataFrame :=
  mkDF (nrows df) (assign name s (columns df)).

(** [s == v] *)
Definition mask_eq (s : Series) (v : cell) : list bool :=
  map (fun c => cell_eq c v) s.

(** Row labels selected by a boolean mask: [df[mask].index]. *)
Fixpoint positions_from (i : nat) (mask : list bool) : list nat :=
  match mask with
  | [] => []
  | b :: mask' =>
      if b then i :: positions_from (S i) mask' else positions_from (S i) mask'
  end.

Definition positions (mask : list bool) : list nat := positions_from 0 mask.

(** Rows of a series, and of a table, at the listed positions. *)
Definition take (ps : list nat) (s : Series) : Series :=
  map (fun i => nth i s NaN) ps.

Definition take_rows (ps : list nat) (df : DataFrame) : DataFrame :=
  mkDF (length ps) (map (fun c => (fst c, take ps (snd c))) (columns df)).

(** [df[mask]] *)
Definition filter_rows (mask : list bool) (df : DataFrame) : DataFrame :=
  take_rows (positions mask) df.

(** [s.unique()]: distinct values in order of first appearance. *)
Fixpoint unique_acc (seen : list cell) (s : Series) : list cell :=
  match s with
  | [] => []
  | c :: s' =>
      if existsb (cell_same c) seen then unique_acc seen s'
      else c :: unique_acc (c :: seen) s'
  end.

Definition unique (s : Series) : list cell := unique_acc [] s.

(** [pd.concat([a, b])]: rows of [b] under rows of [a]; columns are matched
    by label, a column absent from one side is filled with NaN. *)
Definition col_or_nan (df : DataFrame) (name : string) : Series :=
  match lookup name (columns df) with
  | Some s => s
  | None => repeat NaN (nrows df)
  end.

Definition concat (a b : DataFrame) : DataFrame :=
  mkDF (nrows a + nrows b)
       (map (fun c => (fst c, snd c ++ col_or_nan b (fst c))) (columns a)
        ++ map (fun c => (fst c, repeat NaN (nrows a) ++ snd c))
               (filter (fun c => negb (has_column a (fst c))) (columns b))).

(** [pd.concat([a, b], axis=1)] over one shared index. *)
Definition concat_columns (a : DataFrame) (extra : list (string * Series))
  : DataFrame :=
  mkDF (nrows a) (columns a ++ extra).

(** Sort keys: the non-missing cells of a sortable column are of one kind. *)
Definition kind (c : cell) : nat :=
  match c with
  | NaN => 0
  | Num _ => 1
  | Str _ => 2
  | Ts _ => 3
  end.

Definition same_kind (a b : cell) : bool :=
  (kind a =? 0) || (kind b =? 0) || (kind a =? kind b).

Fixpoint sortable (s : Series) : bool :=
  match s with
  | [] => true
  | c :: s' => forallb (same_kind c) s' && sortable s'
  end.

(** Ascending order with missing values last ([na_position='last']). *)
Definition key_leb (a b : cell) : bool :=
  match a, b with
  | _, NaN => true
  | NaN, _ => false
  | Num p, Num q => Qle_bool p q
  | Str s, Str t => String.leb s t
  | Ts s, Ts t => Z.leb s t
  | _, _ => true
  end.

Fixpoint insert_key (x : cell * nat) (l : list (cell * nat)) : list (cell * nat) :=
  match l with
  | [] => [x]
  | y :: l' =>
      if key_leb (fst x) (fst y) then x :: y :: l' else y :: insert_key x l'
  end.

Definition sort_keys (l : list (cell * nat)) : list (cell * nat) :=
  fold_right insert_key [] l.

(** Row order after [sort_values].  pandas promises no order among rows
    with equal keys; the embedding keeps their order of appearance.  When
    no two keys are equal there is one sorted order only. *)
Definition argsort (keys : Series) : list nat :=
  map snd (sort_keys (combine keys (seq 0 (length keys)))).

(** [df.sort_values(name)] *)
Definition sort_values (df : DataFrame) (name : string) : result DataFrame :=
  keys <- getcol df name ;;
  if sortable keys then Ok (take_rows (argsort keys) df) else Raise TypeError.

(** Python's [t * n] on a text: [n] copies, none for [n <= 0]. *)
Fixpoint repeat_text (t : string) (n : nat) : string :=
  match n with
  | O => EmptyString
  | S n' => String.append t (repeat_text t n')
  end.

(** [s * k], cell by cell.  A factor of denominator 1 stands for an [int]
    of the code: a text times an [int] is the text repeated, a text times
    any other number raises [TypeError], and so does a date. *)
Definition mul (s : Series) (k : Q) : result Series :=
  mapM (fun c => match c with
                 | NaN => Ok NaN
                 | Num q => Ok (Num (q * k)%Q)
                 | Str t => if Pos.eqb (Qden k) 1
                            then Ok (Str (repeat_text t (Z.to_nat (Qnum k))))
                            else Raise TypeError
                 | Ts _ => Raise TypeError
                 end) s.

(** [a - b], row by row; a missing operand gives a missing difference. *)
Definition sub_cell (a b : cell) : result cell :=
  match a, b with
  | Num p, Num q => Ok (Num (p - q)%Q)
  | NaN, (NaN | Num _) | Num _, NaN => Ok NaN
  | _, _ => Raise TypeError
  end.

Definition sub (a b : Series) : result Series :=
  mapM (fun p => sub_cell (fst p) (snd p)) (combine a b).

(** Rows [lo .. hi-1] of a series. *)
Definition slice (lo hi : nat) (s : Series) : Series :=
  firstn (hi - lo) (skipn lo s).

(** The observations of a window: its non-missing numbers. *)
Fixpoint observations (s : Series) : list Q :=
  match s with
  | [] => []
  | Num q :: s' => q :: observations s'
  | _ :: s' => observations s'
  end.

Definition Qsum (l : list Q) : Q := fold_right Qplus 0%Q l.

Definition average (l : list Q) : Q :=
  (Qsum l / inject_Z (Z.of_nat (length l)))%Q.

(** Mean of a window that holds at least [min_periods] observations. *)
Definition window_mean (min_periods : nat) (w : Series) : cell :=
  let obs := observations w in
  if (min_periods <=? length obs) && (1 <=? length obs)
  then Num (average obs) else NaN.

(** [s.rolling(w, min_periods=m).mean()]: the window at row [i] is rows
    [i-w+1 .. i]; a column that is not numeric raises [DataError]. *)
Definition rolling_mean (w min_periods : nat) (s : Series) : result Series :=
  if numeric s
  then Ok (map (fun i => window_mean min_periods (slice (i + 1 - w) (i + 1) s))
               (seq 0 (length s)))
  else Raise DataError.

(** [s.shift(1)] *)
Definition shift (s : Series) : Series :=
  match s with
  | [] => []
  | _ => NaN :: removelast s
  end.

(** [df.loc[idx, name]] *)
Definition loc (df : DataFrame) (idx : nat) (name : string) : result cell :=
  s <- getcol df name ;;
  match nth_error s idx with
  | Some c => Ok c
  | None => Raise KeyError
  end.

(** [df.loc[idx, name] = v]: a missing column is created, filled with NaN. *)
Fixpoint update (idx : nat) (v : cell) (s : Series) : Series :=
  match s, idx with
  | [], _ => []
  | _ :: s', O => v :: s'
  | c :: s', S i => c :: update i v s'
  end.

Definition loc_set (df : DataFrame) (idx : nat) (name : string) (v : cell)
  : DataFrame :=
  setcol df name (update idx v (col_or_nan df name)).

(** [s.iloc[0]] *)
Definition iloc0 (s : Series) : result cell :=
  match s with
  | [] => Raise IndexError
  | c :: _ => Ok c
  end.

(** [df.empty] *)
Definition empty (df : DataFrame) : bool :=
  (nrows df =? 0) || (length (columns df) =? 0).

(** [df.drop(columns=labels)]: every label must exist. *)
Definition drop (df : DataFrame) (labels : list string) : result DataFrame :=
  if forallb (has_column df) labels
  then Ok (mkDF (nrows df)
                (filter (fun c => negb (existsb (String.eqb (fst c)) labels))
                        (columns df)))
  else Raise KeyError.

(** [df[labels]] *)
Definition select (df : DataFrame) (labels : list string) : result DataFrame :=
  cols <- mapM (fun n => s <- getcol df n ;; Ok (n, s)) labels ;;
  Ok (mkDF (nrows df) cols).

(** Merge keys of row [i] and their comparison; missing keys match each
    other. *)
Definition row_key (keys : list Series) (i : nat) : list cell :=
  map (fun s => nth i s NaN) keys.

Definition key_same (k1 k2 : list cell) : bool :=
  forallb (fun p => cell_same (fst p) (snd p)) (combine k1 k2).

Definition matches (lk rk : list Series) (nr i : nat) : list nat :=
  filter (fun j => key_same (row_key lk i) (row_key rk j)) (seq 0 nr).

(** Pairs (left row, right row) of an inner join, in the order of the left
    rows. *)
Definition join_pairs (lk rk : list Series) (nl nr : nat) : list (nat * nat) :=
  flat_map (fun i => map (fun j => (i, j)) (matches lk rk nr i)) (seq 0 nl).

(** [pd.merge(left, right, on=on)]: inner join; a label held by both sides
    outside the keys gets the suffixes [_x] and [_y]. *)
Definition merge (left right : DataFrame) (on : list string) : result DataFrame :=
  lk <- mapM (getcol left) on ;;
  rk <- mapM (getcol right) on ;;
  let pairs := join_pairs lk rk (nrows left) (nrows right) in
  let is_key n := existsb (String.eqb n) on in
  let clash n := negb (is_key n) && has_column left n && has_column right n in
  Ok (mkDF (length pairs)
        (map (fun c => (if clash (fst c) then String.append (fst c) "_x" else fst c,
                        take (map fst pairs) (snd c)))
             (columns left)
         ++ map (fun c => (if clash (fst c) then String.append (fst c) "_y" else fst c,
                           take (map snd pairs) (snd c)))
                (filter (fun c => negb (is_key (fst c))) (columns right)))).

(** Categories of a text column: its distinct values, sorted. *)
Fixpoint insert_string (x : string) (l : list string) : list string :=
  match l with
  | [] => [x]
  | y :: l' =>
      if String.eqb x y then l
      else if String.leb x y then x :: l else y :: insert_string x l'
  end.

Fixpoint categories (s : Series) : list string :=
  match s with
  | [] => []
  | Str t :: s' => insert_string t (categories s')
  | _ :: s' => categories s'
  end.

Definition is_text (c : cell) : bool :=
  match c with
  | NaN | Str _ => true
  | _ => false
  end.

Definition is_str (c : cell) : bool :=
  match c with
  | Str _ => true
  | _ => false
  end.

(** dtype [object]: text and missing values only. *)
Definition text (s : Series) : bool :=
  forallb is_text s && ((length s =? 0) || existsb is_str s).

Definition indicator (v : string) (c : cell) : cell :=
  if cell_eq c (Str v) then Num 1 else Num 0.

Definition dummies_of (prefix : string) (s : Series) : list (string * Series) :=
  map (fun v => (String.append prefix (String.append "_" v), map (indicator v) s))
      (categories s).

(** [pd.get_dummies(data, prefix=prefix, dtype=int)]: one prefix for each
    encoded column, and only text columns are encoded. *)
Definition get_dummies (data : DataFrame) (prefix : list string)
  : result DataFrame :=
  if (length prefix =? length (columns data))
     && forallb (fun c => text (snd c)) (columns data)
  then Ok (mkDF (nrows data)
             (flat_map (fun pc => dummies_of (fst pc) (snd (snd pc)))
                       (combine prefix (columns data))))
  else Raise ValueError.

End pd.

(** ** src/02_feature_engineering.py *)

(** [results_map = {"W": 1, "D": 0, "L": -1}] *)
Definition results_map : list (string * Q) :=
  [("W", 1%Q); ("D", 0%Q); ("L", (-1)%Q)].

(** [results_map[x]] *)
Fixpoint dict_get (d : list (string * Q)) (k : string) : result Q :=
  match d with
  | [] => Raise KeyError
  | (k', v) :: d' => if String.eqb k' k then Ok v else dict_get d' k
  end.

Definition map_result (x : cell) : result cell :=
  match x with
  | Str s => q <- dict_get results_map s ;; Ok (Num q)
  | _ => Raise KeyError
  end.

Section Loading.

(** [pd.to_datetime] on a column; it raises on a date it cannot parse. *)
Variable to_datetime : Series -> result Series.

(** [load_and_prepare_data], from the table [pd.read_csv] returned. *)
Definition load_and_prepare_data (df : DataFrame) : result DataFrame :=
  d <- pd.getcol df "date" ;;
  d' <- to_datetime d ;;
  let df := pd.setcol df "date" d' in
  r <- pd.getcol df "result" ;;
  r' <- mapM map_result r ;;
  Ok (pd.setcol df "result" r').

End Loading.

(** Team-centric columns of an away appearance and of a home appearance:
    (new column, copied column). *)
Definition away_remap : list (string * string) :=
  [("team_goals", "away_goals");
   ("team_xg", "away_xg");
   ("team_shots", "away_sh");
   ("team_shots_on_target", "away_shot_on_target");
   ("team_poss", "away_poss");
   ("team_goals_conceded", "home_goals");
   ("team_xg_conceded", "home_xg")].

Definition home_remap : list (string * string) :=
  [("team_goals", "home_goals");
   ("team_xg", "home_xg");
   ("team_shots", "home_sh");
   ("team_shots_on_target", "home_shot_on_target");
   ("team_poss", "home_poss");
   ("team_goals_conceded", "away_goals");
   ("team_xg_conceded", "away_xg")].

(** [games[new] = games[old]] *)
Definition copy_column (games : DataFrame) (p : string * string)
  : result DataFrame :=
  s <- pd.getcol games (snd p) ;;
  Ok (pd.setcol games (fst p) s).

(** Lines 41-65: the games of [team], both venues, from its own
    perspective, sorted by date. *)
Definition team_games (df_prep : DataFrame) (team : cell) : result DataFrame :=
  home <- pd.getcol df_prep "home_team" ;;
  let team_home_games := pd.filter_rows (pd.mask_eq home team) df_prep in
  away <- pd.getcol df_prep "away_team" ;;
  let team_away_games := pd.filter_rows (pd.mask_eq away team) df_prep in
  r <- pd.getcol team_away_games "result" ;;
  r' <- pd.mul r (-1)%Q ;;
  let team_away_games := pd.setcol team_away_games "result" r' in
  team_away_games <- foldM copy_column away_remap team_away_games ;;
  team_home_games <- foldM copy_column home_remap team_home_games ;;
  pd.sort_values (pd.concat team_home_games team_away_games) "date".

(** Rolling statistics: (new column, averaged column). *)
Definition rolling_columns : list (string * string) :=
  [("form_last_5", "result");
   ("avg_goals_last_5", "team_goals");
   ("avg_goals_conceded_last_5", "team_goals_conceded");
   ("avg_xg_last_5", "team_xg");
   ("avg_xg_conceded_last_5", "team_xg_conceded");
   ("avg_poss_last_5", "team_poss");
   ("avg_shots_last_5", "team_shots");
   ("avg_shots_on_target_last_5", "team_shots_on_target")].

(** [games[new] = games[old].rolling(5, min_periods=1).mean().shift(1)] *)
Definition add_rolling (games : DataFrame) (p : string * string)
  : result DataFrame :=
  s <- pd.getcol games (snd p) ;;
  m <- pd.rolling_mean 5 1 s ;;
  Ok (pd.setcol games (fst p) (pd.shift m)).

(** Lines 68-75. *)
Definition rolling_stats (all_team_games : DataFrame) : result DataFrame :=
  foldM add_rolling rolling_columns all_team_games.

Definition rolling_names : list string := map fst rolling_columns.

(** [home_form_last_5], ..., [away_avg_shots_on_target_last_5] *)
Definition feature_name (side name : string) : string :=
  String.append side (String.append "_" name).

(** Lines 80-90 and 95-105: the body of either map-back loop, for the row
    [idx] and the column prefix [side]. *)
Definition map_back (side : string) (all_team_games : DataFrame)
    (df_prep : DataFrame) (idx : nat) : result DataFrame :=
  match_date <- pd.loc df_prep idx "date" ;;
  dates <- pd.getcol all_team_games "date" ;;
  let team_stats := pd.filter_rows (pd.mask_eq dates match_date) all_team_games in
  if pd.empty team_stats then Ok df_prep
  else
    foldM (fun df_prep name =>
             s <- pd.getcol team_stats name ;;
             v <- pd.iloc0 s ;;
             Ok (pd.loc_set df_prep idx (feature_name side name) v))
          rolling_names df_prep.

(** One turn of the loop over teams, lines 40-105. *)
Definition team_features (df_prep : DataFrame) (team : cell) : result DataFrame :=
  games <- team_games df_prep team ;;
  all_team_games <- rolling_stats games ;;
  home <- pd.getcol df_prep "home_team" ;;
  let home_matches := pd.positions (pd.mask_eq home team) in
  df_prep <- foldM (map_back "home" all_team_games) home_matches df_prep ;;
  away <- pd.getcol df_prep "away_team" ;;
  let away_matches := pd.positions (pd.mask_eq away team) in
  foldM (map_back "away" all_team_games) away_matches df_prep.

Definition create_rolling_features (df : DataFrame) : result DataFrame :=
  let df_prep := df in
  home <- pd.getcol df_prep "home_team" ;;
  foldM team_features (pd.unique home) df_prep.

Definition encode_teams (df : DataFrame) : result DataFrame :=
  teams <- pd.select df ["home_team"; "away_team"] ;;
  dummies <- pd.get_dummies teams ["home"; "away"] ;;
  Ok (pd.concat_columns df (columns dummies)).

(** Comparison features: (new column, minuend, subtrahend). *)
Definition comparison_columns : list (string * (string * string)) :=
  [("form_difference", ("home_form_last_5", "away_form_last_5"));
   ("goals_difference", ("home_avg_goals_last_5", "away_avg_goals_last_5"));
   ("xg_difference", ("home_avg_xg_last_5", "away_avg_xg_last_5"));
   ("poss_difference", ("home_avg_poss_last_5", "away_avg_poss_last_5"));
   ("defensive_difference",
    ("away_avg_goals_conceded_last_5", "home_avg_goals_conceded_last_5"))].

(** [out[new] = df[a] - df[b]] *)
Definition add_difference (df out : DataFrame) (p : string * (string * string))
  : result DataFrame :=
  a <- pd.getcol df (fst (snd p)) ;;
  b <- pd.getcol df (snd (snd p)) ;;
  d <- pd.sub a b ;;
  Ok (pd.setcol out (fst p) d).

Definition create_comparison_features (df : DataFrame) : result DataFrame :=
  let df_with_comparisons := df in
  foldM (add_difference df) comparison_columns df_with_comparisons.

Definition default_columns_to_drop : list string :=
  ["season"; "home_formation"; "away_formaation"].

Definition clean_data (df : DataFrame) (columns_to_drop : option (list string))
  : result DataFrame :=
  let df_clean := df in
  let columns_to_drop :=
    match columns_to_drop with
    | None => default_columns_to_drop
    | Some l => l
    end in
  let columns_to_drop := filter (pd.has_column df_clean) columns_to_drop in
  match columns_to_drop with
  | [] => Ok df_clean
  | _ => pd.drop df_clean columns_to_drop
  end.

Section Pipeline.

Variable to_datetime : Series -> result Series.

(** [process_season_data] without the file and console effects. *)
Definition process_season_data (raw : DataFrame) : result DataFrame :=
  df <- load_and_prepare_data to_datetime raw ;;
  df_with_rolling <- create_rolling_features df ;;
  df_encoded <- encode_teams df_with_rolling ;;
  df_with_comparisons <- create_comparison_features df_encoded ;;
  clean_data df_with_comparisons None.

End Pipeline.

(** ** src/01_data_preprocessing.py *)

(** Lines 53-55: the merge of the home rows with the away statistics. *)
Definition away_stats_to_add (df_away : DataFrame) : result DataFrame :=
  pd.select df_away
    ["date"; "home_team"; "away_team"; "away_sh"; "away_shot_on_target";
     "away_dist_covered"; "away_poss"].

Definition merge_home_away (df_home df_away : DataFrame) : result DataFrame :=
  stats <- away_stats_to_add df_away ;;
  pd.merge df_home stats ["date"; "home_team"; "away_team"].


(** ** Notions of the specification *)

(** Indices [max(0, i-5) .. i-1] of a team's match sequence. *)
Definition prior_indices (i : nat) : list nat :=
  seq (i - 5) (i - (i - 5)).

(** The values of one statistic over the prior matches of match [i]. *)
Definition prior_window (i : nat) (xs : Series) : Series :=
  map (fun j => nth j xs NaN) (prior_indices i).

(** The values of a window that are known: its numbers. *)
Fixpoint known_values (w : Series) : list Q :=
  match w with
  | [] => []
  | Num q :: w' => q :: known_values w'
  | _ :: w' => known_values w'
  end.

Fixpoint total (values : list Q) : Q :=
  match values with
  | [] => 0%Q
  | q :: values' => (q + total values')%Q
  end.

(** The arithmetic mean: the sum of the values divided by their number. *)
Definition arithmetic_mean (values : list Q) : Q :=
  (total values / inject_Z (Z.of_nat (length values)))%Q.

(** The mean of the known values of a window, missing when none is
    known. *)
Definition mean_of_known (w : Series) : cell :=
  match known_values w with
  | [] => NaN
  | values => Num (arithmetic_mean values)
  end.

(** The rolling statistic of match [i] of a sequence of values: missing
    for the first match, then the mean over the prior matches. *)
Definition trailing_mean (i : nat) (xs : Series) : cell :=
  match i with
  | O => NaN
  | S _ => mean_of_known (prior_window i xs)
  end.

(** The outcome of a match seen from the other side. *)
Definition negated (c : cell) : cell :=
  match c with
  | Num q => Num (q * (-1))%Q
  | c => c
  end.

(** The eight rolling statistics of a team: (statistic, (column read on
    the home rows of the team, column read on its away rows, negated on
    the away rows)). *)
Definition own_statistics : list (string * (string * string * bool)) :=
  [("form_last_5", ("result", "result", true));
   ("avg_goals_last_5", ("home_goals", "away_goals", false));
   ("avg_goals_conceded_last_5", ("away_goals", "home_goals", false));
   ("avg_xg_last_5", ("home_xg", "away_xg", false));
   ("avg_xg_conceded_last_5", ("away_xg", "home_xg", false));
   ("avg_poss_last_5", ("home_poss", "away_poss", false));
   ("avg_shots_last_5", ("home_sh", "away_sh", false));
   ("avg_shots_on_target_last_5",
    ("home_shot_on_target", "away_shot_on_target", false))].

(** The own values of a team along its sequence: the values [sh] of its
    home rows [hp] and the values [sa] of its away rows [ap], arranged in
    the order of the sequence. *)
Definition own_values (order hp ap : list nat) (sh sa : Series) (neg : bool)
  : Series :=
  pd.take order
    (pd.take hp sh
     ++ (if neg then map negated (pd.take ap sa) else pd.take ap sa)).

(** Two dates that a sort may place either way round. *)
Definition tied (a b : cell) : bool := pd.key_leb a b && pd.key_leb b a.

(** No two records carry the same date: a team plays at most once on a
    given date. *)
Fixpoint no_ties (s : Series) : bool :=
  match s with
  | [] => true
  | c :: s' => negb (existsb (tied c) s') && no_ties s'
  end.

(** A column that exists, with one cell per row, holding what [ok] accepts. *)
Definition column_ok (ok : Series -> bool) (df : DataFrame) (name : string) : bool :=
  match pd.lookup name (columns df) with
  | Some s => (length s =? nrows df) && ok s
  | None => false
  end.

Definition stat_columns : list string :=
  ["result"; "home_goals"; "away_goals"; "home_xg"; "away_xg"; "home_sh";
   "away_sh"; "home_shot_on_target"; "away_shot_on_target"; "home_poss";
   "away_poss"].

(** A prepared fixture table, as [load_and_prepare_data] hands it on: the
    two team columns, a sortable date column and numeric statistics. *)
Definition prepared (df : DataFrame) : bool :=
  column_ok (fun _ => true) df "home_team"
  && column_ok (fun _ => true) df "away_team"
  && column_ok pd.sortable df "date"
  && forallb (column_ok numeric df) stat_columns.

(** Membership of a label in a list of labels. *)
Definition mem (n : string) (l : list string) : bool :=
  existsb (String.eqb n) l.

Fixpoint distinct (l : list string) : bool :=
  match l with
  | [] => true
  | n :: l' => negb (mem n l') && distinct l'
  end.

Definition disjoint (l1 l2 : list string) : bool :=
  forallb (fun n => negb (mem n l2)) l1.

(** The shape shared by [copy_column] and [add_rolling]: a new column
    computed from an existing one. *)
Definition derive (f : Series -> result Series) (games : DataFrame)
    (p : string * string) : result DataFrame :=
  s <- pd.getcol games (snd p) ;;
  m <- f s ;;
  Ok (pd.setcol games (fst p) m).

Definition rolled (s : Series) : result Series :=
  m <- pd.rolling_mean 5 1 s ;; Ok (pd.shift m).

(** ** Sample tables *)

(** [pd.DataFrame(rows, columns=labels)] *)
Definition from_rows (labels : list string) (rows : list (list cell)) : DataFrame :=
  mkDF (length rows)
       (map (fun p => (snd p, map (fun r => nth (fst p) r NaN) rows))
            (combine (seq 0 (length labels)) labels)).

Definition fixture_columns : list string :=
  ["date"; "home_team"; "away_team"; "result"; "home_goals"; "away_goals";
   "home_xg"; "away_xg"; "home_sh"; "away_sh"; "home_shot_on_target";
   "away_shot_on_target"; "home_poss"; "away_poss"; "season"].

Definition int (z : Z) : cell := Num (inject_Z z).

(** One prepared fixture: date, teams, outcome and goals; the other
    statistics are fixed. *)
Definition fixture (date : Z) (home away : string) (result hg ag : Z)
  : list cell :=
  [Ts date; Str home; Str away; int result; int hg; int ag;
   Num (3 # 2); Num (1 # 2); int 10; int 8; int 4; int 3; int 55; int 45;
   int 2021].

(** Six matches of team "A", with the outcomes win, win, loss, draw, win,
    loss from its own side. *)
Definition season_of_A : DataFrame :=
  from_rows fixture_columns
    [fixture 1 "A" "B" 1 2 0;
     fixture 2 "C" "A" (-1) 0 1;
     fixture 3 "A" "C" (-1) 0 3;
     fixture 4 "B" "A" 0 1 1;
     fixture 5 "A" "B" 1 2 1;
     fixture 6 "C" "A" 1 2 0].

(** "B" never plays at home. *)
Definition away_only : DataFrame :=
  from_rows fixture_columns
    [fixture 1 "A" "B" 1 2 0;
     fixture 2 "C" "B" 0 1 1].

(** "A" appears twice on date 2. *)
Definition double_booked : DataFrame :=
  from_rows fixture_columns
    [fixture 1 "A" "B" 1 2 0;
     fixture 2 "A" "C" (-1) 0 3;
     fixture 2 "A" "D" 0 1 1].

(** The sixteen columns that [create_rolling_features] writes. *)
Definition feature_names : list string :=
  map (feature_name "home") rolling_names
  ++ map (feature_name "away") rolling_names.

(** Two tables with the same rows that agree on every column outside
    [written]. *)
Definition same_outside (written : list string) (df df' : DataFrame) : Prop :=
  nrows df' = nrows df /\
  forall n, ~ In n written -> pd.getcol df' n = pd.getcol df n.

(** The identity fields of a fixture. *)
Definition identity_columns : list string := ["date"; "home_team"; "away_team"].

(** The rolling statistics of "A" in [double_booked], as lines 41-75
    compute them. *)
Definition double_booked_games : DataFrame :=
  Eval vm_compute in
    match (g <- team_games double_booked (Str "A") ;; rolling_stats g) with
    | Ok g => g
    | Raise _ => mkDF 0 []
    end.

(** A date parser for the sample tables: a date written year-month-day,
    each field in digits, is read field by field; anything else is
    refused. *)
Definition digit (c : ascii) : option Z :=
  let n := Z.of_nat (nat_of_ascii c) in
  if ((48 <=? n) && (n <=? 57))%Z then Some (n - 48)%Z else None.

(** The fields of a text separated by [-], each a number in digits. *)
Fixpoint date_fields (s : string) (current : option Z) (done : list Z)
  : option (list Z) :=
  match s with
  | EmptyString =>
      match current with
      | Some n => Some (rev (n :: done))
      | None => None
      end
  | String c s' =>
      match digit c with
      | Some d =>
          date_fields s' (Some (match current with
                                | Some n => n * 10 + d
                                | None => d
                                end)%Z) done
      | None =>
          if Ascii.eqb c "-"%char
          then match current with
               | Some n => date_fields s' None (n :: done)
               | None => None
               end
          else None
      end
  end.

Definition parse_date (d : string) : result cell :=
  match date_fields d None [] with
  | Some [y; m; day] =>
      if ((1 <=? m) && (m <=? 12) && (1 <=? day) && (day <=? 31))%Z
      then Ok (Ts (y * 10000 + m * 100 + day))
      else Raise ValueError
  | _ => Raise ValueError
  end.

Definition iso_to_datetime (s : Series) : result Series :=
  mapM (fun c => match c with
                 | NaN => Ok NaN
                 | Ts t => Ok (Ts t)
                 | Str d => parse_date d
                 | Num _ => Raise ValueError
                 end) s.

(** A table as [pd.read_csv] returns it: dates and outcomes are text. *)
Definition raw_fixtures : DataFrame :=
  from_rows ["date"; "home_team"; "away_team"; "result"; "home_goals"]
    [[Str "2021-01-02"; Str "A"; Str "B"; Str "W"; int 2];
     [Str "2021-01-09"; Str "B"; Str "A"; Str "D"; int 1];
     [Str "2021-01-16"; Str "A"; Str "C"; Str "L"; int 0]].

(** The same with an outcome outside W, D, L in the second row. *)
Definition raw_fixtures_bad_label : DataFrame :=
  from_rows ["date"; "home_team"; "away_team"; "result"; "home_goals"]
    [[Str "2021-01-02"; Str "A"; Str "B"; Str "W"; int 2];
     [Str "2021-01-09"; Str "B"; Str "A"; Str "X"; int 1]].

(** A difference of two rolling values: missing as soon as one operand is
    missing. *)
Definition difference (minuend subtrahend : cell) : cell :=
  match minuend, subtrahend with
  | Num p, Num q => Num (p - q)%Q
  | _, _ => NaN
  end.

(** The rolling columns that the comparison features read. *)
Definition comparison_inputs : list string :=
  ["home_form_last_5"; "away_form_last_5";
   "home_avg_goals_last_5"; "away_avg_goals_last_5";
   "home_avg_xg_last_5"; "away_avg_xg_last_5";
   "home_avg_poss_last_5"; "away_avg_poss_last_5";
   "home_avg_goals_conceded_last_5"; "away_avg_goals_conceded_last_5"].

(** [season_of_A] after [create_rolling_features]. *)
Definition season_of_A_features : DataFrame :=
  Eval vm_compute in
    match create_rolling_features season_of_A with
    | Ok g => g
    | Raise _ => mkDF 0 []
    end.

(** [season_of_A] after [encode_teams]. *)
Definition season_of_A_encoded : DataFrame :=
  Eval vm_compute in
    match encode_teams season_of_A with
    | Ok g => g
    | Raise _ => mkDF 0 []
    end.

(** The columns that the stages after loading write or drop. *)
Definition touched_columns : list string :=
  feature_names ++ map fst comparison_columns ++ default_columns_to_drop.

(** The four stages that follow loading, chained as in
    [process_season_data]. *)
Definition engineer (df : DataFrame) : result DataFrame :=
  df_with_rolling <- create_rolling_features df ;;
  df_encoded <- encode_teams df_with_rolling ;;
  df_with_comparisons <- create_comparison_features df_encoded ;;
  clean_data df_with_comparisons None.

(** A stage keeps the rows, and the cells of every column outside
    [written]. *)
Definition keeps_outside (written : list string) (df out : DataFrame) : Prop :=
  nrows out = nrows df /\
  forall n s, ~ In n written -> pd.getcol df n = Ok s -> pd.getcol out n = Ok s.

(** Does a label end with the suffix [_x]? *)
Fixpoint ends_x (s : string) : bool :=
  match s with
  | EmptyString => false
  | String a s' =>
      match s' with
      | String b EmptyString => Ascii.eqb a "_" && Ascii.eqb b "x"
      | _ => ends_x s'
      end
  end.

Definition merge_keys : list string := ["date"; "home_team"; "away_team"].

Definition away_stats : list string :=
  ["away_sh"; "away_shot_on_target"; "away_dist_covered"; "away_poss"].

(** Home rows and away rows after the renaming of lines 37-50, reduced to
    the keys and two statistics. *)
Definition home_rows : DataFrame :=
  from_rows ["date"; "home_team"; "away_team"; "home_goals"; "home_sh"]
    [[Str "2021-01-02"; Str "A"; Str "B"; int 2; int 10];
     [Str "2021-01-09"; Str "B"; Str "A"; int 1; int 7];
     [Str "2021-01-16"; Str "A"; Str "C"; int 0; int 12]].

(** The away side of the first fixture is recorded twice, that of the
    second fixture is absent. *)
Definition away_rows : DataFrame :=
  from_rows ["date"; "home_team"; "away_team"; "away_sh"; "away_shot_on_target";
             "away_dist_covered"; "away_poss"]
    [[Str "2021-01-02"; Str "A"; Str "B"; int 8; int 3; int 17; int 45];
     [Str "2021-01-02"; Str "A"; Str "B"; int 9; int 4; int 18; int 46];
     [Str "2021-01-16"; Str "A"; Str "C"; int 5; int 1; int 16; int 40]].

(** The order of [sort_values] on dates: ascending, missing dates last. *)
Definition chronological (a b : cell) : Prop := pd.key_leb a b = true.

Definition by_key (p q : cell * nat) : Prop := chronological (fst p) (fst q).

(** Row [i] of a column of dates may stand before row [j]. *)
Definition before (keys : Series) (i j : nat) : Prop :=
  chronological (nth i keys NaN) (nth j keys NaN).

From Stdlib Require Import Lqa.

(** ** Further notions and sample tables *)

(** [away_only] after [create_rolling_features]: no [away_*] column. *)
Definition away_only_features : DataFrame :=
  Eval vm_compute in
    match create_rolling_features away_only with
    | Ok g => g
    | Raise _ => mkDF 0 []
    end.

(** A season file without fixtures: the header only. *)
Definition empty_season : DataFrame := from_rows fixture_columns [].

(** The columns [create_rolling_features] reads beside [home_team]. *)
Definition required_columns : list string :=
  "away_team" :: "date" :: stat_columns.

(** The team-centric columns of a sequence: (column, (column read on the
    home rows of the team, column read on its away rows)). *)
Definition own_columns : list (string * (string * string)) :=
  [("team_goals", ("home_goals", "away_goals"));
   ("team_xg", ("home_xg", "away_xg"));
   ("team_shots", ("home_sh", "away_sh"));
   ("team_shots_on_target", ("home_shot_on_target", "away_shot_on_target"));
   ("team_poss", ("home_poss", "away_poss"));
   ("team_goals_conceded", ("away_goals", "home_goals"));
   ("team_xg_conceded", ("away_xg", "home_xg"))].

(** A cell that is missing or a number between [lo] and [hi]. *)
Definition within (lo hi : Q) (c : cell) : Prop :=
  match c with
  | NaN => True
  | Num q => (lo <= q <= hi)%Q
  | _ => False
  end.

(** Strict order of labels, as Python compares text. *)
Definition label_lt (a b : string) : Prop := String.compare a b = Lt.

(** The cell of row [r] in the column [name]; a table without the column
    holds NaN there. *)
Definition cell_at (df : DataFrame) (name : string) (r : nat) : option cell :=
  nth_error (pd.col_or_nan df name) r.

(** Lines 41-75 for one team: its sequence with the rolling statistics. *)
Definition team_stats_of (df : DataFrame) (team : cell) : result DataFrame :=
  games <- team_games df team ;; rolling_stats games.

(** The statistic [name] of the first record of [team] dated [d]. *)
Definition looked_up (df : DataFrame) (team d : cell) (name : string)
  : option cell :=
  match team_stats_of df team with
  | Ok all_team_games =>
      match pd.getcol all_team_games "date", pd.getcol all_team_games name with
      | Ok dates, Ok s =>
          match pd.positions (pd.mask_eq dates d) with
          | first :: _ => Some (nth first s NaN)
          | [] => None
          end
      | _, _ => None
      end
  | Raise _ => None
  end.

(** A written cell, or the cell that was there. *)
Definition written_or (v old : option cell) : option cell :=
  match v with
  | Some c => Some c
  | None => old
  end.

(** Is row [r] selected by [s == v]? *)
Definition selected (s : Series) (v : cell) (r : nat) : bool :=
  match nth_error s r with
  | Some c => cell_eq c v
  | None => false
  end.

(** [season_of_A] as a season file holds it: text dates and outcome
    labels. *)
Definition raw_fixture (date : string) (home away label : string) (hg ag : Z)
  : list cell :=
  [Str date; Str home; Str away; Str label; int hg; int ag;
   Num (3 # 2); Num (1 # 2); int 10; int 8; int 4; int 3; int 55; int 45;
   int 2021].

Definition raw_season_of_A : DataFrame :=
  from_rows fixture_columns
    [raw_fixture "2021-01-01" "A" "B" "W" 2 0;
     raw_fixture "2021-01-02" "C" "A" "L" 0 1;
     raw_fixture "2021-01-03" "A" "C" "L" 0 3;
     raw_fixture "2021-01-04" "B" "A" "D" 1 1;
     raw_fixture "2021-01-05" "A" "B" "W" 2 1;
     raw_fixture "2021-01-06" "C" "A" "W" 2 0].

Definition processed_season_of_A : DataFrame :=
  Eval vm_compute in
    match process_season_data iso_to_datetime raw_season_of_A with
    | Ok g => g
    | Raise _ => mkDF 0 []
    end.

(** ** src/01_data_preprocessing.py, the whole function *)

Module pd2.

(** Lexicographic order of two rows of sort keys; on each key missing
    values come last. *)
Fixpoint lex_leb (a b : list cell) : bool :=
  match a, b with
  | x :: a', y :: b' =>
      if pd.key_leb x y then (if pd.key_leb y x then lex_leb a' b' else true)
      else false
  | _, _ => true
  end.

Fixpoint insert_row (x : list cell * nat) (l : list (list cell * nat))
  : list (list cell * nat) :=
  match l with
  | [] => [x]
  | y :: l' =>
      if lex_leb (fst x) (fst y) then x :: y :: l' else y :: insert_row x l'
  end.

Definition sort_rows (l : list (list cell * nat)) : list (list cell * nat) :=
  fold_right insert_row [] l.

(** Row order after [sort_values(by=[...])]; rows with equal keys keep
    their order of appearance. *)
Definition argsort_by (keys : list Series) (n : nat) : list nat :=
  map snd (sort_rows (map (fun i => (pd.row_key keys i, i)) (seq 0 n))).

(** [df.sort_values(by=labels)] *)
Definition sort_values_by (df : DataFrame) (labels : list string)
  : result DataFrame :=
  keys <- mapM (pd.getcol df) labels ;;
  if forallb pd.sortable keys
  then Ok (pd.take_rows (argsort_by keys (nrows df)) df)
  else Raise TypeError.

(** [df.rename(columns=mapping)]: a label outside the mapping stays. *)
Fixpoint renamed (mapping : list (string * string)) (n : string) : string :=
  match mapping with
  | [] => n
  | (old, new) :: mapping' =>
      if String.eqb old n then new else renamed mapping' n
  end.

Definition rename (df : DataFrame) (mapping : list (string * string))
  : DataFrame :=
  mkDF (nrows df) (map (fun c => (renamed mapping (fst c), snd c)) (columns df)).

End pd2.

Definition column_order : list string :=
  ["date"; "time"; "round"; "team"; "opponent"; "venue"; "gf"; "ga";
   "result"; "formation"; "opp formation"; "poss"; "xg"; "xga"; "sh";
   "sot"; "dist"; "season"].

(** [x = list(s.unique()); x.sort()] for a column of names.  Names are
    text: Python raises [TypeError] when it compares a text with a missing
    value or a number, and the embedding raises it for every column that
    holds anything but text. *)
Definition sorted_names (s : Series) : result (list string) :=
  if forallb pd.is_str s then Ok (pd.categories s) else Raise TypeError.

(** [team_names[x]] for [team_names = dict(zip(team, opponent))] *)
Fixpoint team_name (team_names : list (string * string)) (x : string)
  : result string :=
  match team_names with
  | [] => Raise KeyError
  | (k, v) :: rest => if String.eqb k x then Ok v else team_name rest x
  end.

(** [lambda x: team_names[x]] on one cell of the column. *)
Definition standardized (team_names : list (string * string)) (x : cell)
  : result cell :=
  match x with
  | Str n => v <- team_name team_names n ;; Ok (Str v)
  | _ => Raise KeyError
  end.

(** Lines 24-30. *)
Definition standardize_teams (df : DataFrame) : result DataFrame :=
  t <- pd.getcol df "team" ;;
  team <- sorted_names t ;;
  o <- pd.getcol df "opponent" ;;
  opponent <- sorted_names o ;;
  let team_names := combine team opponent in
  t' <- mapM (standardized team_names) t ;;
  Ok (pd.setcol df "team" t').

(** Lines 33-34: the rows of one venue, sorted by date and time. *)
Definition venue_rows (df : DataFrame) (venue : string) : result DataFrame :=
  v <- pd.getcol df "venue" ;;
  pd2.sort_values_by (pd.filter_rows (pd.mask_eq v (Str venue)) df)
                     ["date"; "time"].

Definition away_labels : list (string * string) :=
  [("team", "away_team"); ("opponent", "home_team");
   ("formation", "away_formation"); ("opp formation", "home_formation");
   ("gf", "away_goals"); ("ga", "home_goals"); ("poss", "away_poss");
   ("xg", "away_xg"); ("xga", "home_xg"); ("sh", "away_sh");
   ("sot", "away_shot_on_target"); ("dist", "away_dist_covered")].

Definition home_labels : list (string * string) :=
  [("team", "home_team"); ("opponent", "away_team");
   ("formation", "home_formation"); ("opp formation", "away_formation");
   ("gf", "home_goals"); ("ga", "away_goals"); ("poss", "home_poss");
   ("xg", "home_xg"); ("xga", "away_xg"); ("sh", "home_sh");
   ("sot", "home_shot_on_target"); ("dist", "home_dist_covered")].

Definition new_order : list string :=
  ["date"; "time"; "round"; "home_team"; "away_team"; "venue"; "result";
   "home_goals"; "away_goals"; "home_poss"; "away_poss"; "home_xg";
   "away_xg"; "home_sh"; "away_sh"; "home_shot_on_target";
   "away_shot_on_target"; "season"].

(** Lines 16-61, from the table [pd.read_csv] returned: the fixtures,
    the date still one of the columns. *)
Definition fixtures_table (raw : DataFrame) : result DataFrame :=
  df <- pd.select raw column_order ;;
  df <- standardize_teams df ;;
  df_home <- venue_rows df "Home" ;;
  df_away <- venue_rows df "Away" ;;
  let df_away := pd2.rename df_away away_labels in
  let df_home := pd2.rename df_home home_labels in
  fixtures_df <- merge_home_away df_home df_away ;;
  pd.select fixtures_df new_order.

Definition season_years : list (string * Z) :=
  [("2020-2021", 2021%Z); ("2021-2022", 2022%Z); ("2022-2023", 2023%Z);
   ("2023-2024", 2024%Z); ("2024-2025", 2025%Z)].

(** Lines 68-74 on the columns of a table. *)
Definition split_seasons (fixtures_df : DataFrame)
  : result (list (string * DataFrame)) :=
  mapM (fun p =>
          s <- pd.getcol fixtures_df "season" ;;
          Ok (fst p, pd.filter_rows (pd.mask_eq s (int (snd p))) fixtures_df))
       season_years.

(** A table whose rows are labelled by a named series of their own, the
    index, in place of their positions. *)
Record Indexed : Type := mkIndexed
  { index_name : string;
    index : Series;
    frame : DataFrame }.

(** Lines 64-65: the dates become the labels of the rows and leave the
    columns. *)
Definition date_as_index (fixtures_df : DataFrame) : result Indexed :=
  dates <- pd.getcol fixtures_df "date" ;;
  fixtures_df <- pd.drop fixtures_df ["date"] ;;
  Ok (mkIndexed "date" dates fixtures_df).

(** [df[mask]] on a labelled table: the labels follow their rows. *)
Definition rows_where (mask : list bool) (t : Indexed) : Indexed :=
  mkIndexed (index_name t)
            (pd.take (pd.positions mask) (index t))
            (pd.filter_rows mask (frame t)).

(** Lines 68-74 on the labelled table. *)
Definition season_tables (fixtures_df : Indexed)
  : result (list (string * Indexed)) :=
  mapM (fun p =>
          s <- pd.getcol (frame fixtures_df) "season" ;;
          Ok (fst p, rows_where (pd.mask_eq s (int (snd p))) fixtures_df))
       season_years.

(** The table of a file that [to_csv] writes: the index first, under its
    name, then the columns. *)
Definition csv_table (t : Indexed) : DataFrame :=
  mkDF (nrows (frame t)) ((index_name t, index t) :: columns (frame t)).

Section Preprocessing.

(** [season_df.to_csv(path)]: the write raises when it cannot be done, as
    when the directory of [path] does not exist. *)
Variable to_csv : string -> Indexed -> result unit.

(** [preprocess_match_data], from the table [pd.read_csv] returned. *)
Definition preprocess_match_data (raw : DataFrame) (output_dir : string)
  : result (list (string * Indexed)) :=
  fixtures_df <- fixtures_table raw ;;
  fixtures_df <- date_as_index fixtures_df ;;
  seasons <- season_tables fixtures_df ;;
  _ <- mapM (fun season =>
               to_csv (String.append output_dir
                         (String.append (fst season) ".csv"))
                      (snd season))
            seasons ;;
  Ok seasons.

End Preprocessing.

(** A file system that takes every write, and one without the output
    directory. *)
Definition every_write (path : string) (t : Indexed) : result unit := Ok tt.


(** A raw match log: one row for each team of each match. *)
Definition raw_row (date time team opponent venue : string) (gf ga : Z)
    (season : Z) : list cell :=
  [Str date; Str time; Str "Matchweek 1"; Str team; Str opponent; Str venue;
   int gf; int ga; Str (if (ga <? gf)%Z then "W" else if (gf <? ga)%Z then "L" else "D");
   Str "4-3-3"; Str "4-4-2"; int 55; Num (3 # 2); Num (1 # 2); int 10;
   int 4; Num (35 # 2); int season].

Definition raw_matches : DataFrame :=
  from_rows column_order
    [raw_row "2020-09-12" "15:00" "Arsenal" "Fulham" "Away" 3 0 2021;
     raw_row "2020-09-12" "15:00" "Fulham" "Arsenal" "Home" 0 3 2021;
     raw_row "2021-08-13" "20:00" "Arsenal" "Fulham" "Home" 0 2 2022;
     raw_row "2021-08-13" "20:00" "Fulham" "Arsenal" "Away" 2 0 2022;
     raw_row "2019-08-11" "14:00" "Arsenal" "Fulham" "Home" 1 0 2020;
     raw_row "2019-08-11" "14:00" "Fulham" "Arsenal" "Away" 0 1 2020].

(** The season cell of a fixture names the year [y]. *)
Definition in_season (y : Z) (c : cell) : bool := cell_eq c (int y).

(** The season cell names one of the five years of lines 68-74. *)
Definition in_some_season (c : cell) : bool :=
  existsb (fun p => in_season (snd p) c) season_years.

(** A raw log whose team column spells more names than its opponent
    column. *)
Definition raw_unpaired : DataFrame :=
  from_rows column_order
    [raw_row "2020-09-12" "15:00" "Arsenal" "Fulham" "Away" 3 0 2021;
     raw_row "2020-09-19" "15:00" "Leeds" "Fulham" "Away" 4 3 2021].

(** The fixtures table of [raw_matches]. *)
Definition fixtures_of_raw_matches : DataFrame :=
  Eval vm_compute in
    match fixtures_table raw_matches with
    | Ok g => g
    | Raise _ => mkDF 0 []
    end.

(** Raw rows of one venue in the order of lines 33-34. *)
Definition venue_order (venue date time : Series) (v : string) : list nat :=
  let ps := pd.positions (pd.mask_eq venue (Str v)) in
  map (fun i => nth i ps 0)
      (pd2.argsort_by [pd.take ps date; pd.take ps time] (length ps)).

(** Raw row [i], a home record, and raw row [j], an away record, tell of
    the same match: same date, and each names the other as its opponent. *)
Definition same_match (date team opponent : Series) (i j : nat) : bool :=
  pd.key_same [nth i date NaN; nth i team NaN; nth i opponent NaN]
              [nth j date NaN; nth j opponent NaN; nth j team NaN].

(** The pairs (home record, away record) of raw rows that the merge of
    line 55 joins, in the order of its output. *)
Definition fixture_pairs (venue date time team opponent : Series)
  : list (nat * nat) :=
  flat_map (fun i =>
              map (fun j => (i, j))
                  (filter (same_match date team opponent i)
                          (venue_order venue date time "Away")))
           (venue_order venue date time "Home").

(** Where the columns of a fixture come from: (raw label, fixture label),
    read off the home record and off the away record. *)
Definition home_source : list (string * string) :=
  [("date", "date"); ("time", "time"); ("round", "round");
   ("opponent", "away_team"); ("venue", "venue"); ("result", "result");
   ("gf", "home_goals"); ("ga", "away_goals"); ("poss", "home_poss");
   ("xg", "home_xg"); ("xga", "away_xg"); ("sh", "home_sh");
   ("sot", "home_shot_on_target"); ("season", "season")].

Definition away_source : list (string * string) :=
  [("sh", "away_sh"); ("sot", "away_shot_on_target"); ("poss", "away_poss")].


(** ** src/02_feature_engineering.py, [main] *)

(** [s.endswith(suffix)] *)
Definition endswith (s suffix : string) : bool :=
  (String.length suffix <=? String.length s)
  && String.eqb (substring (String.length s - String.length suffix)
                           (String.length suffix) s)
                suffix.

Module os_path.

(** [p.rfind(c)] for one character; [None] stands for -1. *)
Fixpoint rfind (c : ascii) (p : string) : option nat :=
  match p with
  | EmptyString => None
  | String a p' =>
      match rfind c p' with
      | Some k => Some (S k)
      | None => if Ascii.eqb a c then Some 0 else None
      end
  end.

Definition is_dot (p : string) (k : nat) : bool :=
  match String.get k p with
  | Some c => Ascii.eqb c "."
  | None => false
  end.

(** [os.path.splitext(p)]: the extension starts at the last dot of the
    last component, unless only dots stand before it. *)
Definition splitext (p : string) : string * string :=
  let filenameIndex :=
    match rfind "/" p with
    | Some sepIndex => S sepIndex
    | None => 0
    end in
  match rfind "." p with
  | Some dotIndex =>
      if (filenameIndex <=? dotIndex)
         && existsb (fun k => negb (is_dot p k))
                    (seq filenameIndex (dotIndex - filenameIndex))
      then (substring 0 dotIndex p,
            substring dotIndex (String.length p - dotIndex) p)
      else (p, "")
  | None => (p, "")
  end.

(** [os.path.join(a, b)] *)
Definition join (a b : string) : string :=
  if prefix "/" b then b
  else if (String.length a =? 0) || endswith a "/" then String.append a b
  else String.append a (String.append "/" b).

End os_path.

Definition input_dir : string := "data/02_preprocessed/".
Definition output_dir : string := "data/03_feature_engineered/".

Section Main.

Variable to_datetime : Series -> result Series.

(** [pd.read_csv(path)]: the table of a file, or the exception raised. *)
Variable read_csv : string -> result DataFrame.

(** Lines 236-238. *)
Definition output_file (filename : string) : string :=
  let (base_name, extension) := os_path.splitext filename in
  let output_filename :=
    String.append base_name (String.append "_engineered" extension) in
  os_path.join output_dir output_filename.

(** Lines 232-253 for one file: the file written, if any.  Every
    exception is caught. *)
Definition process_file (filename : string) : list (string * DataFrame) :=
  let input_file := os_path.join input_dir filename in
  match (raw <- read_csv input_file ;; process_season_data to_datetime raw) with
  | Ok df_processed => [(output_file filename, df_processed)]
  | Raise _ => []
  end.

(** [main]: the files it writes, in order, given the listing of the
    input directory ([None]: the directory does not exist). *)
Definition main (listdir : option (list string)) : list (string * DataFrame) :=
  match listdir with
  | None => []
  | Some names =>
      let files_to_process := filter (fun f => endswith f ".csv") names in
      flat_map process_file files_to_process
  end.

End Main.
(** ** The error monad *)

Lemma bind_Ok {A B : Type} (m : result A) (k : A -> result B) (b : B) :
  bind m k = Ok b -> exists a, m = Ok a /\ k a = Ok b.
Proof.
  destruct m as [a|e]; simpl; intros H.
  - exists a. split; [reflexivity | exact H].
  - discriminate H.
Qed.

Ltac inv_bind H :=
  let x := fresh "x" in
  let Hx := fresh "Hx" in
  apply bind_Ok in H; destruct H as (x & Hx & H).

Lemma mapM_length {A B : Type} (f : A -> result B) (l : list A) (l' : list B) :
  mapM f l = Ok l' -> length l' = length l.
Proof.
  revert l'. induction l as [|x l IH]; simpl; intros l' H.
  - inversion H. reflexivity.
  - inv_bind H. inv_bind H. inversion H; subst. simpl.
    f_equal. apply IH. assumption.
Qed.

Lemma mapM_nth_error {A B : Type} (f : A -> result B) (l : list A) (l' : list B) :
  mapM f l = Ok l' ->
  forall i x, nth_error l i = Some x ->
  exists y, f x = Ok y /\ nth_error l' i = Some y.
Proof.
  revert l'. induction l as [|a l IH]; simpl; intros l' H i x Hi.
  - destruct i; discriminate Hi.
  - inv_bind H. inv_bind H. inversion H; subst.
    destruct i as [|i]; simpl in *.
    + inversion Hi; subst. eauto.
    + eapply IH; eauto.
Qed.

Lemma mapM_total {A B : Type} (f : A -> result B) (l : list A) :
  (forall x, In x l -> exists y, f x = Ok y) ->
  exists l', mapM f l = Ok l'.
Proof.
  induction l as [|a l IH]; simpl; intros H.
  - eauto.
  - destruct (H a (or_introl eq_refl)) as [y Hy].
    destruct IH as [l' Hl']; [intros; apply H; now right|].
    rewrite Hy, Hl'. simpl. eauto.
Qed.

(** ** Columns of a table *)

Lemma lookup_assign_same name s cols :
  pd.lookup name (pd.assign name s cols) = Some s.
Proof.
  induction cols as [|[n s0] cols IH]; simpl.
  - now rewrite String.eqb_refl.
  - destruct (String.eqb n name) eqn:E; simpl; rewrite E; auto.
Qed.

Lemma lookup_assign_other name other s cols :
  name <> other ->
  pd.lookup other (pd.assign name s cols) = pd.lookup other cols.
Proof.
  intros Hne. induction cols as [|[n s0] cols IH]; simpl.
  - apply String.eqb_neq in Hne. now rewrite Hne.
  - destruct (String.eqb n name) eqn:E; simpl.
    + apply String.eqb_eq in E. subst n.
      apply String.eqb_neq in Hne. now rewrite Hne.
    + destruct (String.eqb n other); auto.
Qed.

Lemma getcol_setcol_same df name s :
  pd.getcol (pd.setcol df name s) name = Ok s.
Proof. unfold pd.getcol, pd.setcol. simpl. now rewrite lookup_assign_same. Qed.

Lemma getcol_setcol_other df name other s :
  name <> other ->
  pd.getcol (pd.setcol df name s) other = pd.getcol df other.
Proof.
  intros H. unfold pd.getcol, pd.setcol. simpl.
  now rewrite lookup_assign_other.
Qed.

Lemma getcol_lookup df name s :
  pd.getcol df name = Ok s <-> pd.lookup name (columns df) = Some s.
Proof.
  unfold pd.getcol. destruct (pd.lookup name (columns df)); split; congruence.
Qed.

Lemma lookup_has_column df name :
  pd.has_column df name = true <-> exists s, pd.lookup name (columns df) = Some s.
Proof.
  unfold pd.has_column, names. destruct df as [n cols]. simpl.
  induction cols as [|[c s0] cols IH]; simpl.
  - split; [discriminate | intros [s H]; discriminate].
  - rewrite String.eqb_sym. destruct (String.eqb c name); simpl.
    + split; eauto.
    + exact IH.
Qed.

Lemma names_assign name s cols :
  map fst (pd.assign name s cols) =
  if existsb (String.eqb name) (map fst cols) then map fst cols
  else map fst cols ++ [name].
Proof.
  induction cols as [|[n s0] cols IH]; simpl; [reflexivity|].
  rewrite (String.eqb_sym name n).
  destruct (String.eqb n name); simpl; [reflexivity|].
  rewrite IH. now destruct (existsb (String.eqb name) (map fst cols)).
Qed.

Lemma lookup_app name (c1 c2 : list (string * Series)) :
  pd.lookup name (c1 ++ c2) =
  match pd.lookup name c1 with
  | Some s => Some s
  | None => pd.lookup name c2
  end.
Proof.
  induction c1 as [|[n s0] c1 IH]; simpl; [reflexivity|].
  now destruct (String.eqb n name).
Qed.

Lemma lookup_map name (f : string -> Series -> Series) cols :
  pd.lookup name (map (fun c => (fst c, f (fst c) (snd c))) cols) =
  option_map (f name) (pd.lookup name cols).
Proof.
  induction cols as [|[n s0] cols IH]; simpl; [reflexivity|].
  destruct (String.eqb n name) eqn:E; [|exact IH].
  apply String.eqb_eq in E. now subst.
Qed.

(** ** Rolling mean and shift on a series *)

Lemma nth_error_map_seq {A : Type} (f : nat -> A) (n i : nat) :
  i < n -> nth_error (map f (seq 0 n)) i = Some (f i).
Proof.
  intros H. rewrite nth_error_map, nth_error_seq.
  destruct (Nat.ltb_spec i n); [reflexivity | lia].
Qed.

Lemma shift_head (s : Series) :
  s <> [] -> nth_error (pd.shift s) 0 = Some NaN.
Proof. destruct s; [congruence | reflexivity]. Qed.

Lemma nth_error_removelast {A : Type} (l : list A) (i : nat) :
  S i < length l -> nth_error (removelast l) i = nth_error l i.
Proof.
  revert i. induction l as [|a l IH]; intros i H; [simpl in H; lia|].
  destruct l as [|b l]; [simpl in H; lia|].
  destruct i as [|i]; [reflexivity|].
  change (nth_error (removelast (b :: l)) i = nth_error (b :: l) i).
  apply IH. simpl in *. lia.
Qed.

Lemma shift_tail (s : Series) (i : nat) :
  S i < length s -> nth_error (pd.shift s) (S i) = nth_error s i.
Proof.
  intros H. destruct s as [|c s]; [simpl in H; lia|].
  unfold pd.shift. cbn [nth_error].
  apply nth_error_removelast. exact H.
Qed.

Lemma slice_indices (lo hi : nat) (s : Series) :
  hi <= length s ->
  pd.slice lo hi s = map (fun j => nth j s NaN) (seq lo (hi - lo)).
Proof.
  intros H. unfold pd.slice.
  apply nth_error_ext. intros k.
  rewrite nth_error_map, nth_error_seq.
  destruct (Nat.ltb_spec k (hi - lo)) as [Hk|Hk]; simpl.
  - rewrite nth_error_firstn.
    destruct (Nat.ltb_spec k (hi - lo)); [|lia].
    rewrite nth_error_skipn.
    apply nth_error_nth'. lia.
  - apply nth_error_None. rewrite length_firstn. lia.
Qed.

(** The prior window holds exactly the indices [max(0, i-5) .. i-1]. *)
Lemma prior_indices_spec (i j : nat) :
  In j (prior_indices i) <->
  (Z.max 0 (Z.of_nat i - 5) <= Z.of_nat j <= Z.of_nat i - 1)%Z.
Proof. unfold prior_indices. rewrite in_seq. lia. Qed.

Lemma prior_window_length (i : nat) (xs : Series) :
  length (prior_window i xs) = Nat.min i 5.
Proof. unfold prior_window, prior_indices. rewrite length_map, length_seq. lia. Qed.

(** No leakage: the prior window of match [i] reads matches before [i]
    only. *)
Lemma prior_window_reads_earlier_matches (i : nat) (xs xs' : Series) :
  (forall j, j < i -> nth j xs NaN = nth j xs' NaN) ->
  prior_window i xs = prior_window i xs'.
Proof.
  intros H. unfold prior_window. apply map_ext_in.
  intros j Hj. apply H. unfold prior_indices in Hj. apply in_seq in Hj. lia.
Qed.

Lemma observations_Num (qs : list Q) : pd.observations (map Num qs) = qs.
Proof. induction qs as [|q qs IH]; simpl; congruence. Qed.

(** The mean of a window without missing values is the arithmetic mean. *)
Lemma window_mean_Num (qs : list Q) :
  qs <> [] -> pd.window_mean 1 (map Num qs) = Num (pd.average qs).
Proof.
  intros H. unfold pd.window_mean. rewrite observations_Num.
  destruct qs; [congruence | reflexivity].
Qed.

Lemma rolling_mean_length w m s r :
  pd.rolling_mean w m s = Ok r -> length r = length s.
Proof.
  unfold pd.rolling_mean. destruct (numeric s); [|discriminate].
  intros H. inversion H. now rewrite length_map, length_seq.
Qed.

(** [rolling(5, min_periods=1).mean().shift(1)] at row [i >= 1] is the mean
    over the prior window of row [i]. *)
Lemma rolling_shift_at (s r : Series) (i : nat) :
  pd.rolling_mean 5 1 s = Ok r ->
  1 <= i < length s ->
  nth_error (pd.shift r) i = Some (pd.window_mean 1 (prior_window i s)).
Proof.
  intros Hr Hi.
  pose proof (rolling_mean_length _ _ _ _ Hr) as Hlen.
  unfold pd.rolling_mean in Hr. destruct (numeric s); [|discriminate].
  inversion Hr as [Hr']. clear Hr.
  destruct i as [|i]; [lia|].
  rewrite shift_tail by (rewrite Hr', Hlen; lia).
  rewrite nth_error_map_seq by lia.
  f_equal. f_equal. unfold prior_window, prior_indices.
  replace (i + 1 - 5) with (S i - 5) by lia.
  replace (i + 1) with (S i) by lia.
  apply slice_indices. lia.
Qed.

Lemma rolling_shift_first (s r : Series) :
  pd.rolling_mean 5 1 s = Ok r ->
  s <> [] ->
  nth_error (pd.shift r) 0 = Some NaN.
Proof.
  intros Hr Hs. apply shift_head.
  apply rolling_mean_length in Hr. intros ->. destruct s; simpl in *; congruence.
Qed.

Lemma numeric_rolling_total w m s :
  numeric s = true -> exists r, pd.rolling_mean w m s = Ok r.
Proof. intros H. unfold pd.rolling_mean. rewrite H. eauto. Qed.

(** ** Labels *)

Lemma mem_In n l : mem n l = true <-> In n l.
Proof.
  unfold mem. rewrite existsb_exists. split.
  - intros (x & Hx & E). apply String.eqb_eq in E. now subst.
  - intros H. exists n. split; [assumption | apply String.eqb_refl].
Qed.

Lemma mem_not_In n l : mem n l = false <-> ~ In n l.
Proof.
  rewrite <- mem_In. destruct (mem n l); split; congruence.
Qed.

Lemma disjoint_spec l1 l2 :
  disjoint l1 l2 = true -> forall a b, In a l1 -> In b l2 -> a <> b.
Proof.
  unfold disjoint. rewrite forallb_forall. intros H a b Ha Hb ->.
  specialize (H b Ha). apply negb_true_iff, mem_not_In in H. contradiction.
Qed.

(** ** Columns derived one after the other *)

Lemma copy_column_derive games p : copy_column games p = derive (@Ok Series) games p.
Proof. reflexivity. Qed.

Lemma add_rolling_derive games p : add_rolling games p = derive rolled games p.
Proof.
  unfold add_rolling, derive, rolled.
  destruct (pd.getcol games (snd p)) as [s|e]; simpl; [|reflexivity].
  destruct (pd.rolling_mean 5 1 s); reflexivity.
Qed.

Lemma foldM_ext {A B : Type} (f g : A -> B -> result A) (l : list B) (a : A) :
  (forall a x, f a x = g a x) -> foldM f l a = foldM g l a.
Proof.
  intros H. revert a. induction l as [|x l IH]; intros a; simpl; [reflexivity|].
  rewrite H. destruct (g a x); simpl; auto.
Qed.

Lemma derive_Ok f games p g1 :
  derive f games p = Ok g1 ->
  exists s m, pd.getcol games (snd p) = Ok s /\ f s = Ok m /\
              g1 = pd.setcol games (fst p) m.
Proof.
  unfold derive. intros H. inv_bind H. inv_bind H. inversion H. eauto.
Qed.

Lemma derive_fold_spec f specs : forall games g',
  distinct (map fst specs) = true ->
  disjoint (map fst specs) (map snd specs) = true ->
  foldM (derive f) specs games = Ok g' ->
  nrows g' = nrows games /\
  (forall n, ~ In n (map fst specs) -> pd.getcol g' n = pd.getcol games n) /\
  (forall dst src, In (dst, src) specs ->
     exists s m, pd.getcol games src = Ok s /\ f s = Ok m /\
                 pd.getcol g' dst = Ok m).
Proof.
  induction specs as [|[d0 s0] specs IH]; intros games g' Hd Hj H.
  - simpl in H. inversion H; subst. repeat split; auto. intros ? ? [].
  - simpl in H. inv_bind H.
    apply derive_Ok in Hx. destruct Hx as (s & m & Hs & Hm & ->).
    simpl in Hd. apply andb_true_iff in Hd. destruct Hd as [Hd0 Hd].
    apply negb_true_iff, mem_not_In in Hd0.
    pose proof (disjoint_spec _ _ Hj) as Hne.
    assert (Hj' : disjoint (map fst specs) (map snd specs) = true).
    { unfold disjoint in *. simpl in Hj. apply andb_true_iff in Hj.
      destruct Hj as [_ Hj]. rewrite forallb_forall in *. intros n Hn.
      specialize (Hj n Hn). simpl in Hj.
      apply negb_true_iff in Hj. apply orb_false_iff in Hj.
      apply negb_true_iff. tauto. }
    destruct (IH _ _ Hd Hj' H) as (Hn & Hframe & Hspec). simpl in *.
    split; [exact Hn|]. split.
    + intros n Hnot. rewrite Hframe by tauto.
      apply getcol_setcol_other. intros ->. tauto.
    + intros dst src [E|Hin].
      * inversion E; subst. exists s, m. repeat split; auto.
        rewrite Hframe by exact Hd0. apply getcol_setcol_same.
      * destruct (Hspec _ _ Hin) as (s1 & m1 & H1 & H2 & H3).
        exists s1, m1. repeat split; auto.
        rewrite <- H1. symmetry. apply getcol_setcol_other.
        apply Hne; [now left | right; now apply (in_map snd _ _ Hin)].
Qed.

Lemma derive_fold_total f specs : forall games,
  disjoint (map fst specs) (map snd specs) = true ->
  (forall src, In src (map snd specs) ->
     exists s m, pd.getcol games src = Ok s /\ f s = Ok m) ->
  exists g', foldM (derive f) specs games = Ok g'.
Proof.
  induction specs as [|[d0 s0] specs IH]; intros games Hj H.
  - simpl. eauto.
  - pose proof (disjoint_spec _ _ Hj) as Hne.
    destruct (H s0 (or_introl eq_refl)) as (s & m & Hs & Hm).
    simpl. unfold derive at 1. simpl. rewrite Hs. simpl. rewrite Hm. simpl.
    apply IH.
    + unfold disjoint in *. simpl in Hj. apply andb_true_iff in Hj.
      destruct Hj as [_ Hj]. rewrite forallb_forall in *. intros n Hn.
      specialize (Hj n Hn). simpl in Hj.
      apply negb_true_iff in Hj. apply orb_false_iff in Hj.
      apply negb_true_iff. tauto.
    + intros src Hsrc. rewrite getcol_setcol_other.
      * apply H. now right.
      * apply Hne; [now left | now right].
Qed.

Lemma rolling_stats_spec games g' :
  rolling_stats games = Ok g' ->
  nrows g' = nrows games /\
  (forall n, ~ In n rolling_names -> pd.getcol g' n = pd.getcol games n) /\
  (forall dst src, In (dst, src) rolling_columns ->
     exists s m, pd.getcol games src = Ok s /\ rolled s = Ok m /\
                 pd.getcol g' dst = Ok m).
Proof.
  unfold rolling_stats. rewrite (foldM_ext _ _ _ _ add_rolling_derive).
  apply derive_fold_spec; reflexivity.
Qed.

Lemma rolling_stats_total games :
  (forall src, In src (map snd rolling_columns) ->
     exists s, pd.getcol games src = Ok s /\ numeric s = true) ->
  exists g', rolling_stats games = Ok g'.
Proof.
  intros H. unfold rolling_stats. rewrite (foldM_ext _ _ _ _ add_rolling_derive).
  apply derive_fold_total; [reflexivity|].
  intros src Hsrc. destruct (H src Hsrc) as (s & Hs & Hnum).
  destruct (numeric_rolling_total 5 1 s Hnum) as [r Hr].
  exists s, (pd.shift r). split; [assumption|].
  unfold rolled. now rewrite Hr.
Qed.

(** ** Row selection, concatenation and sorting *)

Lemma take_length ps s : length (pd.take ps s) = length ps.
Proof. unfold pd.take. apply length_map. Qed.

Lemma is_numeric_nth s i : numeric s = true -> is_numeric (nth i s NaN) = true.
Proof.
  intros H. destruct (nth_in_or_default i s NaN) as [Hin| ->]; [|reflexivity].
  unfold numeric in H. rewrite forallb_forall in H. auto.
Qed.

Lemma numeric_take ps s : numeric s = true -> numeric (pd.take ps s) = true.
Proof.
  intros H. unfold numeric, pd.take. rewrite forallb_forall.
  intros c Hc. apply in_map_iff in Hc. destruct Hc as (i & <- & _).
  now apply is_numeric_nth.
Qed.

Lemma numeric_app s1 s2 :
  numeric s1 = true -> numeric s2 = true -> numeric (s1 ++ s2) = true.
Proof. unfold numeric. rewrite forallb_app. intros -> ->. reflexivity. Qed.

Lemma getcol_take_rows ps df n :
  pd.getcol (pd.take_rows ps df) n = (s <- pd.getcol df n ;; Ok (pd.take ps s)).
Proof.
  unfold pd.getcol, pd.take_rows. simpl.
  rewrite (lookup_map n (fun _ s => pd.take ps s)).
  now destruct (pd.lookup n (columns df)).
Qed.

Lemma getcol_take_rows_Ok ps df n s :
  pd.getcol df n = Ok s -> pd.getcol (pd.take_rows ps df) n = Ok (pd.take ps s).
Proof. intros H. now rewrite getcol_take_rows, H. Qed.

Lemma getcol_concat a b n sa :
  pd.getcol a n = Ok sa ->
  pd.getcol (pd.concat a b) n = Ok (sa ++ pd.col_or_nan b n).
Proof.
  intros H. apply getcol_lookup in H. apply getcol_lookup.
  unfold pd.concat. simpl. rewrite lookup_app.
  rewrite (lookup_map n (fun name s => s ++ pd.col_or_nan b name)).
  now rewrite H.
Qed.

Lemma col_or_nan_getcol df n s : pd.getcol df n = Ok s -> pd.col_or_nan df n = s.
Proof. intros H. apply getcol_lookup in H. unfold pd.col_or_nan. now rewrite H. Qed.

Lemma same_kind_sym a b : pd.same_kind a b = pd.same_kind b a.
Proof. destruct a, b; reflexivity. Qed.

Lemma sortable_spec s :
  pd.sortable s = true <->
  (forall a b, In a s -> In b s -> pd.same_kind a b = true).
Proof.
  induction s as [|c s IH]; simpl.
  - split; [intros _ ? ? [] | reflexivity].
  - rewrite andb_true_iff, forallb_forall, IH. split.
    + intros [Hc Hs] a b [Ea|Ha] [Eb|Hb]; subst; auto.
      * destruct b; reflexivity.
      * rewrite same_kind_sym. auto.
    + intros H. split; intros; apply H; auto.
Qed.

(** Any rows drawn from a sortable column form a sortable column. *)
Lemma sortable_drawn s l :
  pd.sortable s = true ->
  (forall c, In c l -> In c s \/ c = NaN) ->
  pd.sortable l = true.
Proof.
  rewrite !sortable_spec. intros Hs Hl a b Ha Hb.
  destruct (Hl a Ha) as [Ha'| ->]; [|reflexivity].
  destruct (Hl b Hb) as [Hb'| ->]; [auto | now destruct a].
Qed.

Lemma In_take ps s c : In c (pd.take ps s) -> In c s \/ c = NaN.
Proof.
  unfold pd.take. rewrite in_map_iff. intros (i & <- & _).
  destruct (nth_in_or_default i s NaN); auto.
Qed.

Lemma mul_numeric s k :
  numeric s = true ->
  exists r, pd.mul s k = Ok r /\ numeric r = true /\ length r = length s.
Proof.
  unfold pd.mul. induction s as [|c s IH]; intros H.
  - exists []. auto.
  - simpl in H. apply andb_true_iff in H. destruct H as [Hc Hs].
    destruct (IH Hs) as (r & Hr & Hnum & Hlen). cbn [mapM]. rewrite Hr.
    destruct c; try discriminate; cbn [bind]; eexists; (split; [reflexivity|]);
      simpl; rewrite Hnum, Hlen; auto.
Qed.

Lemma insert_key_length x l : length (pd.insert_key x l) = S (length l).
Proof.
  induction l as [|y l IH]; simpl; [reflexivity|].
  destruct (pd.key_leb (fst x) (fst y)); simpl; auto.
Qed.

Lemma sort_keys_length l : length (pd.sort_keys l) = length l.
Proof.
  induction l as [|x l IH]; simpl; [reflexivity|].
  unfold pd.sort_keys in *. now rewrite insert_key_length, IH.
Qed.

Lemma argsort_length keys : length (pd.argsort keys) = length keys.
Proof.
  unfold pd.argsort.
  rewrite length_map, sort_keys_length, length_combine, length_seq. lia.
Qed.

Lemma forallb_agree {A : Type} (f g : A -> bool) (l : list A) :
  (forall x, In x l -> f x = g x) -> forallb f l = forallb g l.
Proof.
  induction l as [|a l IH]; simpl; intros H; [reflexivity|].
  rewrite H by now left. f_equal. apply IH. intros; apply H; now right.
Qed.

(** ** Sorting *)

Lemma key_leb_total a b : pd.key_leb a b = false -> pd.key_leb b a = true.
Proof.
  destruct a as [|p|s|t], b as [|q|s'|t']; simpl; try congruence.
  - intros H. apply Qle_bool_iff. apply Qlt_le_weak. apply Qnot_le_lt.
    intros Hle. apply Qle_bool_iff in Hle. congruence.
  - unfold String.leb. rewrite (String.compare_antisym s s').
    destruct (String.compare s' s); simpl; congruence.
  - intros H. apply Z.leb_gt in H. apply Z.leb_le. lia.
Qed.

Lemma insert_key_sorted x l : Sorted by_key l -> Sorted by_key (pd.insert_key x l).
Proof.
  induction l as [|y l IH]; simpl; intros H.
  - repeat constructor.
  - destruct (pd.key_leb (fst x) (fst y)) eqn:E.
    + constructor; [assumption|]. constructor. exact E.
    + inversion H as [|? ? Hs Hh]; subst.
      constructor; [now apply IH|].
      destruct l as [|z l]; simpl.
      * constructor. now apply key_leb_total.
      * destruct (pd.key_leb (fst x) (fst z)).
        -- constructor. now apply key_leb_total.
        -- inversion Hh; subst. now constructor.
Qed.

Lemma sort_keys_sorted l : Sorted by_key (pd.sort_keys l).
Proof.
  induction l as [|x l IH]; simpl; [constructor|].
  now apply insert_key_sorted.
Qed.

Lemma insert_key_perm x l : Permutation (pd.insert_key x l) (x :: l).
Proof.
  induction l as [|y l IH]; simpl; [reflexivity|].
  destruct (pd.key_leb (fst x) (fst y)); [reflexivity|].
  rewrite IH. apply perm_swap.
Qed.

Lemma sort_keys_perm l : Permutation (pd.sort_keys l) l.
Proof.
  induction l as [|x l IH]; simpl; [reflexivity|].
  rewrite insert_key_perm. now constructor.
Qed.

Lemma map_snd_combine {A B : Type} (l1 : list A) : forall (l2 : list B),
  length l1 = length l2 -> map snd (combine l1 l2) = l2.
Proof.
  induction l1 as [|a l1 IH]; intros [|b l2] H; simpl in *; try discriminate;
    [reflexivity|].
  f_equal. apply IH. lia.
Qed.

(** The sorted order lists every row once. *)
Lemma argsort_perm keys : Permutation (pd.argsort keys) (seq 0 (length keys)).
Proof.
  unfold pd.argsort. rewrite sort_keys_perm.
  rewrite map_snd_combine; [reflexivity | now rewrite length_seq].
Qed.

Lemma combine_seq_nth (keys : Series) : forall a k i,
  In (k, i) (combine keys (seq a (length keys))) ->
  a <= i /\ nth (i - a) keys NaN = k.
Proof.
  induction keys as [|c keys IH]; intros a k i H; simpl in H; [contradiction|].
  destruct H as [E|H].
  - inversion E; subst. rewrite Nat.sub_diag. split; [lia | reflexivity].
  - apply IH in H. destruct H as [Hle Hn]. split; [lia|].
    replace (i - a) with (S (i - S a)) by lia. exact Hn.
Qed.

Lemma take_argsort keys :
  pd.take (pd.argsort keys) keys =
  map fst (pd.sort_keys (combine keys (seq 0 (length keys)))).
Proof.
  unfold pd.take, pd.argsort. rewrite map_map. apply map_ext_in.
  intros [k i] Hin. simpl.
  apply (Permutation_in _ (sort_keys_perm _)) in Hin.
  apply combine_seq_nth in Hin. destruct Hin as [_ Hn].
  now rewrite Nat.sub_0_r in Hn.
Qed.

Lemma Sorted_map_fst l : Sorted by_key l -> Sorted chronological (map fst l).
Proof.
  induction 1 as [|p l Hs IH Hh]; simpl; constructor; [assumption|].
  destruct Hh; simpl; constructor. assumption.
Qed.

(** A column sorted by itself is in ascending order, missing cells last. *)
Lemma take_argsort_sorted keys :
  Sorted chronological (pd.take (pd.argsort keys) keys).
Proof.
  rewrite take_argsort. apply Sorted_map_fst, sort_keys_sorted.
Qed.

(** ** What a prepared table provides *)

Lemma column_ok_spec ok df name :
  column_ok ok df name = true ->
  exists s, pd.getcol df name = Ok s /\ length s = nrows df /\ ok s = true.
Proof.
  unfold column_ok, pd.getcol. destruct (pd.lookup name (columns df)) as [s|];
    [|discriminate].
  rewrite andb_true_iff, Nat.eqb_eq. intros [H1 H2]. eauto.
Qed.

Lemma prepared_spec df :
  prepared df = true ->
  (exists home, pd.getcol df "home_team" = Ok home /\ length home = nrows df) /\
  (exists away, pd.getcol df "away_team" = Ok away /\ length away = nrows df) /\
  (exists dates, pd.getcol df "date" = Ok dates /\ length dates = nrows df /\
                 pd.sortable dates = true) /\
  (forall n, In n stat_columns ->
     exists s, pd.getcol df n = Ok s /\ length s = nrows df /\ numeric s = true).
Proof.
  unfold prepared. rewrite !andb_true_iff, forallb_forall.
  intros [[[Hh Ha] Hd] Hs].
  apply column_ok_spec in Hh, Ha, Hd.
  destruct Hh as (h & ? & ? & _). destruct Ha as (a & ? & ? & _).
  repeat split; eauto.
  intros n Hn. apply column_ok_spec. auto.
Qed.

(** [prepared] reads the row count and the base columns only. *)
Lemma prepared_frame df df' :
  nrows df' = nrows df ->
  (forall n, In n ("home_team" :: "away_team" :: "date" :: stat_columns) ->
     pd.getcol df' n = pd.getcol df n) ->
  prepared df' = prepared df.
Proof.
  intros Hn H.
  assert (Hc : forall ok n,
             In n ("home_team" :: "away_team" :: "date" :: stat_columns) ->
             column_ok ok df' n = column_ok ok df n).
  { intros ok n Hin. specialize (H n Hin). unfold column_ok, pd.getcol in *.
    rewrite Hn.
    destruct (pd.lookup n (columns df')), (pd.lookup n (columns df));
      congruence. }
  unfold prepared. rewrite !Hc by (simpl; tauto).
  f_equal. apply forallb_agree.
  intros n Hin. apply Hc. now do 3 right.
Qed.

Lemma getcol_take_concat a b order n sa sb :
  pd.getcol a n = Ok sa -> pd.getcol b n = Ok sb ->
  pd.getcol (pd.take_rows order (pd.concat a b)) n = Ok (pd.take order (sa ++ sb)).
Proof.
  intros Ha Hb. apply getcol_take_rows_Ok.
  rewrite (getcol_concat _ _ _ _ Ha). now rewrite (col_or_nan_getcol _ _ _ Hb).
Qed.

Lemma remap_sources_are_stats :
  forall src, In src (map snd home_remap) \/ In src (map snd away_remap) ->
              In src stat_columns /\ src <> "result".
Proof.
  assert (H : forallb (fun s => mem s stat_columns && negb (String.eqb s "result"))
                      (map snd home_remap ++ map snd away_remap) = true)
    by reflexivity.
  rewrite forallb_forall in H. intros src Hsrc.
  specialize (H src (proj2 (in_app_iff _ _ _) Hsrc)).
  apply andb_true_iff in H. destruct H as [H1 H2].
  apply mem_In in H1. apply negb_true_iff, String.eqb_neq in H2. auto.
Qed.

(** ** The games of one team (lines 41-65) *)

Section TeamGames.

Variables (df : DataFrame) (team : cell) (home away dates : Series).

Hypothesis Hhome : pd.getcol df "home_team" = Ok home.
Hypothesis Haway : pd.getcol df "away_team" = Ok away.
Hypothesis Hdates : pd.getcol df "date" = Ok dates.
Hypothesis Hsortable : pd.sortable dates = true.
Hypothesis Hstats :
  forall n, In n stat_columns ->
            exists s, pd.getcol df n = Ok s /\ numeric s = true.

Let hp := pd.positions (pd.mask_eq home team).
Let ap := pd.positions (pd.mask_eq away team).
Let order := pd.argsort (pd.take hp dates ++ pd.take ap dates).

(** The sequence holds the home rows and the away rows of the team, in
    date order; each team-centric column reads the home-side column on the
    home rows and the away-side column on the away rows, and the outcome of
    an away row is multiplied by -1. *)
Lemma team_games_spec :
  exists g,
    team_games df team = Ok g /\
    nrows g = length hp + length ap /\
    pd.getcol g "date" = Ok (pd.take order (pd.take hp dates ++ pd.take ap dates)) /\
    (exists r negr,
        pd.getcol df "result" = Ok r /\
        pd.mul (pd.take ap r) (-1) = Ok negr /\
        pd.getcol g "result" = Ok (pd.take order (pd.take hp r ++ negr))) /\
    (forall t h a, In (t, h) home_remap -> In (t, a) away_remap ->
        exists sh sa,
          pd.getcol df h = Ok sh /\ pd.getcol df a = Ok sa /\
          pd.getcol g t = Ok (pd.take order (pd.take hp sh ++ pd.take ap sa))).
Proof.
  unfold team_games. rewrite Hhome. cbn [bind]. rewrite Haway. cbn [bind].
  unfold pd.filter_rows. fold hp ap.
  destruct (Hstats "result") as (r & Hr & Hnum); [simpl; tauto|].
  rewrite (getcol_take_rows_Ok ap _ _ _ Hr). cbn [bind].
  destruct (mul_numeric (pd.take ap r) (-1) (numeric_take _ _ Hnum))
    as (negr & Hneg & Hnegnum & Hneglen).
  rewrite Hneg. cbn [bind].
  set (A1 := pd.setcol (pd.take_rows ap df) "result" negr).
  assert (HA1 : forall src, In src (map snd away_remap) ->
                  exists s, pd.getcol df src = Ok s /\
                            pd.getcol A1 src = Ok (pd.take ap s)).
  { intros src Hsrc.
    destruct (remap_sources_are_stats src (or_intror Hsrc)) as [Hin Hne].
    destruct (Hstats src Hin) as (s & Hs & _). exists s. split; [assumption|].
    unfold A1. rewrite getcol_setcol_other by congruence.
    now apply getcol_take_rows_Ok. }
  assert (HH0 : forall src, In src (map snd home_remap) ->
                  exists s, pd.getcol df src = Ok s /\
                            pd.getcol (pd.take_rows hp df) src = Ok (pd.take hp s)).
  { intros src Hsrc.
    destruct (remap_sources_are_stats src (or_introl Hsrc)) as [Hin Hne].
    destruct (Hstats src Hin) as (s & Hs & _). exists s. split; [assumption|].
    now apply getcol_take_rows_Ok. }
  rewrite (foldM_ext _ _ away_remap A1 copy_column_derive).
  destruct (derive_fold_total (@Ok Series) away_remap A1) as [A HA];
    [reflexivity | |].
  { intros src Hsrc. destruct (HA1 src Hsrc) as (s & _ & Hs). eauto. }
  rewrite HA. cbn [bind].
  rewrite (foldM_ext _ _ home_remap _ copy_column_derive).
  destruct (derive_fold_total (@Ok Series) home_remap (pd.take_rows hp df))
    as [H HH]; [reflexivity | |].
  { intros src Hsrc. destruct (HH0 src Hsrc) as (s & _ & Hs). eauto. }
  rewrite HH. cbn [bind].
  apply derive_fold_spec in HA; [|reflexivity|reflexivity].
  apply derive_fold_spec in HH; [|reflexivity|reflexivity].
  destruct HA as (_ & HAframe & HAspec). destruct HH as (_ & HHframe & HHspec).
  assert (HdH : pd.getcol H "date" = Ok (pd.take hp dates)).
  { rewrite HHframe by (simpl; intuition discriminate).
    now apply getcol_take_rows_Ok. }
  assert (HdA : pd.getcol A "date" = Ok (pd.take ap dates)).
  { rewrite HAframe by (simpl; intuition discriminate).
    unfold A1. rewrite getcol_setcol_other by discriminate.
    now apply getcol_take_rows_Ok. }
  unfold pd.sort_values.
  rewrite (getcol_concat _ _ _ _ HdH), (col_or_nan_getcol _ _ _ HdA).
  cbn [bind]. fold order.
  assert (Hs : pd.sortable (pd.take hp dates ++ pd.take ap dates) = true).
  { apply (sortable_drawn dates); [assumption|].
    intros c Hc. apply in_app_or in Hc. destruct Hc as [Hc|Hc];
      now apply In_take in Hc. }
  rewrite Hs. eexists. split; [reflexivity|]. split.
  { simpl. unfold order. rewrite argsort_length, length_app, !take_length.
    reflexivity. }
  split; [now apply getcol_take_concat|]. split.
  - exists r, negr. repeat split; auto.
    apply getcol_take_concat.
    + rewrite HHframe by (simpl; intuition discriminate).
      now apply getcol_take_rows_Ok.
    + rewrite HAframe by (simpl; intuition discriminate).
      unfold A1. apply getcol_setcol_same.
  - intros t h a Hh Ha.
    destruct (HHspec _ _ Hh) as (s1 & m1 & Hs1 & Em1 & Hm1).
    destruct (HAspec _ _ Ha) as (s2 & m2 & Hs2 & Em2 & Hm2).
    inversion Em1; subst m1. inversion Em2; subst m2.
    destruct (HH0 h (in_map snd _ _ Hh)) as (sh & Hsh & Hsh').
    destruct (HA1 a (in_map snd _ _ Ha)) as (sa & Hsa & Hsa').
    exists sh, sa. repeat split; auto.
    apply getcol_take_concat; congruence.
Qed.

End TeamGames.

(** The sequence of a team lists each of its home and away rows once. *)
Lemma team_sequence_order_is_permutation (home away dates : Series) (team : cell) :
  let hp := pd.positions (pd.mask_eq home team) in
  let ap := pd.positions (pd.mask_eq away team) in
  Permutation (pd.argsort (pd.take hp dates ++ pd.take ap dates))
              (seq 0 (length hp + length ap)).
Proof.
  intros hp ap.
  rewrite <- (take_length hp dates), <- (take_length ap dates), <- length_app.
  apply argsort_perm.
Qed.

Ltac pick_in := simpl; repeat (first [left; reflexivity | right]).

(** On a prepared table the games of a team are built without error, and
    every averaged column is numeric with one cell per game. *)
Lemma team_games_ready df team :
  prepared df = true ->
  exists g,
    team_games df team = Ok g /\
    (exists d, pd.getcol g "date" = Ok d /\ length d = nrows g /\
               Sorted chronological d) /\
    (forall src, In src (map snd rolling_columns) ->
       exists s, pd.getcol g src = Ok s /\ numeric s = true /\
                 length s = nrows g).
Proof.
  intros Hp. apply prepared_spec in Hp.
  destruct Hp as ((home & Hh & _) & (away & Ha & _) & (dates & Hd & _ & Hs) & Hst).
  assert (Hst' : forall n, In n stat_columns ->
                   exists s, pd.getcol df n = Ok s /\ numeric s = true).
  { intros n Hn. destruct (Hst n Hn) as (s & ? & _ & ?). eauto. }
  destruct (team_games_spec df team home away dates Hh Ha Hd Hs Hst')
    as (g & Hg & Hn & Hdate & (r & negr & Hr & Hneg & Hres) & Hteam).
  exists g. split; [assumption|].
  assert (Hlen : forall s, length (pd.take
            (pd.argsort (pd.take (pd.positions (pd.mask_eq home team)) dates ++
                         pd.take (pd.positions (pd.mask_eq away team)) dates)) s)
            = nrows g).
  { intros s. rewrite take_length, argsort_length, length_app, !take_length.
    now rewrite Hn. }
  split.
  { eexists. split; [exact Hdate|]. split; [apply Hlen|].
    apply take_argsort_sorted. }
  assert (Hown : forall t h a, In (t, h) home_remap -> In (t, a) away_remap ->
            exists s, pd.getcol g t = Ok s /\ numeric s = true /\
                      length s = nrows g).
  { intros t h a Hth Hta.
    destruct (Hteam t h a Hth Hta) as (sh & sa & Hsh & Hsa & Hgt).
    eexists. split; [exact Hgt|]. split; [|apply Hlen].
    destruct (remap_sources_are_stats h (or_introl (in_map snd _ _ Hth))) as [Hin _].
    destruct (remap_sources_are_stats a (or_intror (in_map snd _ _ Hta))) as [Hin' _].
    destruct (Hst h Hin) as (sh' & E1 & _ & N1).
    destruct (Hst a Hin') as (sa' & E2 & _ & N2).
    assert (sh' = sh) by congruence. assert (sa' = sa) by congruence. subst.
    apply numeric_take, numeric_app; now apply numeric_take. }
  intros src Hsrc. simpl in Hsrc.
  destruct Hsrc as [<-|Hsrc].
  { eexists. split; [exact Hres|]. split; [|apply Hlen].
    destruct (Hst "result") as (r' & E & _ & N); [pick_in|].
    assert (r' = r) by congruence. subst r'.
    destruct (mul_numeric (pd.take (pd.positions (pd.mask_eq away team)) r)
                (-1) (numeric_take _ _ N)) as (negr' & E' & N' & _).
    assert (negr' = negr) by congruence. subst negr'.
    apply numeric_take, numeric_app; [now apply numeric_take | assumption]. }
  repeat (destruct Hsrc as [<-|Hsrc];
          [eapply Hown; pick_in|]).
  contradiction.
Qed.

(** ** The order of a sort without ties *)

Lemma ascii_compare_refl c : Ascii.compare c c = Eq.
Proof. unfold Ascii.compare. apply N.compare_refl. Qed.

Lemma ascii_compare_trans x y z :
  Ascii.compare x y = Lt -> Ascii.compare y z = Lt -> Ascii.compare x z = Lt.
Proof.
  unfold Ascii.compare. rewrite !N.compare_lt_iff. lia.
Qed.

Lemma string_compare_lt_trans a : forall b c,
  String.compare a b = Lt -> String.compare b c = Lt -> String.compare a c = Lt.
Proof.
  induction a as [|x a IH]; intros [|y b] [|z c]; simpl; try discriminate; auto.
  destruct (Ascii.compare x y) eqn:E1; try discriminate;
    destruct (Ascii.compare y z) eqn:E2; try discriminate; intros H1 H2.
  - apply Ascii.compare_eq_iff in E1, E2. subst.
    rewrite ascii_compare_refl. eauto.
  - apply Ascii.compare_eq_iff in E1. subst. now rewrite E2.
  - apply Ascii.compare_eq_iff in E2. subst. now rewrite E1.
  - now rewrite (ascii_compare_trans _ _ _ E1 E2).
Qed.

Lemma string_compare_refl a : String.compare a a = Eq.
Proof.
  induction a as [|x a IH]; simpl; [reflexivity|].
  now rewrite ascii_compare_refl.
Qed.

Lemma string_leb_trans a b c :
  String.leb a b = true -> String.leb b c = true -> String.leb a c = true.
Proof.
  unfold String.leb.
  destruct (String.compare a b) eqn:E1; try discriminate;
    destruct (String.compare b c) eqn:E2; try discriminate; intros _ _.
  - apply String.compare_eq_iff in E1, E2. subst.
    now rewrite string_compare_refl.
  - apply String.compare_eq_iff in E1. subst. now rewrite E2.
  - apply String.compare_eq_iff in E2. subst. now rewrite E1.
  - now rewrite (string_compare_lt_trans _ _ _ E1 E2).
Qed.

Lemma key_leb_trans a b c :
  pd.same_kind a b = true -> pd.same_kind b c = true -> pd.same_kind a c = true ->
  pd.key_leb a b = true -> pd.key_leb b c = true -> pd.key_leb a c = true.
Proof.
  destruct a as [|p|s|t], b as [|q|s'|t'], c as [|r|s''|t'']; simpl;
    try discriminate; try reflexivity; intros _ _ _ H1 H2.
  - apply Qle_bool_iff in H1, H2. apply Qle_bool_iff.
    now apply Qle_trans with q.
  - now apply string_leb_trans with s'.
  - apply Z.leb_le in H1, H2. apply Z.leb_le. lia.
Qed.

Lemma nth_same_kind keys i j :
  pd.sortable keys = true ->
  pd.same_kind (nth i keys NaN) (nth j keys NaN) = true.
Proof.
  intros H. rewrite sortable_spec in H.
  destruct (nth_in_or_default i keys NaN) as [Hi|Hi];
    destruct (nth_in_or_default j keys NaN) as [Hj|Hj].
  - now apply H.
  - rewrite Hj. now destruct (nth i keys NaN).
  - rewrite Hi. reflexivity.
  - rewrite Hi. reflexivity.
Qed.

Lemma before_trans keys i j k :
  pd.sortable keys = true ->
  before keys i j -> before keys j k -> before keys i k.
Proof.
  intros Hs. unfold before, chronological.
  apply key_leb_trans; now apply nth_same_kind.
Qed.

Lemma sorted_take_before keys order :
  Sorted chronological (pd.take order keys) -> Sorted (before keys) order.
Proof.
  unfold pd.take. induction order as [|i order IH]; intros H; [constructor|].
  simpl in H. inversion H as [|? ? Hs Hh]; subst.
  constructor; [now apply IH|].
  destruct order as [|j order]; [constructor|].
  simpl in Hh. inversion Hh; subst. now constructor.
Qed.

Lemma tied_sym a b : tied a b = tied b a.
Proof. unfold tied. apply andb_comm. Qed.

Lemma no_ties_spec keys :
  no_ties keys = true ->
  forall i j, i < length keys -> j < length keys -> i <> j ->
    tied (nth i keys NaN) (nth j keys NaN) = false.
Proof.
  induction keys as [|c keys IH]; intros H i j Hi Hj Hne; [simpl in Hi; lia|].
  simpl in H. apply andb_true_iff in H. destruct H as [Hc Hk].
  apply negb_true_iff in Hc.
  assert (Hhead : forall k, k < length keys -> tied c (nth k keys NaN) = false).
  { intros k Hk'. destruct (tied c (nth k keys NaN)) eqn:E; [|reflexivity].
    rewrite <- Hc. symmetry. apply existsb_exists.
    exists (nth k keys NaN). split; [now apply nth_In | exact E]. }
  destruct i as [|i], j as [|j]; simpl in *.
  - congruence.
  - apply Hhead. lia.
  - rewrite tied_sym. apply Hhead. lia.
  - apply IH; auto; lia.
Qed.

Lemma sorted_orders_agree keys (l1 : list nat) : forall l2,
  no_ties keys = true ->
  (forall i, In i l1 -> i < length keys) ->
  StronglySorted (before keys) l1 ->
  StronglySorted (before keys) l2 ->
  Permutation l1 l2 ->
  l1 = l2.
Proof.
  induction l1 as [|a l1 IH]; intros l2 Hnt Hb H1 H2 Hp.
  - apply Permutation_nil in Hp. now subst.
  - destruct l2 as [|b l2];
      [apply Permutation_sym, Permutation_nil in Hp; discriminate|].
    assert (E : a = b).
    { destruct (Nat.eq_dec a b) as [E|Hne]; [exact E | exfalso].
      assert (Ha : In a l2).
      { assert (Hin : In a (b :: l2))
          by (apply (Permutation_in _ Hp); now left).
        destruct Hin as [Hin|Hin]; [congruence | exact Hin]. }
      assert (Hbin : In b l1).
      { assert (Hin : In b (a :: l1))
          by (apply (Permutation_in _ (Permutation_sym Hp)); now left).
        destruct Hin as [Hin|Hin]; [congruence | exact Hin]. }
      inversion H1 as [|? ? _ Hall1]; subst.
      inversion H2 as [|? ? _ Hall2]; subst.
      rewrite Forall_forall in Hall1, Hall2.
      pose proof (Hall1 b Hbin) as Hab. pose proof (Hall2 a Ha) as Hba.
      assert (Ht : tied (nth a keys NaN) (nth b keys NaN) = false).
      { apply no_ties_spec; auto; apply Hb; [now left | now right]. }
      unfold tied, before, chronological in *. now rewrite Hab, Hba in Ht. }
    subst b. f_equal. apply IH; auto.
    + intros i Hi. apply Hb. now right.
    + now inversion H1.
    + now inversion H2.
    + now apply Permutation_cons_inv with a.
Qed.

(** When no two keys are tied, one order only sorts them: whichever
    algorithm [sort_values] runs, it returns this order. *)
Lemma sorted_order_unique keys order order' :
  pd.sortable keys = true ->
  no_ties keys = true ->
  Permutation order (seq 0 (length keys)) ->
  Permutation order' (seq 0 (length keys)) ->
  Sorted chronological (pd.take order keys) ->
  Sorted chronological (pd.take order' keys) ->
  order' = order.
Proof.
  intros Hs Hnt Hp Hp' Ho Ho'.
  assert (Htrans : Relations_1.Transitive (before keys)).
  { intros i j k. now apply before_trans. }
  apply (sorted_orders_agree keys); auto.
  - intros i Hi. apply (Permutation_in _ Hp') in Hi. apply in_seq in Hi. lia.
  - apply Sorted_StronglySorted; [exact Htrans | now apply sorted_take_before].
  - apply Sorted_StronglySorted; [exact Htrans | now apply sorted_take_before].
  - now rewrite Hp, Hp'.
Qed.

Lemma mul_negated s :
  numeric s = true -> pd.mul s (-1) = Ok (map negated s).
Proof.
  unfold pd.mul. induction s as [|c s IH]; intros H; [reflexivity|].
  simpl in H. apply andb_true_iff in H. destruct H as [Hc Hs].
  cbn [mapM map]. rewrite (IH Hs).
  destruct c; try discriminate; reflexivity.
Qed.

(** ** C1 and C2: the rolling statistics of a team's sequence *)

Lemma rolled_Ok s m :
  rolled s = Ok m -> exists r, pd.rolling_mean 5 1 s = Ok r /\ m = pd.shift r.
Proof.
  unfold rolled. intros H. inv_bind H. inversion H. eauto.
Qed.

Lemma rolling_names_not_sources :
  forall src, In src (map snd rolling_columns) -> ~ In src rolling_names.
Proof.
  intros src Hsrc.
  assert (H : disjoint (map snd rolling_columns) rolling_names = true)
    by reflexivity.
  intros Hin. exact (disjoint_spec _ _ H src src Hsrc Hin eq_refl).
Qed.

Lemma observations_known w : pd.observations w = known_values w.
Proof. induction w as [|c w IH]; simpl; [reflexivity|]. destruct c; congruence. Qed.

Lemma Qsum_total qs : pd.Qsum qs = total qs.
Proof.
  unfold pd.Qsum. induction qs as [|q qs IH]; simpl; [reflexivity|].
  now rewrite IH.
Qed.

(** The mean that [rolling(..., min_periods=1).mean()] takes of a window
    is the arithmetic mean of its known values. *)
Lemma window_mean_spec w : pd.window_mean 1 w = mean_of_known w.
Proof.
  unfold pd.window_mean, mean_of_known. rewrite observations_known.
  destruct (known_values w) as [|q qs]; [reflexivity|].
  cbn [length Nat.leb andb]. unfold pd.average, arithmetic_mean.
  now rewrite Qsum_total.
Qed.

Lemma shift_length s : length (pd.shift s) = length s.
Proof.
  destruct s as [|c s]; [reflexivity|]. unfold pd.shift. cbn [length]. f_equal.
  revert c. induction s as [|d s IH]; intros c; [reflexivity|].
  change (removelast (c :: d :: s)) with (c :: removelast (d :: s)).
  cbn [length]. now rewrite IH.
Qed.

Lemma own_statistics_columns stat hcol acol neg :
  In (stat, (hcol, acol, neg)) own_statistics ->
  exists own,
    In (stat, own) rolling_columns /\
    ((neg = true /\ own = "result" /\ hcol = "result" /\ acol = "result") \/
     (neg = false /\ In (own, hcol) home_remap /\ In (own, acol) away_remap)).
Proof.
  intros H. simpl in H.
  destruct H as [E|H];
    [inversion E; subst; exists "result"; split; [pick_in|]; left; auto|].
  repeat (destruct H as [E|H];
          [inversion E; subst; eexists; split; [pick_in|]; right;
           split; [reflexivity|]; split; pick_in|]).
  contradiction.
Qed.

(** The sequence of a team and its rolling statistics, on a prepared
    table: the rows of the team in an order that sorts their dates (the
    only one when no two of them carry the same date), each column of own
    values, and each rolling column as the shifted rolling mean of its
    column of own values. *)
Lemma team_sequence_spec (df : DataFrame) (team : cell) (home away dates : Series) :
  prepared df = true ->
  pd.getcol df "home_team" = Ok home ->
  pd.getcol df "away_team" = Ok away ->
  pd.getcol df "date" = Ok dates ->
  let hp := pd.positions (pd.mask_eq home team) in
  let ap := pd.positions (pd.mask_eq away team) in
  let team_dates := pd.take hp dates ++ pd.take ap dates in
  exists order games all_team_games,
    team_games df team = Ok games /\
    rolling_stats games = Ok all_team_games /\
    Permutation order (seq 0 (length hp + length ap)) /\
    Sorted chronological (pd.take order team_dates) /\
    (no_ties team_dates = true ->
     forall order', Permutation order' (seq 0 (length hp + length ap)) ->
                    Sorted chronological (pd.take order' team_dates) ->
                    order' = order) /\
    nrows games = length hp + length ap /\
    nrows all_team_games = length hp + length ap /\
    pd.getcol games "date" = Ok (pd.take order team_dates) /\
    pd.getcol all_team_games "date" = Ok (pd.take order team_dates) /\
    forall stat hcol acol neg, In (stat, (hcol, acol, neg)) own_statistics ->
      exists own sh sa r,
        In (stat, own) rolling_columns /\
        pd.getcol df hcol = Ok sh /\
        pd.getcol df acol = Ok sa /\
        pd.getcol games own = Ok (own_values order hp ap sh sa neg) /\
        pd.rolling_mean 5 1 (own_values order hp ap sh sa neg) = Ok r /\
        pd.getcol all_team_games stat = Ok (pd.shift r).
Proof.
  intros Hp Hh Ha Hd hp ap team_dates.
  destruct (prepared_spec df Hp) as (_ & _ & (dates' & Hd' & _ & Hs) & Hst).
  assert (dates' = dates) by congruence. subst dates'.
  assert (Hst' : forall n, In n stat_columns ->
                   exists s, pd.getcol df n = Ok s /\ numeric s = true).
  { intros n Hn. destruct (Hst n Hn) as (s & ? & _ & ?). eauto. }
  destruct (team_games_spec df team home away dates Hh Ha Hd Hs Hst')
    as (g & Hg & Hn & Hgdate & (r & negr & Hr & Hneg & Hres) & Hteam).
  fold hp ap team_dates in Hn, Hgdate, Hres, Hteam.
  set (order := pd.argsort team_dates) in *.
  destruct (team_games_ready df team Hp) as (g' & Hg' & _ & Hnum).
  assert (g' = g) by congruence. subst g'.
  destruct (rolling_stats_total g) as [atg Hatg].
  { intros src Hsrc. destruct (Hnum src Hsrc) as (s & ? & ? & _). eauto. }
  destruct (rolling_stats_spec _ _ Hatg) as (Hn' & Hframe & Hspec).
  assert (Hlen : length team_dates = length hp + length ap).
  { unfold team_dates. now rewrite length_app, !take_length. }
  assert (Hsort : pd.sortable team_dates = true).
  { apply (sortable_drawn dates); [assumption|].
    intros c Hc. apply in_app_or in Hc. destruct Hc as [Hc|Hc];
      now apply In_take in Hc. }
  exists order, g, atg. split; [exact Hg|]. split; [exact Hatg|].
  split; [apply team_sequence_order_is_permutation|].
  split; [apply take_argsort_sorted|]. split.
  { intros Hnt order' Hp' Hs'.
    apply (sorted_order_unique team_dates); auto.
    - apply argsort_perm.
    - now rewrite Hlen.
    - apply take_argsort_sorted. }
  split; [exact Hn|]. split; [congruence|]. split; [exact Hgdate|]. split.
  { rewrite Hframe; [exact Hgdate|]. simpl. intuition discriminate. }
  intros stat hcol acol neg Hin.
  destruct (own_statistics_columns stat hcol acol neg Hin) as (own & Hown & Hcase).
  assert (Hcol : exists sh sa,
            pd.getcol df hcol = Ok sh /\ pd.getcol df acol = Ok sa /\
            pd.getcol g own = Ok (own_values order hp ap sh sa neg)).
  { destruct Hcase as [(-> & -> & -> & ->)|(-> & Hhr & Har)].
    - exists r, r. split; [exact Hr|]. split; [exact Hr|].
      destruct (Hst' "result") as (r' & Hr' & Hnumr); [pick_in|].
      assert (r' = r) by congruence. subst r'.
      rewrite mul_negated in Hneg by now apply numeric_take.
      inversion Hneg; subst negr. exact Hres.
    - destruct (Hteam own hcol acol Hhr Har) as (sh & sa & Hsh & Hsa & Hget).
      exists sh, sa. auto. }
  destruct Hcol as (sh & sa & Hsh & Hsa & Hget).
  destruct (Hspec stat own Hown) as (xs & m & Hxs & Hm & Hstat).
  rewrite Hget in Hxs. inversion Hxs; subst xs.
  apply rolled_Ok in Hm. destruct Hm as (r0 & Hr0 & ->).
  exists own, sh, sa, r0. auto 10.
Qed.

(** C1. For every team and every index [i >= 1] of its date-ordered match
    sequence, each of the eight rolling statistics at index [i] is the
    arithmetic mean of the team's own values of that statistic over the
    indices [max(0, i-5) .. i-1]; the value at index [i] itself is outside
    the window.  The sequence holds the home rows and the away rows of the
    team in an order that sorts their dates, the only such order when the
    team plays at most once on a date.  The own values are read off the
    home-side column on the home rows and off the away-side column on the
    away rows (conceded values the other way round), the outcome negated
    on the away rows.  Missing values inside the window are skipped; a
    window without missing values gives the arithmetic mean of all its
    values. *)
Theorem rolling_is_mean_of_prior_matches
    (df : DataFrame) (team : cell) (home away dates : Series) :
  prepared df = true ->
  pd.getcol df "home_team" = Ok home ->
  pd.getcol df "away_team" = Ok away ->
  pd.getcol df "date" = Ok dates ->
  let hp := pd.positions (pd.mask_eq home team) in
  let ap := pd.positions (pd.mask_eq away team) in
  let team_dates := pd.take hp dates ++ pd.take ap dates in
  exists order games all_team_games,
    team_games df team = Ok games /\
    rolling_stats games = Ok all_team_games /\
    Permutation order (seq 0 (length hp + length ap)) /\
    Sorted chronological (pd.take order team_dates) /\
    (no_ties team_dates = true ->
     forall order', Permutation order' (seq 0 (length hp + length ap)) ->
                    Sorted chronological (pd.take order' team_dates) ->
                    order' = order) /\
    nrows all_team_games = length hp + length ap /\
    pd.getcol all_team_games "date" = Ok (pd.take order team_dates) /\
    forall stat hcol acol neg, In (stat, (hcol, acol, neg)) own_statistics ->
      exists sh sa ys,
        pd.getcol df hcol = Ok sh /\
        pd.getcol df acol = Ok sa /\
        pd.getcol all_team_games stat = Ok ys /\
        length ys = length hp + length ap /\
        forall i, 1 <= i < length hp + length ap ->
          (forall j, In j (prior_indices i) <-> i - 5 <= j < i) /\
          nth_error ys i =
            Some (mean_of_known
                    (prior_window i (own_values order hp ap sh sa neg))) /\
          (forall values,
             prior_window i (own_values order hp ap sh sa neg) = map Num values ->
             nth_error ys i = Some (Num (arithmetic_mean values))).
Proof.
  intros Hp Hh Ha Hd hp ap team_dates.
  destruct (team_sequence_spec df team home away dates Hp Hh Ha Hd)
    as (order & games & atg & Hg & Hatg & Hperm & Hsorted & Huniq & Hn & Hn' &
        _ & Hdate & Hstats).
  fold hp ap team_dates in Hperm, Hsorted, Huniq, Hn, Hn', Hdate, Hstats.
  exists order, games, atg. split; [exact Hg|]. split; [exact Hatg|].
  split; [exact Hperm|]. split; [exact Hsorted|]. split; [exact Huniq|].
  split; [exact Hn'|]. split; [exact Hdate|].
  intros stat hcol acol neg Hin.
  destruct (Hstats stat hcol acol neg Hin)
    as (own & sh & sa & r & _ & Hsh & Hsa & _ & Hr & Hys).
  set (xs := own_values order hp ap sh sa neg) in *.
  assert (Hlen : length xs = length hp + length ap).
  { unfold xs, own_values. rewrite take_length.
    now rewrite (Permutation_length Hperm), length_seq. }
  exists sh, sa, (pd.shift r). split; [exact Hsh|]. split; [exact Hsa|].
  split; [exact Hys|]. split.
  { now rewrite shift_length, (rolling_mean_length _ _ _ _ Hr). }
  intros i Hi.
  assert (Hat : nth_error (pd.shift r) i = Some (mean_of_known (prior_window i xs))).
  { rewrite <- window_mean_spec. apply rolling_shift_at; [exact Hr | lia]. }
  split; [|split; [exact Hat|]].
  - intros j. unfold prior_indices. rewrite in_seq. lia.
  - intros values Hv. fold xs in Hv. rewrite Hat, Hv. f_equal.
    unfold mean_of_known.
    assert (Hk : known_values (map Num values) = values).
    { clear. induction values as [|q qs IH]; simpl; congruence. }
    rewrite Hk. destruct values as [|q qs]; [|reflexivity].
    pose proof (prior_window_length i xs) as Hl. rewrite Hv in Hl.
    simpl in Hl. lia.
Qed.

Lemma rolling_is_mean_of_prior_matches_witness :
  prepared season_of_A = true /\
  exists all_team_games form,
    (games <- team_games season_of_A (Str "A") ;; rolling_stats games)
      = Ok all_team_games /\
    pd.getcol all_team_games "form_last_5" = Ok form /\
    nth_error form 2 = Some (Num (arithmetic_mean [1; 1]%Q)).
Proof.
  split; [reflexivity|].
  destruct (rolling_is_mean_of_prior_matches season_of_A (Str "A")
              [Str "A"; Str "C"; Str "A"; Str "B"; Str "A"; Str "C"]
              [Str "B"; Str "A"; Str "C"; Str "A"; Str "B"; Str "A"]
              [Ts 1; Ts 2; Ts 3; Ts 4; Ts 5; Ts 6]
              eq_refl eq_refl eq_refl eq_refl)
    as (order & games & atg & Hg & Hatg & _ & _ & Huniq & _ & _ & Hstats).
  pose proof (Huniq eq_refl [0; 3; 1; 4; 2; 5]) as E.
  assert (Hperm : Permutation [0; 3; 1; 4; 2; 5] (seq 0 6)).
  { exact (team_sequence_order_is_permutation
             [Str "A"; Str "C"; Str "A"; Str "B"; Str "A"; Str "C"]
             [Str "B"; Str "A"; Str "C"; Str "A"; Str "B"; Str "A"]
             [Ts 1; Ts 2; Ts 3; Ts 4; Ts 5; Ts 6] (Str "A")). }
  assert (Hsorted : Sorted chronological
                      (pd.take [0; 3; 1; 4; 2; 5]
                         [Ts 1; Ts 3; Ts 5; Ts 2; Ts 4; Ts 6])).
  { exact (take_argsort_sorted [Ts 1; Ts 3; Ts 5; Ts 2; Ts 4; Ts 6]). }
  specialize (E Hperm Hsorted). subst order.
  destruct (Hstats "form_last_5" "result" "result" true)
    as (sh & sa & ys & Hsh & Hsa & Hys & _ & Hmean); [pick_in|].
  vm_compute in Hsh. inversion Hsh; subst sh.
  vm_compute in Hsa. inversion Hsa; subst sa.
  exists atg, ys. split; [rewrite Hg; exact Hatg|]. split; [exact Hys|].
  destruct (Hmean 2) as (_ & _ & Hall); [simpl; lia|].
  exact (Hall [1; 1]%Q eq_refl).
Defined.

(** C2. For every team with at least one match, each of the eight rolling
    statistics of the first match of its date-ordered sequence is
    missing. *)
Theorem first_match_has_no_rolling_stats (df : DataFrame) (team : cell) :
  prepared df = true ->
  exists games all_team_games,
    team_games df team = Ok games /\
    (exists dates, pd.getcol games "date" = Ok dates /\
                   length dates = nrows games /\ Sorted chronological dates) /\
    rolling_stats games = Ok all_team_games /\
    (0 < nrows games ->
     forall stat, In stat rolling_names ->
       exists ys, pd.getcol all_team_games stat = Ok ys /\
                  nth_error ys 0 = Some NaN).
Proof.
  intros Hp.
  destruct (team_games_ready df team Hp) as (games & Hg & Hdates & Hnum).
  destruct (rolling_stats_total games) as [atg Hatg].
  { intros src Hsrc. destruct (Hnum src Hsrc) as (s & ? & ? & _). eauto. }
  exists games, atg. split; [assumption|]. split; [assumption|].
  split; [assumption|].
  destruct (rolling_stats_spec _ _ Hatg) as (_ & _ & Hspec).
  intros Hpos stat Hstat. unfold rolling_names in Hstat.
  apply in_map_iff in Hstat. destruct Hstat as ([stat' own] & <- & Hin).
  destruct (Hspec _ _ Hin) as (xs & ys & Hxs & Hys & Hget).
  exists ys. split; [assumption|].
  apply rolled_Ok in Hys. destruct Hys as (r & Hr & ->).
  apply (rolling_shift_first xs); [assumption|].
  destruct (Hnum own (in_map snd _ _ Hin)) as (xs' & E & _ & Hlen).
  assert (xs' = xs) by congruence. subst xs'.
  intros ->. simpl in Hlen. lia.
Qed.

Lemma first_match_has_no_rolling_stats_witness :
  prepared season_of_A = true /\
  exists games all_team_games,
    team_games season_of_A (Str "A") = Ok games /\
    (exists dates, pd.getcol games "date" = Ok dates /\
                   length dates = nrows games /\ Sorted chronological dates) /\
    rolling_stats games = Ok all_team_games /\
    (0 < nrows games ->
     forall stat, In stat rolling_names ->
       exists ys, pd.getcol all_team_games stat = Ok ys /\
                  nth_error ys 0 = Some NaN).
Proof.
  split; [reflexivity|].
  apply (first_match_has_no_rolling_stats season_of_A (Str "A")).
  reflexivity.
Defined.

(** ** Frames: what a step leaves alone *)

Lemma same_outside_refl written df : same_outside written df df.
Proof. split; auto. Qed.

Lemma same_outside_trans written df1 df2 df3 :
  same_outside written df1 df2 -> same_outside written df2 df3 ->
  same_outside written df1 df3.
Proof.
  intros [H1 H2] [H3 H4]. split; [congruence|].
  intros n Hn. rewrite H4, H2; auto.
Qed.

Lemma same_outside_weaken w1 w2 df df' :
  (forall n, In n w1 -> In n w2) ->
  same_outside w1 df df' -> same_outside w2 df df'.
Proof. intros Hsub [H1 H2]. split; auto. Qed.

Lemma foldM_same_outside {B : Type} written
    (f : DataFrame -> B -> result DataFrame) (l : list B) :
  (forall df x df', In x l -> f df x = Ok df' -> same_outside written df df') ->
  forall df df', foldM f l df = Ok df' -> same_outside written df df'.
Proof.
  induction l as [|x l IH]; intros Hf df df' H; simpl in H.
  - inversion H. apply same_outside_refl.
  - inv_bind H. eapply same_outside_trans.
    + eapply Hf; [now left | eassumption].
    + eapply IH; [|eassumption]. intros; eapply Hf; eauto. now right.
Qed.

Lemma setcol_same_outside df name s :
  same_outside [name] df (pd.setcol df name s).
Proof.
  split; [reflexivity|]. intros n Hn.
  apply getcol_setcol_other. simpl in Hn. tauto.
Qed.

Lemma loc_set_same_outside df idx name v :
  same_outside [name] df (pd.loc_set df idx name v).
Proof. apply setcol_same_outside. Qed.

Lemma map_back_frame side atg df idx df' :
  map_back side atg df idx = Ok df' ->
  same_outside (map (feature_name side) rolling_names) df df'.
Proof.
  unfold map_back. intros H. inv_bind H. inv_bind H.
  destruct (pd.empty _); [inversion H; apply same_outside_refl|].
  revert H. apply foldM_same_outside.
  intros d name d' Hin Hstep. inv_bind Hstep. inv_bind Hstep.
  inversion Hstep. eapply same_outside_weaken; [|apply loc_set_same_outside].
  intros n [<-|[]]. now apply in_map.
Qed.

Lemma team_features_frame df team df' :
  team_features df team = Ok df' -> same_outside feature_names df df'.
Proof.
  unfold team_features. intros H. do 4 inv_bind H. inv_bind H.
  eapply same_outside_trans.
  - eapply same_outside_weaken;
      [|eapply (foldM_same_outside (map (feature_name "home") rolling_names));
        [|eassumption]].
    + intros n Hn. unfold feature_names. apply in_or_app. now left.
    + intros ? ? ? _. apply map_back_frame.
  - eapply same_outside_weaken;
      [|eapply (foldM_same_outside (map (feature_name "away") rolling_names));
        [|eassumption]].
    + intros n Hn. unfold feature_names. apply in_or_app. now right.
    + intros ? ? ? _. apply map_back_frame.
Qed.

(** [create_rolling_features] writes the sixteen feature columns and
    nothing else. *)
Lemma create_rolling_features_frame df df' :
  create_rolling_features df = Ok df' -> same_outside feature_names df df'.
Proof.
  unfold create_rolling_features. intros H. inv_bind H.
  revert H. apply foldM_same_outside.
  intros ? ? ? _. apply team_features_frame.
Qed.

(** ** The map-back step (lines 80-90, 95-105) *)

Lemma positions_from_bound k mask i :
  In i (pd.positions_from k mask) -> k <= i < k + length mask.
Proof.
  revert k. induction mask as [|b mask IH]; intros k H; simpl in *; [tauto|].
  destruct b; simpl in H.
  - destruct H as [<-|H]; [lia|]. apply IH in H. lia.
  - apply IH in H. lia.
Qed.

Lemma positions_bound (s : Series) (v : cell) (i : nat) :
  In i (pd.positions (pd.mask_eq s v)) -> i < length s.
Proof.
  intros H. apply positions_from_bound in H.
  unfold pd.mask_eq in H. rewrite length_map in H. lia.
Qed.

Lemma append_injective (p x y : string) :
  String.append p x = String.append p y -> x = y.
Proof.
  induction p as [|c p IH]; simpl; intros H; [assumption|].
  inversion H. auto.
Qed.

Lemma feature_name_injective side x y :
  feature_name side x = feature_name side y -> x = y.
Proof.
  unfold feature_name. intros H. apply append_injective in H.
  simpl in H. now inversion H.
Qed.

Lemma update_same idx v s :
  idx < length s -> nth_error (pd.update idx v s) idx = Some v.
Proof.
  revert idx. induction s as [|c s IH]; intros [|idx] H; simpl in *;
    try lia; auto.
  apply IH. lia.
Qed.

Lemma col_or_nan_same_outside written df df' n :
  same_outside written df df' -> ~ In n written ->
  pd.col_or_nan df' n = pd.col_or_nan df n.
Proof.
  intros [Hn Hf] Hnot. specialize (Hf n Hnot).
  unfold pd.col_or_nan, pd.getcol in *. rewrite Hn.
  destruct (pd.lookup n (columns df')), (pd.lookup n (columns df)); congruence.
Qed.

Section MapBack.

Variables (side : string) (team_stats : DataFrame) (idx : nat).

Let step := fun (df_prep : DataFrame) (name : string) =>
  s <- pd.getcol team_stats name ;;
  v <- pd.iloc0 s ;;
  Ok (pd.loc_set df_prep idx (feature_name side name) v).

(** Each listed statistic is written to row [idx]; the writes do not
    disturb one another. *)
Lemma write_features_spec : forall (stats : list string) (df_prep : DataFrame),
  distinct stats = true ->
  (forall name, In name stats ->
     exists s v, pd.getcol team_stats name = Ok s /\ pd.iloc0 s = Ok v) ->
  exists df',
    foldM step stats df_prep = Ok df' /\
    forall name s v, In name stats ->
      pd.getcol team_stats name = Ok s -> pd.iloc0 s = Ok v ->
      pd.getcol df' (feature_name side name) =
      Ok (pd.update idx v (pd.col_or_nan df_prep (feature_name side name))).
Proof.
  induction stats as [|n0 stats IH]; intros df_prep Hd Hall.
  - exists df_prep. split; [reflexivity|]. intros ? ? ? [].
  - simpl in Hd. apply andb_true_iff in Hd. destruct Hd as [Hn0 Hd].
    apply negb_true_iff, mem_not_In in Hn0.
    destruct (Hall n0 (or_introl eq_refl)) as (s0 & v0 & Hs0 & Hv0).
    set (df1 := pd.loc_set df_prep idx (feature_name side n0) v0).
    destruct (IH df1 Hd) as (df' & Hfold & Hspec).
    { intros name Hin. apply Hall. now right. }
    exists df'. split.
    { simpl. unfold step at 1. rewrite Hs0. cbn [bind]. rewrite Hv0.
      cbn [bind]. exact Hfold. }
    assert (Hrest : same_outside (map (feature_name side) stats) df1 df').
    { revert Hfold. apply foldM_same_outside.
      intros d name d' Hin Hstep. unfold step in Hstep.
      inv_bind Hstep. inv_bind Hstep. inversion Hstep.
      eapply same_outside_weaken; [|apply loc_set_same_outside].
      intros n [<-|[]]. now apply in_map. }
    intros name s v [<-|Hin] Hs Hv.
    + destruct Hrest as [_ Hrest]. rewrite Hrest.
      * assert (s = s0) by congruence. subst s.
        assert (v = v0) by congruence. subst v.
        unfold df1, pd.loc_set. apply getcol_setcol_same.
      * intros Hin. apply in_map_iff in Hin. destruct Hin as (y & E & Hy).
        apply feature_name_injective in E. now subst.
    + rewrite (Hspec name s v Hin Hs Hv). do 2 f_equal.
      apply (col_or_nan_same_outside [feature_name side n0]).
      * apply loc_set_same_outside.
      * intros [E|[]]. apply feature_name_injective in E. now subst.
Qed.

End MapBack.

Lemma distinct_rolling_names : distinct rolling_names = true.
Proof. reflexivity. Qed.

(** What the map-back step does with the records of the team found on the
    date of row [idx]. *)
Lemma map_back_spec side all_team_games df_prep idx match_date dates :
  pd.loc df_prep idx "date" = Ok match_date ->
  pd.getcol all_team_games "date" = Ok dates ->
  (forall name, In name rolling_names ->
     exists s, pd.getcol all_team_games name = Ok s) ->
  exists df',
    map_back side all_team_games df_prep idx = Ok df' /\
    match pd.positions (pd.mask_eq dates match_date) with
    | [] => df' = df_prep
    | first :: _ =>
        forall name s, In name rolling_names ->
          pd.getcol all_team_games name = Ok s ->
          pd.getcol df' (feature_name side name) =
          Ok (pd.update idx (nth first s NaN)
                (pd.col_or_nan df_prep (feature_name side name)))
    end.
Proof.
  intros Hloc Hdates Hall. unfold map_back.
  rewrite Hloc. cbn [bind]. rewrite Hdates. cbn [bind].
  unfold pd.filter_rows.
  destruct (pd.positions (pd.mask_eq dates match_date)) as [|first rest] eqn:Eps.
  - exists df_prep. split; reflexivity.
  - assert (Hne : pd.empty (pd.take_rows (first :: rest) all_team_games) = false).
    { unfold pd.empty. simpl. rewrite length_map.
      apply getcol_lookup in Hdates.
      destruct (columns all_team_games); [discriminate | reflexivity]. }
    rewrite Hne.
    destruct (write_features_spec side
                (pd.take_rows (first :: rest) all_team_games) idx
                rolling_names df_prep distinct_rolling_names)
      as (df' & Hfold & Hspec).
    { intros name Hin. destruct (Hall name Hin) as [s Hs].
      exists (pd.take (first :: rest) s), (nth first s NaN).
      split; [now apply getcol_take_rows_Ok | reflexivity]. }
    exists df'. split; [exact Hfold|].
    intros name s Hin Hs.
    apply (Hspec name (pd.take (first :: rest) s));
      [assumption | now apply getcol_take_rows_Ok | reflexivity].
Qed.

Lemma map_back_all_total side all_team_games dates :
  ~ In "date" (map (feature_name side) rolling_names) ->
  pd.getcol all_team_games "date" = Ok dates ->
  (forall name, In name rolling_names ->
     exists s, pd.getcol all_team_games name = Ok s) ->
  forall idxs df_prep d,
    pd.getcol df_prep "date" = Ok d ->
    (forall idx, In idx idxs -> idx < length d) ->
    exists df', foldM (map_back side all_team_games) idxs df_prep = Ok df'.
Proof.
  intros Hdate Hdates Hall.
  induction idxs as [|idx idxs IH]; intros df_prep d Hd Hb.
  - simpl. eauto.
  - assert (Hlt : idx < length d) by (apply Hb; now left).
    destruct (nth_error d idx) as [c|] eqn:Ec;
      [|apply nth_error_None in Ec; lia].
    destruct (map_back_spec side all_team_games df_prep idx c dates)
      as (df1 & H1 & _); auto.
    { unfold pd.loc. rewrite Hd. cbn [bind]. now rewrite Ec. }
    simpl. rewrite H1. cbn [bind].
    apply (IH df1 d).
    + destruct (map_back_frame _ _ _ _ _ H1) as [_ Hf]. now rewrite Hf.
    + intros; apply Hb; now right.
Qed.

Lemma base_columns_not_features :
  forall n, In n ("home_team" :: "away_team" :: "date" :: stat_columns) ->
            ~ In n feature_names.
Proof.
  assert (H : disjoint ("home_team" :: "away_team" :: "date" :: stat_columns)
                       feature_names = true) by reflexivity.
  intros n Hn Hin. exact (disjoint_spec _ _ H n n Hn Hin eq_refl).
Qed.

Lemma prepared_same_outside df df' :
  same_outside feature_names df df' -> prepared df' = prepared df.
Proof.
  intros [Hn Hf]. apply prepared_frame; [assumption|].
  intros n Hin. apply Hf. now apply base_columns_not_features.
Qed.

Lemma team_features_total df team :
  prepared df = true -> exists df', team_features df team = Ok df'.
Proof.
  intros Hp.
  destruct (team_games_ready df team Hp) as (games & Hg & (gd & Hgd & _) & Hnum).
  destruct (rolling_stats_total games) as [atg Hatg].
  { intros src Hsrc. destruct (Hnum src Hsrc) as (s & ? & ? & _). eauto. }
  destruct (rolling_stats_spec _ _ Hatg) as (_ & Hframe & Hspec).
  assert (Hatg_date : pd.getcol atg "date" = Ok gd).
  { rewrite Hframe; [assumption|]. simpl. intuition discriminate. }
  assert (Hatg_all : forall name, In name rolling_names ->
                       exists s, pd.getcol atg name = Ok s).
  { intros name Hin. unfold rolling_names in Hin. apply in_map_iff in Hin.
    destruct Hin as ([n own] & <- & Hin).
    destruct (Hspec _ _ Hin) as (? & m & _ & _ & ?). eauto. }
  apply prepared_spec in Hp.
  destruct Hp as ((home & Hh & Lh) & (away & Ha & La) & (dates & Hd & Ld & _) & _).
  unfold team_features. rewrite Hg. cbn [bind]. rewrite Hatg. cbn [bind].
  rewrite Hh. cbn [bind].
  destruct (map_back_all_total "home" atg gd) with
    (idxs := pd.positions (pd.mask_eq home team)) (df_prep := df) (d := dates)
    as [df1 H1]; auto.
  { simpl. intuition discriminate. }
  { intros idx Hin. apply positions_bound in Hin. lia. }
  rewrite H1. cbn [bind].
  assert (Hout : same_outside (map (feature_name "home") rolling_names) df df1).
  { revert H1. apply foldM_same_outside. intros ? ? ? _. apply map_back_frame. }
  destruct Hout as [_ Hout].
  rewrite Hout by (simpl; intuition discriminate). rewrite Ha. cbn [bind].
  apply (map_back_all_total "away" atg gd) with (d := dates); auto.
  - simpl. intuition discriminate.
  - rewrite Hout by (simpl; intuition discriminate). assumption.
  - intros idx Hin. apply positions_bound in Hin. lia.
Qed.

(** On a prepared table [create_rolling_features] returns: no lookup of the
    map-back loops raises. *)
Lemma create_rolling_features_total df :
  prepared df = true ->
  exists df', create_rolling_features df = Ok df' /\ prepared df' = true.
Proof.
  intros Hp. unfold create_rolling_features.
  destruct (prepared_spec df Hp) as ((home & Hh & _) & _).
  rewrite Hh. cbn [bind]. clear Hh.
  generalize (pd.unique home). intros teams. revert df Hp.
  induction teams as [|team teams IH]; intros df Hp.
  - simpl. eauto.
  - destruct (team_features_total df team Hp) as [df1 H1].
    simpl. rewrite H1. cbn [bind]. apply IH.
    rewrite (prepared_same_outside df df1); [assumption|].
    now apply team_features_frame in H1.
Qed.

(** ** C3: the lookup of the map-back loops *)

Lemma well_shaped_col_or_nan df n :
  well_shaped df = true -> length (pd.col_or_nan df n) = nrows df.
Proof.
  unfold well_shaped, pd.col_or_nan. rewrite forallb_forall. intros H.
  destruct (pd.lookup n (columns df)) as [s|] eqn:E; [|apply repeat_length].
  assert (Hin : exists m, In (m, s) (columns df)).
  { clear H. induction (columns df) as [|[m s0] cols IH]; simpl in E;
      [discriminate|].
    destruct (String.eqb m n).
    - inversion E; subst. exists m. now left.
    - destruct (IH E) as [m' Hm']. exists m'. now right. }
  destruct Hin as [m Hm]. specialize (H _ Hm). now apply Nat.eqb_eq in H.
Qed.

Lemma loc_bound df idx n c :
  well_shaped df = true -> pd.loc df idx n = Ok c -> idx < nrows df.
Proof.
  intros Hw H. unfold pd.loc in H. inv_bind H.
  destruct (nth_error x idx) eqn:E; [|discriminate].
  assert (Hlt : idx < length x) by (apply nth_error_Some; congruence).
  rewrite <- (well_shaped_col_or_nan df n Hw).
  now rewrite (col_or_nan_getcol _ _ _ Hx).
Qed.

(** C3, as the code has it.  The lookup of a team's rolling statistics by
    the date of a fixture row never raises.  When no record of the team
    carries the date, the row is left as it was.  When one record or more
    carry it, the statistics of the first such record of the team's
    sequence are written to the row, whatever the other records hold. *)
Theorem lookup_takes_first_record
    (side : string) (all_team_games df_prep : DataFrame) (idx : nat)
    (match_date : cell) (dates : Series) :
  well_shaped df_prep = true ->
  pd.loc df_prep idx "date" = Ok match_date ->
  pd.getcol all_team_games "date" = Ok dates ->
  (forall name, In name rolling_names ->
     exists s, pd.getcol all_team_games name = Ok s) ->
  exists df',
    map_back side all_team_games df_prep idx = Ok df' /\
    (pd.positions (pd.mask_eq dates match_date) = [] -> df' = df_prep) /\
    (forall first others,
       pd.positions (pd.mask_eq dates match_date) = first :: others ->
       forall name s, In name rolling_names ->
         pd.getcol all_team_games name = Ok s ->
         pd.loc df' idx (feature_name side name) = Ok (nth first s NaN)).
Proof.
  intros Hw Hloc Hdates Hall.
  destruct (map_back_spec side all_team_games df_prep idx match_date dates
              Hloc Hdates Hall) as (df' & Hmb & Hspec).
  exists df'. split; [assumption|]. split.
  - intros E. now rewrite E in Hspec.
  - intros first others E name s Hin Hs. rewrite E in Hspec.
    unfold pd.loc. rewrite (Hspec name s Hin Hs). cbn [bind].
    rewrite update_same; [reflexivity|].
    rewrite well_shaped_col_or_nan by assumption.
    eapply loc_bound; eassumption.
Qed.

Lemma lookup_takes_first_record_witness :
  well_shaped double_booked = true /\
  pd.loc double_booked 2 "date" = Ok (Ts 2) /\
  pd.getcol double_booked_games "date" = Ok [Ts 1; Ts 2; Ts 2] /\
  (forall name, In name rolling_names ->
     exists s, pd.getcol double_booked_games name = Ok s) /\
  exists df',
    map_back "home" double_booked_games double_booked 2 = Ok df' /\
    (pd.positions (pd.mask_eq [Ts 1; Ts 2; Ts 2] (Ts 2)) = [] ->
     df' = double_booked) /\
    (forall first others,
       pd.positions (pd.mask_eq [Ts 1; Ts 2; Ts 2] (Ts 2)) = first :: others ->
       forall name s, In name rolling_names ->
         pd.getcol double_booked_games name = Ok s ->
         pd.loc df' 2 (feature_name "home" name) = Ok (nth first s NaN)).
Proof.
  assert (Hall : forall name, In name rolling_names ->
            exists s, pd.getcol double_booked_games name = Ok s).
  { intros name Hin. simpl in Hin.
    repeat (destruct Hin as [<-|Hin]; [eexists; reflexivity|]).
    contradiction. }
  split; [reflexivity|]. split; [reflexivity|]. split; [reflexivity|].
  split; [exact Hall|].
  apply (lookup_takes_first_record "home" double_booked_games double_booked 2
           (Ts 2) [Ts 1; Ts 2; Ts 2]);
    [reflexivity | reflexivity | reflexivity | exact Hall].
Defined.

(** C3, as stated, fails on [double_booked]: the lookup for the third
    fixture (team "A", date 2) matches the records 1 and 2 of the sequence
    of "A", whose form values differ, and nothing is raised: both fixtures
    of date 2 receive the values of record 1. *)
Lemma ambiguous_match_is_not_raised :
  (g <- team_games double_booked (Str "A") ;; rolling_stats g)
    = Ok double_booked_games /\
  pd.getcol double_booked_games "date" = Ok [Ts 1; Ts 2; Ts 2] /\
  pd.positions (pd.mask_eq [Ts 1; Ts 2; Ts 2] (Ts 2)) = [1; 2] /\
  pd.getcol double_booked_games "form_last_5" = Ok [NaN; Num 1; Num (0 # 2)] /\
  ~ raises (map_back "home" double_booked_games double_booked 2) /\
  ~ raises (create_rolling_features double_booked) /\
  (out <- create_rolling_features double_booked ;;
   pd.getcol out "home_form_last_5") = Ok [NaN; Num 1; Num 1].
Proof.
  repeat split; try (vm_compute; reflexivity);
    intros [e He]; vm_compute in He; discriminate He.
Qed.

(** ** C4: teams that never play at home *)

(** C4.  Rolling features are to be attached for every team that appears
    as home or away team.  In [away_only] team "B" plays away twice and
    never at home.  Lines 41-75 give its second match the form -1, the
    negated outcome of its first match, but the loop of line 39 runs over
    the home teams only: no [away_*] column is written, and the comparison
    step that follows raises [KeyError]. *)
Theorem away_only_team_is_skipped :
  (g <- team_games away_only (Str "B") ;;
   all_team_games <- rolling_stats g ;;
   pd.getcol all_team_games "form_last_5") = Ok [NaN; Num (-1 # 1)] /\
  exists out,
    create_rolling_features away_only = Ok out /\
    pd.getcol out "home_team" = Ok [Str "A"; Str "C"] /\
    pd.getcol out "away_team" = Ok [Str "B"; Str "B"] /\
    pd.getcol out "home_form_last_5" = Ok [NaN; NaN] /\
    (forall name, In name rolling_names ->
       pd.has_column out (feature_name "away" name) = false) /\
    create_comparison_features out = Raise KeyError.
Proof.
  split; [vm_compute; reflexivity|].
  eexists. split; [vm_compute; reflexivity|].
  repeat split; try (vm_compute; reflexivity).
  intros name Hin. simpl in Hin.
  repeat (destruct Hin as [<-|Hin]; [vm_compute; reflexivity|]).
  contradiction.
Qed.

(** ** C9: cleaning *)

Lemma lookup_filter (keep : string -> bool) n cols :
  pd.lookup n (filter (fun c => keep (fst c)) cols) =
  if keep n then pd.lookup n cols else None.
Proof.
  induction cols as [|[m s] cols IH]; simpl.
  - now destruct (keep n).
  - destruct (String.eqb m n) eqn:E.
    + apply String.eqb_eq in E. subst m.
      destruct (keep n) eqn:K; simpl.
      * now rewrite String.eqb_refl.
      * exact IH.
    + destruct (keep m); simpl; [rewrite E|]; exact IH.
Qed.

Lemma filter_agree {A : Type} (f g : A -> bool) (l : list A) :
  (forall x, In x l -> f x = g x) -> filter f l = filter g l.
Proof.
  induction l as [|a l IH]; simpl; intros H; [reflexivity|].
  rewrite (H a) by now left. rewrite IH by (intros; apply H; now right).
  reflexivity.
Qed.

Lemma has_column_In df c : In c (columns df) -> pd.has_column df (fst c) = true.
Proof.
  intros H. unfold pd.has_column. apply existsb_exists.
  exists (fst c). split; [|apply String.eqb_refl].
  unfold names. now apply in_map.
Qed.

(** [clean_data] never raises; it removes the listed columns that exist and
    keeps the others as they are. *)
Lemma clean_data_spec df (columns_to_drop : option (list string)) :
  let labels := match columns_to_drop with
                | None => default_columns_to_drop
                | Some l => l
                end in
  clean_data df columns_to_drop =
  Ok (mkDF (nrows df)
        (filter (fun c => negb (mem (fst c) labels)) (columns df))).
Proof.
  intros labels. unfold clean_data. fold labels.
  assert (Hmem : forall c, In c (columns df) ->
            mem (fst c) (filter (pd.has_column df) labels) = mem (fst c) labels).
  { intros c Hc. destruct (mem (fst c) labels) eqn:E.
    - apply mem_In. apply filter_In. split; [now apply mem_In|].
      now apply has_column_In.
    - apply mem_not_In. intros Hin. apply filter_In in Hin.
      apply mem_not_In in E. tauto. }
  destruct (filter (pd.has_column df) labels) as [|l0 ls] eqn:Ef.
  - f_equal. destruct df as [n cols]. simpl in *. f_equal.
    symmetry. rewrite (filter_agree _ (fun _ => true)).
    + clear. induction cols; simpl; congruence.
    + intros c Hc. rewrite <- (Hmem c Hc). reflexivity.
  - unfold pd.drop.
    assert (Hall : forallb (pd.has_column df) (l0 :: ls) = true).
    { rewrite <- Ef. apply forallb_forall. intros x Hx.
      now apply filter_In in Hx. }
    rewrite Hall. do 2 f_equal. apply filter_agree.
    intros c Hc. f_equal. apply (Hmem c Hc).
Qed.

(** C9. With [columns_to_drop = None], [clean_data] returns the table
    without the columns labelled 'season', 'home_formation' or
    'away_formaation'; it raises for no table, and every other column, the
    one labelled 'away_formation' included, is kept with its cells. *)
Theorem clean_data_default (df : DataFrame) :
  exists out,
    clean_data df None = Ok out /\
    nrows out = nrows df /\
    columns out =
      filter (fun c => negb (mem (fst c)
                               ["season"; "home_formation"; "away_formaation"]))
             (columns df) /\
    (forall n, In n ["season"; "home_formation"; "away_formaation"] ->
       pd.getcol out n = Raise KeyError) /\
    (forall n, ~ In n ["season"; "home_formation"; "away_formaation"] ->
       pd.getcol out n = pd.getcol df n) /\
    pd.getcol out "away_formation" = pd.getcol df "away_formation".
Proof.
  eexists. split; [apply (clean_data_spec df None)|].
  split; [reflexivity|]. split; [reflexivity|].
  assert (Hget : forall n,
    pd.getcol
      (mkDF (nrows df)
         (filter (fun c => negb (mem (fst c) default_columns_to_drop))
                 (columns df))) n =
    if negb (mem n default_columns_to_drop) then pd.getcol df n
    else Raise KeyError).
  { intros n. unfold pd.getcol. cbn [columns].
    rewrite (lookup_filter (fun m => negb (mem m default_columns_to_drop))).
    now destruct (negb (mem n default_columns_to_drop)). }
  split; [|split].
  - intros n Hn. rewrite Hget. apply mem_In in Hn.
    unfold default_columns_to_drop. now rewrite Hn.
  - intros n Hn. rewrite Hget. apply mem_not_In in Hn.
    unfold default_columns_to_drop. now rewrite Hn.
  - rewrite Hget. reflexivity.
Qed.

(** ** C7: loading *)

Lemma map_result_Str s :
  map_result (Str s) =
  if String.eqb "W" s then Ok (Num 1)
  else if String.eqb "D" s then Ok (Num 0)
  else if String.eqb "L" s then Ok (Num (-1))
  else Raise KeyError.
Proof.
  unfold map_result, results_map, dict_get.
  destruct (String.eqb "W" s); [reflexivity|].
  destruct (String.eqb "D" s); [reflexivity|].
  destruct (String.eqb "L" s); reflexivity.
Qed.

Lemma map_result_Ok x c :
  map_result x = Ok c ->
  (x = Str "W" /\ c = Num 1) \/ (x = Str "D" /\ c = Num 0) \/
  (x = Str "L" /\ c = Num (-1)).
Proof.
  destruct x as [|q|s|t]; try discriminate.
  rewrite map_result_Str.
  destruct (String.eqb "W" s) eqn:EW; [apply String.eqb_eq in EW; subst|].
  { intros H. inversion H. auto. }
  destruct (String.eqb "D" s) eqn:ED; [apply String.eqb_eq in ED; subst|].
  { intros H. inversion H. auto. }
  destruct (String.eqb "L" s) eqn:EL; [apply String.eqb_eq in EL; subst|].
  { intros H. inversion H. auto. }
  discriminate.
Qed.

Lemma map_result_only_KeyError x e : map_result x = Raise e -> e = KeyError.
Proof.
  destruct x as [|q|s|t]; try (simpl; congruence).
  rewrite map_result_Str.
  destruct (String.eqb "W" s); [discriminate|].
  destruct (String.eqb "D" s); [discriminate|].
  destruct (String.eqb "L" s); [discriminate|]. congruence.
Qed.

Lemma map_result_raises x :
  x <> Str "W" -> x <> Str "D" -> x <> Str "L" -> map_result x = Raise KeyError.
Proof.
  intros HW HD HL. destruct (map_result x) as [c|e] eqn:E.
  - apply map_result_Ok in E. destruct E as [[-> _]|[[-> _]|[-> _]]]; congruence.
  - now rewrite (map_result_only_KeyError _ _ E).
Qed.

Lemma mapM_map_result_bad results :
  (exists x, In x results /\ x <> Str "W" /\ x <> Str "D" /\ x <> Str "L") ->
  mapM map_result results = Raise KeyError.
Proof.
  intros (x & Hin & HW & HD & HL).
  induction results as [|y results IH]; [contradiction|]. simpl.
  destruct (map_result y) as [c|e] eqn:Ey; simpl.
  - destruct Hin as [->|Hin].
    + rewrite map_result_raises in Ey by assumption. discriminate.
    + now rewrite (IH Hin).
  - now rewrite (map_result_only_KeyError _ _ Ey).
Qed.

Lemma names_setcol_existing df n s0 s :
  pd.getcol df n = Ok s0 -> names (pd.setcol df n s) = names df.
Proof.
  intros H. unfold names, pd.setcol. simpl. rewrite names_assign.
  assert (Hc : pd.has_column df n = true)
    by (apply lookup_has_column; exists s0; now apply getcol_lookup).
  unfold pd.has_column, names in Hc. now rewrite Hc.
Qed.

Section LoadSpec.

Variable to_datetime : Series -> result Series.

(** C7. [load_and_prepare_data] maps the outcome labels W, D, L of the
    home side to 1, 0, -1, raises (as [KeyError], after the dates are
    parsed) when a row carries any other label, and changes no column
    besides the outcome and the parsed date. *)
Theorem load_and_prepare_data_spec (df : DataFrame) (results : Series) :
  pd.getcol df "result" = Ok results ->
  (* a label outside W, D, L *)
  ((exists x, In x results /\ x <> Str "W" /\ x <> Str "D" /\ x <> Str "L") ->
   raises (load_and_prepare_data to_datetime df) /\
   forall dates parsed,
     pd.getcol df "date" = Ok dates -> to_datetime dates = Ok parsed ->
     load_and_prepare_data to_datetime df = Raise KeyError) /\
  (* labels within W, D, L *)
  (forall dates parsed,
     pd.getcol df "date" = Ok dates -> to_datetime dates = Ok parsed ->
     (forall x, In x results -> x = Str "W" \/ x = Str "D" \/ x = Str "L") ->
     exists out, load_and_prepare_data to_datetime df = Ok out) /\
  (* the table returned *)
  (forall out,
     load_and_prepare_data to_datetime df = Ok out ->
     nrows out = nrows df /\
     names out = names df /\
     (forall n, n <> "date" -> n <> "result" ->
                pd.getcol out n = pd.getcol df n) /\
     (exists dates, pd.getcol df "date" = Ok dates /\
                    to_datetime dates = pd.getcol out "date") /\
     exists mapped,
       pd.getcol out "result" = Ok mapped /\
       length mapped = length results /\
       forall i x, nth_error results i = Some x ->
         (x = Str "W" /\ nth_error mapped i = Some (Num 1)) \/
         (x = Str "D" /\ nth_error mapped i = Some (Num 0)) \/
         (x = Str "L" /\ nth_error mapped i = Some (Num (-1)))).
Proof.
  intros Hres.
  assert (Hres' : forall parsed,
            pd.getcol (pd.setcol df "date" parsed) "result" = Ok results).
  { intros parsed. rewrite getcol_setcol_other by discriminate. assumption. }
  split; [|split].
  - intros Hbad.
    assert (Hkey : forall dates parsed,
              pd.getcol df "date" = Ok dates -> to_datetime dates = Ok parsed ->
              load_and_prepare_data to_datetime df = Raise KeyError).
    { intros dates parsed Hd Hp. unfold load_and_prepare_data.
      rewrite Hd. cbn [bind]. rewrite Hp. cbn [bind].
      rewrite Hres'. cbn [bind]. now rewrite (mapM_map_result_bad _ Hbad). }
    split; [|exact Hkey].
    destruct (pd.getcol df "date") as [dates|e] eqn:Hd.
    + destruct (to_datetime dates) as [parsed|e] eqn:Hp.
      * exists KeyError. eapply Hkey; eauto.
      * exists e. unfold load_and_prepare_data. rewrite Hd. cbn [bind].
        now rewrite Hp.
    + exists e. unfold load_and_prepare_data. now rewrite Hd.
  - intros dates parsed Hd Hp Hgood.
    unfold load_and_prepare_data.
    rewrite Hd. cbn [bind]. rewrite Hp. cbn [bind]. rewrite Hres'. cbn [bind].
    destruct (mapM_total map_result results) as [mapped Hm].
    { intros x Hx. destruct (Hgood x Hx) as [->|[->| ->]]; eexists; reflexivity. }
    rewrite Hm. cbn [bind]. eauto.
  - intros out H. unfold load_and_prepare_data in H.
    inv_bind H. rename x into dates, Hx into Hd.
    inv_bind H. rename x into parsed, Hx into Hp.
    inv_bind H. rewrite Hres' in Hx. inversion Hx; subst x. clear Hx.
    inv_bind H. rename x into mapped, Hx into Hm.
    inversion H; subst out. clear H.
    split; [reflexivity|]. split.
    { rewrite (names_setcol_existing _ _ results); [|apply Hres'].
      now rewrite (names_setcol_existing _ _ dates). }
    split.
    { intros n Hn1 Hn2. rewrite !getcol_setcol_other by congruence.
      reflexivity. }
    split.
    { exists dates. split; [assumption|]. rewrite Hp.
      rewrite getcol_setcol_other by discriminate.
      symmetry. apply getcol_setcol_same. }
    exists mapped. split; [apply getcol_setcol_same|].
    split; [eapply mapM_length; eassumption|].
    intros i x Hi.
    destruct (mapM_nth_error _ _ _ Hm i x Hi) as (c & Hc & Hnth).
    apply map_result_Ok in Hc. rewrite Hnth.
    destruct Hc as [[-> ->]|[[-> ->]|[-> ->]]]; auto.
Qed.

End LoadSpec.

Lemma load_and_prepare_data_spec_witness :
  pd.getcol raw_fixtures "result" = Ok [Str "W"; Str "D"; Str "L"] /\
  exists out, load_and_prepare_data iso_to_datetime raw_fixtures = Ok out.
Proof.
  split; [reflexivity|].
  destruct (load_and_prepare_data_spec iso_to_datetime raw_fixtures
              [Str "W"; Str "D"; Str "L"] eq_refl) as (_ & Hreturns & _).
  apply (Hreturns [Str "2021-01-02"; Str "2021-01-09"; Str "2021-01-16"]
                  [Ts 20210102; Ts 20210109; Ts 20210116]);
    [reflexivity | reflexivity |].
  intros x Hx. simpl in Hx. intuition.
Defined.

Example load_sample :
  load_and_prepare_data iso_to_datetime raw_fixtures =
  Ok (from_rows ["date"; "home_team"; "away_team"; "result"; "home_goals"]
        [[Ts 20210102; Str "A"; Str "B"; Num 1; int 2];
         [Ts 20210109; Str "B"; Str "A"; Num 0; int 1];
         [Ts 20210116; Str "A"; Str "C"; Num (-1); int 0]]).
Proof. vm_compute. reflexivity. Qed.

Example load_sample_bad_label :
  load_and_prepare_data iso_to_datetime raw_fixtures_bad_label = Raise KeyError.
Proof. vm_compute. reflexivity. Qed.

(** ** C5: comparison features *)

Lemma sub_cell_numeric a b :
  is_numeric a = true -> is_numeric b = true ->
  pd.sub_cell a b = Ok (difference a b).
Proof. destruct a, b; simpl; intros; try discriminate; reflexivity. Qed.

Lemma sub_numeric a : forall b,
  numeric a = true -> numeric b = true -> length a = length b ->
  exists d, pd.sub a b = Ok d /\ length d = length a /\
            forall i, i < length a ->
              nth_error d i = Some (difference (nth i a NaN) (nth i b NaN)).
Proof.
  unfold pd.sub.
  induction a as [|x a IH]; intros [|y b] Ha Hb Hlen; simpl in *;
    try discriminate.
  - exists []. repeat split; auto. intros; lia.
  - apply andb_true_iff in Ha, Hb. destruct Ha as [Hx Ha], Hb as [Hy Hb].
    destruct (IH b Ha Hb) as (d & Hd & Hl & Hnth); [lia|].
    rewrite (sub_cell_numeric x y Hx Hy). cbn [bind]. rewrite Hd. cbn [bind].
    eexists. split; [reflexivity|]. split; [simpl; lia|].
    intros [|i] Hi; simpl; [reflexivity|]. apply Hnth. lia.
Qed.

Lemma add_difference_Ok df out p out' :
  add_difference df out p = Ok out' ->
  exists a b d,
    pd.getcol df (fst (snd p)) = Ok a /\ pd.getcol df (snd (snd p)) = Ok b /\
    pd.sub a b = Ok d /\ out' = pd.setcol out (fst p) d.
Proof.
  unfold add_difference. intros H. do 3 inv_bind H. inversion H.
  eauto 10.
Qed.

Lemma differences_spec df specs : forall out out',
  distinct (map fst specs) = true ->
  foldM (add_difference df) specs out = Ok out' ->
  same_outside (map fst specs) out out' /\
  forall new a b, In (new, (a, b)) specs ->
    exists sa sb sd, pd.getcol df a = Ok sa /\ pd.getcol df b = Ok sb /\
                     pd.sub sa sb = Ok sd /\ pd.getcol out' new = Ok sd.
Proof.
  induction specs as [|[n0 [a0 b0]] specs IH]; intros out out' Hd H.
  - simpl in H. inversion H. split; [apply same_outside_refl|]. intros ? ? ? [].
  - simpl in H. inv_bind H. apply add_difference_Ok in Hx.
    destruct Hx as (sa & sb & sd & Ha & Hb & Hsub & ->). simpl in *.
    apply andb_true_iff in Hd. destruct Hd as [Hn0 Hd].
    apply negb_true_iff, mem_not_In in Hn0.
    destruct (IH _ _ Hd H) as ([Hn Hframe] & Hspec).
    split.
    + split; [exact Hn|]. intros n Hnot. simpl in Hnot.
      rewrite Hframe by tauto.
      apply getcol_setcol_other. intros ->. tauto.
    + intros new a b [E|Hin].
      * inversion E; subst. exists sa, sb, sd. repeat split; auto.
        rewrite Hframe by assumption. apply getcol_setcol_same.
      * auto.
Qed.

Lemma differences_total df specs : forall out,
  (forall new a b, In (new, (a, b)) specs ->
     exists sa sb sd, pd.getcol df a = Ok sa /\ pd.getcol df b = Ok sb /\
                      pd.sub sa sb = Ok sd) ->
  exists out', foldM (add_difference df) specs out = Ok out'.
Proof.
  induction specs as [|[n0 [a0 b0]] specs IH]; intros out H.
  - simpl. eauto.
  - destruct (H n0 a0 b0 (or_introl eq_refl)) as (sa & sb & sd & Ha & Hb & Hs).
    simpl. unfold add_difference at 1. simpl. rewrite Ha, Hb. cbn [bind].
    rewrite Hs. cbn [bind]. apply IH. intros; eapply H; right; eassumption.
Qed.

(** C5. On a table that holds the rolling columns, the comparison step
    adds five columns and changes no other: [form_difference],
    [goals_difference], [xg_difference] and [poss_difference] are, row by
    row, the home value minus the away value, [defensive_difference] is the
    away goals-conceded value minus the home one, and a difference is
    missing as soon as one of its operands is. *)
Theorem comparison_features_are_differences (df : DataFrame) :
  forallb (column_ok numeric df) comparison_inputs = true ->
  exists out,
    create_comparison_features df = Ok out /\
    nrows out = nrows df /\
    (forall n, ~ In n ["form_difference"; "goals_difference"; "xg_difference";
                       "poss_difference"; "defensive_difference"] ->
               pd.getcol out n = pd.getcol df n) /\
    forall new minuend subtrahend,
      In (new, (minuend, subtrahend))
         [("form_difference", ("home_form_last_5", "away_form_last_5"));
          ("goals_difference", ("home_avg_goals_last_5", "away_avg_goals_last_5"));
          ("xg_difference", ("home_avg_xg_last_5", "away_avg_xg_last_5"));
          ("poss_difference", ("home_avg_poss_last_5", "away_avg_poss_last_5"));
          ("defensive_difference",
           ("away_avg_goals_conceded_last_5", "home_avg_goals_conceded_last_5"))] ->
      exists sa sb sd,
        pd.getcol df minuend = Ok sa /\ pd.getcol df subtrahend = Ok sb /\
        pd.getcol out new = Ok sd /\ length sd = nrows df /\
        forall i, i < nrows df ->
          nth_error sd i = Some (difference (nth i sa NaN) (nth i sb NaN)).
Proof.
  intros Hin. rewrite forallb_forall in Hin.
  assert (Hcol : forall new a b, In (new, (a, b)) comparison_columns ->
            exists sa sb sd,
              pd.getcol df a = Ok sa /\ pd.getcol df b = Ok sb /\
              pd.sub sa sb = Ok sd /\ length sd = nrows df /\
              forall i, i < nrows df ->
                nth_error sd i = Some (difference (nth i sa NaN) (nth i sb NaN))).
  { intros new a b H.
    assert (Ha : In a comparison_inputs /\ In b comparison_inputs).
    { simpl in H.
      repeat (destruct H as [E|H]; [inversion E; split; pick_in|]).
      contradiction. }
    destruct Ha as [Ha Hb].
    destruct (column_ok_spec _ _ _ (Hin a Ha)) as (sa & Hsa & La & Na).
    destruct (column_ok_spec _ _ _ (Hin b Hb)) as (sb & Hsb & Lb & Nb).
    destruct (sub_numeric sa sb Na Nb) as (sd & Hsd & Ld & Hnth); [congruence|].
    exists sa, sb, sd. repeat split; auto; try congruence.
    intros i Hi. apply Hnth. lia. }
  destruct (differences_total df comparison_columns df) as [out Hout].
  { intros new a b H. destruct (Hcol new a b H) as (sa & sb & sd & ? & ? & ? & _).
    eauto 10. }
  exists out. split; [exact Hout|].
  apply differences_spec in Hout; [|reflexivity].
  destruct Hout as ([Hn Hframe] & Hspec).
  split; [exact Hn|]. split; [exact Hframe|].
  intros new a b H.
  destruct (Hcol new a b H) as (sa & sb & sd & Hsa & Hsb & Hsd & Ld & Hnth).
  destruct (Hspec new a b H) as (sa' & sb' & sd' & Hsa' & Hsb' & Hsd' & Hget).
  assert (sa' = sa) by congruence. assert (sb' = sb) by congruence. subst.
  assert (sd' = sd) by congruence. subst.
  exists sa, sb, sd. repeat split; auto.
Qed.

Lemma comparison_features_are_differences_witness :
  forallb (column_ok numeric season_of_A_features) comparison_inputs = true /\
  exists out, create_comparison_features season_of_A_features = Ok out.
Proof.
  split; [reflexivity|].
  destruct (comparison_features_are_differences season_of_A_features eq_refl)
    as (out & Hout & _).
  exists out. exact Hout.
Defined.

(** ** C6: encoding twice *)

Lemma mapM_agree {A B : Type} (f g : A -> result B) (l : list A) (r : list B) :
  (forall x y, In x l -> f x = Ok y -> g x = Ok y) ->
  mapM f l = Ok r -> mapM g l = Ok r.
Proof.
  revert r. induction l as [|a l IH]; intros r Hfg H; simpl in *;
    [assumption|].
  inv_bind H. inv_bind H. inversion H; subst.
  rewrite (Hfg a x (or_introl eq_refl) Hx). cbn [bind].
  rewrite (IH x0); auto.
Qed.

Lemma getcol_concat_columns df extra n s :
  pd.getcol df n = Ok s -> pd.getcol (pd.concat_columns df extra) n = Ok s.
Proof.
  intros H. apply getcol_lookup in H. apply getcol_lookup.
  unfold pd.concat_columns. simpl. rewrite lookup_app. now rewrite H.
Qed.

Lemma select_concat_columns df extra labels t :
  pd.select df labels = Ok t ->
  pd.select (pd.concat_columns df extra) labels = Ok t.
Proof.
  unfold pd.select. intros H. inv_bind H.
  assert (Hx' : mapM (fun n => s <- pd.getcol (pd.concat_columns df extra) n ;;
                               Ok (n, s)) labels = Ok x).
  { revert Hx. apply mapM_agree. intros n y _ Hy. inv_bind Hy.
    now rewrite (getcol_concat_columns _ _ _ _ Hx). }
  rewrite Hx'. exact H.
Qed.

Lemma encode_teams_Ok df e :
  encode_teams df = Ok e ->
  exists teams dummies,
    pd.select df ["home_team"; "away_team"] = Ok teams /\
    pd.get_dummies teams ["home"; "away"] = Ok dummies /\
    e = pd.concat_columns df (columns dummies).
Proof.
  unfold encode_teams. intros H. inv_bind H. inv_bind H. inversion H. eauto.
Qed.

(** C6, as the code has it.  Encoding an encoded table again returns a
    table in which every column of the encoded table, the indicator
    columns included, stands unchanged, followed by a second copy of each
    indicator column: the encoder is not idempotent as soon as one team is
    encoded. *)
Theorem second_encoding_appends_copies (df e : DataFrame) :
  encode_teams df = Ok e ->
  distinct (names e) = true ->
  exists indicators e',
    columns e = columns df ++ indicators /\
    encode_teams e = Ok e' /\
    nrows e' = nrows e /\
    columns e' = columns e ++ indicators /\
    (forall n s, pd.getcol e n = Ok s -> pd.getcol e' n = Ok s) /\
    (indicators <> [] -> e' <> e).
Proof.
  intros H _. apply encode_teams_Ok in H.
  destruct H as (teams & dummies & Hsel & Hdum & ->).
  exists (columns dummies), (pd.concat_columns
            (pd.concat_columns df (columns dummies)) (columns dummies)).
  split; [reflexivity|]. split.
  { unfold encode_teams.
    rewrite (select_concat_columns _ _ _ _ Hsel). cbn [bind].
    now rewrite Hdum. }
  split; [reflexivity|]. split; [reflexivity|]. split.
  { intros n s. apply getcol_concat_columns. }
  intros Hne Heq. apply (f_equal (fun d => length (columns d))) in Heq.
  simpl in Heq. rewrite !length_app in Heq.
  destruct (columns dummies); [congruence | simpl in Heq; lia].
Qed.

Lemma second_encoding_appends_copies_witness :
  encode_teams season_of_A = Ok season_of_A_encoded /\
  distinct (names season_of_A_encoded) = true /\
  exists indicators e',
    columns season_of_A_encoded = columns season_of_A ++ indicators /\
    encode_teams season_of_A_encoded = Ok e' /\
    nrows e' = nrows season_of_A_encoded /\
    columns e' = columns season_of_A_encoded ++ indicators /\
    (forall n s, pd.getcol season_of_A_encoded n = Ok s ->
                 pd.getcol e' n = Ok s) /\
    (indicators <> [] -> e' <> season_of_A_encoded).
Proof.
  split; [reflexivity|]. split; [reflexivity|].
  apply (second_encoding_appends_copies season_of_A season_of_A_encoded);
    reflexivity.
Defined.

(** C6, as stated, fails on [season_of_A]: the second encoding returns a
    table that differs from the encoded one; it holds each indicator column
    twice. *)
Lemma encoding_is_not_idempotent :
  exists e e',
    encode_teams season_of_A = Ok e /\
    encode_teams e = Ok e' /\
    e' <> e /\
    names e = fixture_columns
              ++ ["home_A"; "home_B"; "home_C"; "away_A"; "away_B"; "away_C"] /\
    names e' = fixture_columns
               ++ ["home_A"; "home_B"; "home_C"; "away_A"; "away_B"; "away_C"]
               ++ ["home_A"; "home_B"; "home_C"; "away_A"; "away_B"; "away_C"].
Proof.
  eexists. eexists.
  split; [vm_compute; reflexivity|].
  split; [vm_compute; reflexivity|].
  split; [|split; vm_compute; reflexivity].
  intros H. apply (f_equal (fun d => length (columns d))) in H.
  vm_compute in H. discriminate H.
Qed.

(** ** C8: the identity fields through the stages *)

Lemma keeps_outside_trans written df1 df2 df3 :
  keeps_outside written df1 df2 -> keeps_outside written df2 df3 ->
  keeps_outside written df1 df3.
Proof. intros [H1 H2] [H3 H4]. split; [congruence|]. eauto. Qed.

Lemma same_outside_keeps w written df out :
  (forall n, In n w -> In n written) ->
  same_outside w df out -> keeps_outside written df out.
Proof.
  intros Hsub [Hn Hf]. split; [assumption|].
  intros n s Hnot Hs. rewrite Hf; auto.
Qed.

Lemma touched_features n : In n feature_names -> In n touched_columns.
Proof. intros H. unfold touched_columns. apply in_or_app. now left. Qed.

Lemma touched_differences n :
  In n (map fst comparison_columns) -> In n touched_columns.
Proof.
  intros H. unfold touched_columns. apply in_or_app. right.
  apply in_or_app. now left.
Qed.

Lemma touched_dropped n :
  In n default_columns_to_drop -> In n touched_columns.
Proof.
  intros H. unfold touched_columns. apply in_or_app. right.
  apply in_or_app. now right.
Qed.

Lemma rolling_stage_keeps df out :
  create_rolling_features df = Ok out -> keeps_outside touched_columns df out.
Proof.
  intros H. apply create_rolling_features_frame in H.
  eapply same_outside_keeps; [|eassumption]. apply touched_features.
Qed.

Lemma encoding_stage_keeps df out :
  encode_teams df = Ok out -> keeps_outside touched_columns df out.
Proof.
  intros H. apply encode_teams_Ok in H.
  destruct H as (teams & dummies & _ & _ & ->).
  split; [reflexivity|]. intros n s _. apply getcol_concat_columns.
Qed.

Lemma comparison_stage_keeps df out :
  create_comparison_features df = Ok out -> keeps_outside touched_columns df out.
Proof.
  intros H. apply differences_spec in H; [|reflexivity].
  destruct H as [H _].
  eapply same_outside_keeps; [|eassumption]. apply touched_differences.
Qed.

Lemma cleaning_stage_keeps df out :
  clean_data df None = Ok out -> keeps_outside touched_columns df out.
Proof.
  rewrite (clean_data_spec df None). intros H. inversion H.
  split; [reflexivity|]. intros n s Hnot Hs.
  apply getcol_lookup in Hs. apply getcol_lookup. cbn [columns].
  rewrite (lookup_filter (fun m => negb (mem m default_columns_to_drop))).
  assert (Hm : mem n default_columns_to_drop = false).
  { apply mem_not_In. intros Hin. apply Hnot. now apply touched_dropped. }
  now rewrite Hm.
Qed.

Lemma identity_not_touched n : In n identity_columns -> ~ In n touched_columns.
Proof.
  assert (H : disjoint identity_columns touched_columns = true) by reflexivity.
  intros Hn Hin. exact (disjoint_spec _ _ H n n Hn Hin eq_refl).
Qed.

(** C8. Each stage after loading (rolling features, encoding, comparison
    features, cleaning with the default columns) returns a table with the
    rows of its input in which the date, the home team and the away team
    of every row are the cells of the input; the only columns a stage
    writes or drops are the sixteen rolling features, the five differences
    and the three default columns of the cleaning step. *)
Theorem identity_fields_are_kept (df out : DataFrame) :
  create_rolling_features df = Ok out \/
  encode_teams df = Ok out \/
  create_comparison_features df = Ok out \/
  clean_data df None = Ok out ->
  nrows out = nrows df /\
  (forall n s, In n ["date"; "home_team"; "away_team"] ->
               pd.getcol df n = Ok s -> pd.getcol out n = Ok s) /\
  (forall n s, ~ In n touched_columns ->
               pd.getcol df n = Ok s -> pd.getcol out n = Ok s).
Proof.
  intros H.
  assert (Hk : keeps_outside touched_columns df out).
  { destruct H as [H|[H|[H|H]]].
    - now apply rolling_stage_keeps.
    - now apply encoding_stage_keeps.
    - now apply comparison_stage_keeps.
    - now apply cleaning_stage_keeps. }
  destruct Hk as [Hn Hk]. split; [assumption|]. split; [|assumption].
  intros n s Hin. apply Hk. now apply identity_not_touched.
Qed.

Lemma identity_fields_are_kept_witness :
  (create_rolling_features season_of_A = Ok season_of_A_features \/
   encode_teams season_of_A = Ok season_of_A_features \/
   create_comparison_features season_of_A = Ok season_of_A_features \/
   clean_data season_of_A None = Ok season_of_A_features) /\
  nrows season_of_A_features = nrows season_of_A /\
  (forall n s, In n ["date"; "home_team"; "away_team"] ->
               pd.getcol season_of_A n = Ok s ->
               pd.getcol season_of_A_features n = Ok s) /\
  (forall n s, ~ In n touched_columns ->
               pd.getcol season_of_A n = Ok s ->
               pd.getcol season_of_A_features n = Ok s).
Proof.
  assert (H : create_rolling_features season_of_A = Ok season_of_A_features)
    by (vm_compute; reflexivity).
  split; [left; exact H|].
  apply (identity_fields_are_kept season_of_A season_of_A_features).
  left. exact H.
Defined.

Lemma process_season_data_stages to_datetime raw :
  process_season_data to_datetime raw =
  (df <- load_and_prepare_data to_datetime raw ;; engineer df).
Proof. reflexivity. Qed.

(** The same through the four stages chained. *)
Lemma engineer_keeps_identity df out :
  engineer df = Ok out ->
  nrows out = nrows df /\
  forall n s, In n identity_columns ->
              pd.getcol df n = Ok s -> pd.getcol out n = Ok s.
Proof.
  unfold engineer. intros H. do 3 inv_bind H.
  assert (Hk : keeps_outside touched_columns df out).
  { eapply keeps_outside_trans; [apply rolling_stage_keeps; eassumption|].
    eapply keeps_outside_trans; [apply encoding_stage_keeps; eassumption|].
    eapply keeps_outside_trans; [apply comparison_stage_keeps; eassumption|].
    now apply cleaning_stage_keeps. }
  destruct Hk as [Hn Hk]. split; [assumption|].
  intros n s Hin. apply Hk. now apply identity_not_touched.
Qed.


Example scenario_form_before_sixth_match :
  (g <- team_games season_of_A (Str "A") ;;
   all_team_games <- rolling_stats g ;;
   form <- pd.getcol all_team_games "form_last_5" ;;
   Ok (nth_error form 5)) = Ok (Some (Num (2 # 5))).
Proof. vm_compute. reflexivity. Qed.

(** ** C10: the merge of home rows and away rows *)

Lemma ends_x_append m : ends_x (String.append m "_x") = true.
Proof.
  induction m as [|c m IH]; [reflexivity|].
  simpl. destruct m as [|d m]; [reflexivity|].
  simpl in *. destruct m as [|e m]; [reflexivity|].
  simpl in *. exact IH.
Qed.

Lemma suffixed_is_no_key m n :
  In n merge_keys -> String.append m "_x" <> n.
Proof.
  intros Hn E. pose proof (ends_x_append m) as Hx. rewrite E in Hx.
  simpl in Hn. destruct Hn as [<-|[<-|[<-|[]]]]; discriminate Hx.
Qed.

Lemma lookup_renamed n (rn : string -> string) (f : Series -> Series) cols :
  rn n = n ->
  (forall m, m <> n -> rn m <> n) ->
  pd.lookup n (map (fun c => (rn (fst c), f (snd c))) cols) =
  option_map f (pd.lookup n cols).
Proof.
  intros Hn Hother. induction cols as [|[m s] cols IH]; simpl; [reflexivity|].
  destruct (String.eqb m n) eqn:E.
  - apply String.eqb_eq in E. subst m. now rewrite Hn, String.eqb_refl.
  - apply String.eqb_neq in E. apply Hother in E.
    apply String.eqb_neq in E. now rewrite E.
Qed.

Lemma origin_of_pairs lk rk nr (l : list nat) :
  map fst (flat_map (fun i => map (fun j => (i, j)) (pd.matches lk rk nr i)) l) =
  flat_map (fun i => repeat i (length (pd.matches lk rk nr i))) l.
Proof.
  induction l as [|i l IH]; simpl; [reflexivity|].
  rewrite map_app, IH. f_equal.
  induction (pd.matches lk rk nr i) as [|j m IHm]; simpl; congruence.
Qed.

Lemma origin_at_most_one (count : nat -> nat) (l : list nat) :
  (forall i, In i l -> count i <= 1) ->
  flat_map (fun i => repeat i (count i)) l =
  filter (fun i => negb (count i =? 0)) l.
Proof.
  induction l as [|i l IH]; simpl; intros H; [reflexivity|].
  rewrite IH by (intros; apply H; now right).
  specialize (H i (or_introl eq_refl)).
  destruct (count i) as [|[|k]]; simpl; [reflexivity | reflexivity | lia].
Qed.

Lemma matches_spec lk rk nr i j :
  In j (pd.matches lk rk nr i) <->
  j < nr /\ pd.key_same (pd.row_key lk i) (pd.row_key rk j) = true.
Proof. unfold pd.matches. rewrite filter_In, in_seq. intuition lia. Qed.

Lemma mapM_getcol_keys df ks :
  mapM (pd.getcol df) merge_keys = Ok ks ->
  exists d h a, ks = [d; h; a] /\ pd.getcol df "date" = Ok d /\
                pd.getcol df "home_team" = Ok h /\
                pd.getcol df "away_team" = Ok a.
Proof.
  simpl. intros H.
  destruct (pd.getcol df "date") as [d|]; [|discriminate H].
  destruct (pd.getcol df "home_team") as [h|]; [|discriminate H].
  destruct (pd.getcol df "away_team") as [a|]; [|discriminate H].
  simpl in H. inversion H. eauto 10.
Qed.

Section Merge.

Variables (df_home df_away : DataFrame) (hk ak : list Series).

Hypothesis Hhome : mapM (pd.getcol df_home) merge_keys = Ok hk.
Hypothesis Haway : mapM (pd.getcol df_away) merge_keys = Ok ak.
Hypothesis Hstats :
  forall n, In n away_stats -> exists s, pd.getcol df_away n = Ok s.

(** The home row that each output row stems from. *)
Let origin : list nat :=
  map fst (pd.join_pairs hk ak (nrows df_home) (nrows df_away)).

Lemma merge_home_away_spec :
  exists out,
    merge_home_away df_home df_away = Ok out /\
    nrows out = length origin /\
    forall n s, In n merge_keys ->
      pd.getcol df_home n = Ok s -> pd.getcol out n = Ok (pd.take origin s).
Proof.
  destruct (mapM_getcol_keys _ _ Haway) as (ad & ah & aa & -> & Had & Hah & Haa).
  destruct (Hstats "away_sh") as [s1 Hs1]; [pick_in|].
  destruct (Hstats "away_shot_on_target") as [s2 Hs2]; [pick_in|].
  destruct (Hstats "away_dist_covered") as [s3 Hs3]; [pick_in|].
  destruct (Hstats "away_poss") as [s4 Hs4]; [pick_in|].
  unfold merge_home_away, away_stats_to_add, pd.select. simpl mapM.
  rewrite Had, Hah, Haa, Hs1, Hs2, Hs3, Hs4. cbn [bind].
  unfold pd.merge. fold merge_keys. rewrite Hhome. cbn [bind].
  change (mapM (pd.getcol _) merge_keys) with (Ok [ad; ah; aa]).
  cbn [bind nrows]. fold origin.
  eexists. split; [reflexivity|]. split.
  { cbn [nrows]. unfold origin. now rewrite length_map. }
  intros n s Hn Hs. apply getcol_lookup in Hs. apply getcol_lookup.
  cbn [columns]. rewrite lookup_app.
  set (stats := mkDF (nrows df_away) _).
  pose proof (lookup_renamed n
    (fun m => if negb (existsb (String.eqb m) merge_keys)
                 && pd.has_column df_home m && pd.has_column stats m
              then String.append m "_x" else m)
    (pd.take origin) (columns df_home)) as L.
  cbn beta in L. rewrite L; clear L.
  - now rewrite Hs.
  - apply mem_In in Hn. unfold mem in Hn. now rewrite Hn.
  - intros m Hm.
    destruct (negb (existsb (String.eqb m) merge_keys)
              && pd.has_column df_home m && pd.has_column stats m);
      [now apply suffixed_is_no_key | assumption].
Qed.

End Merge.

(** C10, as the code has it.  The merge is an inner join on (date,
    home_team, away_team) that never raises on an unmatched row: home row
    [i] gives as many output rows as there are away rows with its key
    ([matches_spec]), in the order of the home rows, a home row without
    such an away row gives none, and when no home row is matched twice the
    output holds exactly one row for each matched home row. *)
Theorem merge_is_inner_join (df_home df_away : DataFrame) (hk ak : list Series) :
  mapM (pd.getcol df_home) merge_keys = Ok hk ->
  mapM (pd.getcol df_away) merge_keys = Ok ak ->
  (forall n, In n away_stats -> exists s, pd.getcol df_away n = Ok s) ->
  let count := fun i => length (pd.matches hk ak (nrows df_away) i) in
  let origin :=
    flat_map (fun i => repeat i (count i)) (seq 0 (nrows df_home)) in
  exists out,
    merge_home_away df_home df_away = Ok out /\
    nrows out = length origin /\
    (forall n s, In n merge_keys -> pd.getcol df_home n = Ok s ->
                 pd.getcol out n = Ok (pd.take origin s)) /\
    ((forall i, i < nrows df_home -> count i <= 1) ->
     origin = filter (fun i => negb (count i =? 0)) (seq 0 (nrows df_home))).
Proof.
  intros Hh Ha Hs count origin.
  destruct (merge_home_away_spec df_home df_away hk ak Hh Ha Hs)
    as (out & Hout & Hn & Hkeys).
  assert (E : map fst (pd.join_pairs hk ak (nrows df_home) (nrows df_away))
              = origin) by apply origin_of_pairs.
  rewrite E in Hn, Hkeys.
  exists out. split; [assumption|]. split; [assumption|].
  split; [assumption|].
  intros Hone. apply origin_at_most_one.
  intros i Hi. apply Hone. apply in_seq in Hi. lia.
Qed.

Lemma merge_is_inner_join_witness :
  mapM (pd.getcol home_rows) merge_keys =
    Ok [[Str "2021-01-02"; Str "2021-01-09"; Str "2021-01-16"];
        [Str "A"; Str "B"; Str "A"]; [Str "B"; Str "A"; Str "C"]] /\
  mapM (pd.getcol away_rows) merge_keys =
    Ok [[Str "2021-01-02"; Str "2021-01-02"; Str "2021-01-16"];
        [Str "A"; Str "A"; Str "A"]; [Str "B"; Str "B"; Str "C"]] /\
  (forall n, In n away_stats -> exists s, pd.getcol away_rows n = Ok s) /\
  exists out,
    merge_home_away home_rows away_rows = Ok out /\ nrows out = 3.
Proof.
  assert (Hs : forall n, In n away_stats ->
                 exists s, pd.getcol away_rows n = Ok s).
  { intros n Hn. simpl in Hn.
    repeat (destruct Hn as [<-|Hn]; [eexists; reflexivity|]).
    contradiction. }
  split; [reflexivity|]. split; [reflexivity|]. split; [exact Hs|].
  destruct (merge_is_inner_join home_rows away_rows _ _ eq_refl eq_refl Hs)
    as (out & Hout & Hn & _).
  exists out. split; [exact Hout|]. rewrite Hn. reflexivity.
Defined.

(** C10, as stated, fails on [home_rows] and [away_rows]: two home rows
    have an away row with their key, and the output holds three rows, the
    first home row twice. *)
Lemma merge_repeats_a_home_row :
  exists hk ak out,
    mapM (pd.getcol home_rows) merge_keys = Ok hk /\
    mapM (pd.getcol away_rows) merge_keys = Ok ak /\
    filter (fun i => negb (length (pd.matches hk ak 3 i) =? 0)) (seq 0 3)
      = [0; 2] /\
    merge_home_away home_rows away_rows = Ok out /\
    nrows out = 3 /\
    pd.getcol out "date" =
      Ok [Str "2021-01-02"; Str "2021-01-02"; Str "2021-01-16"] /\
    pd.getcol out "home_goals" = Ok [int 2; int 2; int 0] /\
    pd.getcol out "away_sh" = Ok [int 8; int 9; int 5].
Proof.
  do 3 eexists.
  split; [vm_compute; reflexivity|].
  split; [vm_compute; reflexivity|].
  split; [vm_compute; reflexivity|].
  split; [vm_compute; reflexivity|].
  repeat split; vm_compute; reflexivity.
Qed.

(** * Further properties of the code *)

(** ** [clean_data] with any list of labels *)

Lemma filter_filter_same {A : Type} (f : A -> bool) (l : list A) :
  filter f (filter f l) = filter f l.
Proof.
  induction l as [|a l IH]; simpl; [reflexivity|].
  destruct (f a) eqn:E; simpl; [rewrite E|]; congruence.
Qed.

(** [clean_data] raises for no table and no list of labels: labels that
    no column carries are ignored, every column carrying a listed label is
    removed, every other column is kept, and cleaning a cleaned table
    again changes nothing. *)
Theorem clean_data_any_labels (df : DataFrame) (labels : list string) :
  exists out,
    clean_data df (Some labels) = Ok out /\
    nrows out = nrows df /\
    (forall n, In n labels -> pd.getcol out n = Raise KeyError) /\
    (forall n, ~ In n labels -> pd.getcol out n = pd.getcol df n) /\
    clean_data out (Some labels) = Ok out.
Proof.
  eexists. split; [apply (clean_data_spec df (Some labels))|].
  split; [reflexivity|].
  assert (Hget : forall n,
    pd.getcol
      (mkDF (nrows df)
         (filter (fun c => negb (mem (fst c) labels)) (columns df))) n =
    if negb (mem n labels) then pd.getcol df n else Raise KeyError).
  { intros n. unfold pd.getcol. cbn [columns].
    rewrite (lookup_filter (fun m => negb (mem m labels))).
    now destruct (negb (mem n labels)). }
  split; [|split].
  - intros n Hn. rewrite Hget. apply mem_In in Hn. now rewrite Hn.
  - intros n Hn. rewrite Hget. apply mem_not_In in Hn. now rewrite Hn.
  - rewrite clean_data_spec. cbn [nrows columns].
    now rewrite filter_filter_same.
Qed.

(** ** [create_comparison_features] without its inputs *)

Lemma sub_numeric_total a : forall b,
  numeric a = true -> numeric b = true -> exists d, pd.sub a b = Ok d.
Proof.
  unfold pd.sub.
  induction a as [|x a IH]; intros [|y b] Ha Hb; simpl in *; eauto.
  apply andb_true_iff in Ha, Hb. destruct Ha as [Hx Ha], Hb as [Hy Hb].
  destruct (IH b Ha Hb) as (d & Hd).
  rewrite (sub_cell_numeric x y Hx Hy). cbn [bind]. rewrite Hd. cbn [bind].
  eauto.
Qed.

Lemma getcol_absent df n : pd.has_column df n = false -> pd.getcol df n = Raise KeyError.
Proof.
  intros H. unfold pd.getcol.
  destruct (pd.lookup n (columns df)) as [s|] eqn:E; [|reflexivity].
  assert (pd.has_column df n = true) by (apply lookup_has_column; eauto).
  congruence.
Qed.

Lemma getcol_present df n :
  pd.has_column df n = true -> exists s, pd.getcol df n = Ok s.
Proof.
  intros H. apply lookup_has_column in H. destruct H as [s Hs].
  exists s. now apply getcol_lookup.
Qed.

Lemma differences_missing df specs : forall out,
  (forall new a b s, In (new, (a, b)) specs ->
     (pd.getcol df a = Ok s \/ pd.getcol df b = Ok s) -> numeric s = true) ->
  (exists new a b, In (new, (a, b)) specs /\
     (pd.has_column df a = false \/ pd.has_column df b = false)) ->
  foldM (add_difference df) specs out = Raise KeyError.
Proof.
  induction specs as [|[n0 [a0 b0]] specs IH]; intros out Hnum Hmiss.
  - destruct Hmiss as (? & ? & ? & [] & _).
  - simpl. unfold add_difference at 1. simpl.
    destruct (pd.has_column df a0) eqn:Ea;
      [|now rewrite (getcol_absent _ _ Ea)].
    destruct (getcol_present _ _ Ea) as [sa Hsa]. rewrite Hsa. cbn [bind].
    destruct (pd.has_column df b0) eqn:Eb;
      [|now rewrite (getcol_absent _ _ Eb)].
    destruct (getcol_present _ _ Eb) as [sb Hsb]. rewrite Hsb. cbn [bind].
    destruct (sub_numeric_total sa sb) as [d Hd].
    { apply (Hnum n0 a0 b0); [now left | now left]. }
    { apply (Hnum n0 a0 b0); [now left | now right]. }
    rewrite Hd. cbn [bind]. apply IH.
    + intros new a b s Hin. apply (Hnum new a b s). now right.
    + destruct Hmiss as (new & a & b & [E|Hin] & Hab).
      * inversion E; subst. destruct Hab; congruence.
      * eauto 10.
Qed.

(** When one of the ten rolling columns is absent (the present ones being
    numeric), the comparison step raises [KeyError] and returns no table:
    no difference is computed from the columns that are there. *)
Theorem comparison_needs_every_rolling_column (df : DataFrame) (missing : string) :
  In missing comparison_inputs ->
  pd.has_column df missing = false ->
  (forall n s, In n comparison_inputs -> pd.getcol df n = Ok s ->
               numeric s = true) ->
  create_comparison_features df = Raise KeyError.
Proof.
  intros Hin Hmiss Hnum. unfold create_comparison_features.
  assert (Hspec : forall new a b, In (new, (a, b)) comparison_columns ->
            In a comparison_inputs /\ In b comparison_inputs).
  { intros new a b H. simpl in H.
    repeat (destruct H as [E|H]; [inversion E; split; pick_in|]).
    contradiction. }
  assert (Huse : exists new a b,
            (a = missing \/ b = missing) /\ In (new, (a, b)) comparison_columns).
  { simpl in Hin.
    repeat (destruct Hin as [<-|Hin];
            [first [ solve [do 3 eexists; split; [left; reflexivity | pick_in]]
                   | solve [do 3 eexists; split; [right; reflexivity | pick_in]] ]|]).
    contradiction. }
  apply differences_missing.
  - intros new a b s H [Hs|Hs]; destruct (Hspec _ _ _ H) as [Ha Hb]; eauto.
  - destruct Huse as (new & a & b & Hab & H). exists new, a, b.
    split; [exact H|]. destruct Hab as [->| ->]; auto.
Qed.

Lemma comparison_needs_every_rolling_column_witness :
  In "away_form_last_5" comparison_inputs /\
  pd.has_column away_only_features "away_form_last_5" = false /\
  create_comparison_features away_only_features = Raise KeyError.
Proof.
  assert (Hin : In "away_form_last_5" comparison_inputs) by pick_in.
  split; [exact Hin|]. split; [reflexivity|].
  apply (comparison_needs_every_rolling_column away_only_features
           "away_form_last_5" Hin eq_refl).
  intros n s Hn Hs. simpl in Hn.
  repeat (destruct Hn as [<-|Hn];
          [first [discriminate Hs | (inversion Hs; reflexivity)]|]).
  contradiction.
Defined.

(** ** [create_rolling_features]: when it returns and when it raises *)

(** On every prepared table [create_rolling_features] returns a table: no
    lookup, no arithmetic and no [.iloc[0]] raises.  The table returned has
    the rows of the input, agrees with it on every column outside the
    sixteen feature columns, and is prepared again. *)
Theorem rolling_features_of_prepared_table (df : DataFrame) :
  prepared df = true ->
  exists out,
    create_rolling_features df = Ok out /\
    prepared out = true /\
    nrows out = nrows df /\
    forall n, ~ In n feature_names -> pd.getcol out n = pd.getcol df n.
Proof.
  intros Hp. destruct (create_rolling_features_total df Hp) as (out & Hout & Hp').
  exists out. split; [assumption|]. split; [assumption|].
  apply create_rolling_features_frame in Hout. exact Hout.
Qed.

Lemma rolling_features_of_prepared_table_witness :
  prepared season_of_A = true /\
  exists out,
    create_rolling_features season_of_A = Ok out /\
    prepared out = true /\
    nrows out = nrows season_of_A /\
    forall n, ~ In n feature_names ->
              pd.getcol out n = pd.getcol season_of_A n.
Proof.
  split; [reflexivity|].
  apply (rolling_features_of_prepared_table season_of_A). reflexivity.
Defined.

Lemma getcol_take_rows_inv ps df n s :
  pd.getcol (pd.take_rows ps df) n = Ok s -> pd.has_column df n = true.
Proof.
  rewrite getcol_take_rows. intros H. inv_bind H.
  apply lookup_has_column. exists x. now apply getcol_lookup.
Qed.

Lemma getcol_has_column df n s : pd.getcol df n = Ok s -> pd.has_column df n = true.
Proof.
  intros H. apply lookup_has_column. exists s. now apply getcol_lookup.
Qed.

Lemma getcol_concat_inv a b n s :
  pd.getcol (pd.concat a b) n = Ok s ->
  pd.has_column a n = true \/ pd.has_column b n = true.
Proof.
  intros H. apply getcol_lookup in H. unfold pd.concat in H. cbn [columns] in H.
  rewrite lookup_app in H.
  rewrite (lookup_map n (fun name s => s ++ pd.col_or_nan b name)) in H.
  destruct (pd.lookup n (columns a)) as [sa|] eqn:Ea.
  - left. apply lookup_has_column. eauto.
  - right. simpl in H.
    rewrite (lookup_map n (fun _ s => repeat NaN (nrows a) ++ s)) in H.
    rewrite (lookup_filter (fun m => negb (pd.has_column a m))) in H.
    destruct (negb (pd.has_column a n)); [|discriminate].
    destruct (pd.lookup n (columns b)) as [sb|] eqn:Eb; [|discriminate].
    apply lookup_has_column. eauto.
Qed.

(** What [team_games] needs: it returns only on a table that holds the
    away team, the date and every statistic. *)
Lemma team_games_requires df team g :
  team_games df team = Ok g ->
  forall n, In n required_columns -> pd.has_column df n = true.
Proof.
  unfold team_games, pd.filter_rows. intros H.
  inv_bind H. rename x into home, Hx into Hhome.
  inv_bind H. rename x into away, Hx into Haway.
  inv_bind H. rename x into r, Hx into Hr.
  inv_bind H. rename x into negr, Hx into Hneg.
  inv_bind H. rename x into A, Hx into HA.
  inv_bind H. rename x into Hm, Hx into HH.
  rewrite (foldM_ext _ _ _ _ copy_column_derive) in HA.
  rewrite (foldM_ext _ _ _ _ copy_column_derive) in HH.
  apply derive_fold_spec in HA; [|reflexivity|reflexivity].
  apply derive_fold_spec in HH; [|reflexivity|reflexivity].
  destruct HA as (_ & HAframe & HAspec). destruct HH as (_ & HHframe & HHspec).
  set (hp := pd.positions (pd.mask_eq home team)) in *.
  set (ap := pd.positions (pd.mask_eq away team)) in *.
  assert (Haway_src : forall dst src, In (dst, src) away_remap ->
            pd.has_column df src = true).
  { intros dst src Hin. destruct (HAspec _ _ Hin) as (s & _ & Hs & _).
    destruct (remap_sources_are_stats src
                (or_intror (in_map snd _ _ Hin))) as [_ Hne].
    rewrite getcol_setcol_other in Hs by congruence.
    now apply getcol_take_rows_inv in Hs. }
  assert (Hhome_src : forall dst src, In (dst, src) home_remap ->
            pd.has_column df src = true).
  { intros dst src Hin. destruct (HHspec _ _ Hin) as (s & _ & Hs & _).
    now apply getcol_take_rows_inv in Hs. }
  assert (Hdate : pd.has_column df "date" = true).
  { unfold pd.sort_values in H. inv_bind H.
    apply getcol_concat_inv in Hx. destruct Hx as [Hx|Hx];
      apply getcol_present in Hx; destruct Hx as [s Hs].
    - rewrite HHframe in Hs by (simpl; intuition discriminate).
      now apply getcol_take_rows_inv in Hs.
    - rewrite HAframe in Hs by (simpl; intuition discriminate).
      rewrite getcol_setcol_other in Hs by discriminate.
      now apply getcol_take_rows_inv in Hs. }
  intros n Hn. simpl in Hn.
  destruct Hn as [<-|[<-|[<-|Hn]]];
    [now apply getcol_has_column in Haway | exact Hdate
     | now apply getcol_take_rows_inv in Hr |].
  repeat (destruct Hn as [<-|Hn];
          [first [ eapply Hhome_src; solve [pick_in]
                 | eapply Haway_src; solve [pick_in] ]|]).
  contradiction.
Qed.

(** On a table with at least one row, [create_rolling_features] raises as
    soon as one of the columns it reads (away team, date, outcome, goals,
    expected goals, shots, shots on target, possession) is absent. *)
Theorem rolling_features_need_every_column
    (df : DataFrame) (first : cell) (others : Series) (missing : string) :
  pd.getcol df "home_team" = Ok (first :: others) ->
  In missing required_columns ->
  pd.has_column df missing = false ->
  raises (create_rolling_features df).
Proof.
  intros Hhome Hin Hmiss. unfold create_rolling_features.
  rewrite Hhome. cbn [bind]. unfold pd.unique. simpl.
  unfold team_features at 1.
  destruct (team_games df first) as [g|e] eqn:Eg.
  - pose proof (team_games_requires _ _ _ Eg missing Hin). congruence.
  - exists e. reflexivity.
Qed.

Lemma rolling_features_need_every_column_witness :
  pd.getcol raw_fixtures "home_team" = Ok [Str "A"; Str "B"; Str "A"] /\
  In "away_goals" required_columns /\
  pd.has_column raw_fixtures "away_goals" = false /\
  raises (create_rolling_features raw_fixtures).
Proof.
  assert (Hin : In "away_goals" required_columns) by pick_in.
  split; [reflexivity|]. split; [exact Hin|]. split; [reflexivity|].
  exact (rolling_features_need_every_column raw_fixtures (Str "A")
           [Str "B"; Str "A"] "away_goals" eq_refl Hin eq_refl).
Defined.

(** ** A season without fixtures *)

(** On a table without rows [create_rolling_features] returns the table as
    it is: no feature column is created.  The stages that follow then fail:
    the comparison step raises [KeyError] for [home_form_last_5]. *)
Theorem engineer_fails_without_fixtures (df : DataFrame) :
  pd.getcol df "home_team" = Ok [] ->
  pd.getcol df "away_team" = Ok [] ->
  pd.has_column df "home_form_last_5" = false ->
  create_rolling_features df = Ok df /\
  engineer df = Raise KeyError.
Proof.
  intros Hh Ha Hf.
  assert (Hroll : create_rolling_features df = Ok df).
  { unfold create_rolling_features. rewrite Hh. reflexivity. }
  split; [exact Hroll|].
  unfold engineer. rewrite Hroll. cbn [bind].
  unfold encode_teams, pd.select. simpl mapM. rewrite Hh, Ha. cbn [bind].
  unfold pd.get_dummies. simpl. cbn [bind].
  unfold create_comparison_features. simpl.
  unfold add_difference at 1. simpl.
  assert (Hk : pd.getcol (pd.concat_columns df []) "home_form_last_5"
               = Raise KeyError).
  { apply getcol_absent. unfold pd.has_column, names, pd.concat_columns in *.
    simpl. now rewrite app_nil_r. }
  rewrite Hk. reflexivity.
Qed.

Lemma engineer_fails_without_fixtures_witness :
  pd.getcol empty_season "home_team" = Ok [] /\
  pd.getcol empty_season "away_team" = Ok [] /\
  pd.has_column empty_season "home_form_last_5" = false /\
  create_rolling_features empty_season = Ok empty_season /\
  engineer empty_season = Raise KeyError.
Proof.
  split; [reflexivity|]. split; [reflexivity|]. split; [reflexivity|].
  exact (engineer_fails_without_fixtures empty_season eq_refl eq_refl eq_refl).
Defined.

(** ** The sequence of one team (lines 41-65) *)

(** The sequence that lines 41-65 build for a team holds each of its home
    rows and each of its away rows once, in an order that sorts their
    dates; when the team plays at most once on a date this is the only
    such order, whichever algorithm sorts.  Every team-centric column
    reads the home-side column on the home rows and the away-side column
    on the away rows (own goals, own xg, own shots, own shots on target,
    own possession; goals and xg conceded from the other side, as
    [own_columns] lists them), and the outcome of an away row is
    multiplied by -1. *)
Theorem team_sequence_is_own_perspective
    (df : DataFrame) (team : cell) (home away dates : Series) :
  pd.getcol df "home_team" = Ok home ->
  pd.getcol df "away_team" = Ok away ->
  pd.getcol df "date" = Ok dates ->
  pd.sortable dates = true ->
  (forall n, In n stat_columns ->
             exists s, pd.getcol df n = Ok s /\ numeric s = true) ->
  let hp := pd.positions (pd.mask_eq home team) in
  let ap := pd.positions (pd.mask_eq away team) in
  let team_dates := pd.take hp dates ++ pd.take ap dates in
  exists order g,
    team_games df team = Ok g /\
    nrows g = length hp + length ap /\
    Permutation order (seq 0 (length hp + length ap)) /\
    Sorted chronological (pd.take order team_dates) /\
    (no_ties team_dates = true ->
     forall order', Permutation order' (seq 0 (length hp + length ap)) ->
                    Sorted chronological (pd.take order' team_dates) ->
                    order' = order) /\
    pd.getcol g "date" = Ok (pd.take order team_dates) /\
    (exists r,
        pd.getcol df "result" = Ok r /\
        pd.getcol g "result" =
          Ok (pd.take order (pd.take hp r ++ map negated (pd.take ap r)))) /\
    (forall own h a, In (own, (h, a)) own_columns ->
        exists sh sa,
          pd.getcol df h = Ok sh /\ pd.getcol df a = Ok sa /\
          pd.getcol g own = Ok (pd.take order (pd.take hp sh ++ pd.take ap sa))).
Proof.
  intros Hh Ha Hd Hs Hst hp ap team_dates.
  destruct (team_games_spec df team home away dates Hh Ha Hd Hs Hst)
    as (g & Hg & Hn & Hdate & (r & negr & Hr & Hneg & Hres) & Hteam).
  fold hp ap team_dates in Hn, Hdate, Hres, Hteam.
  assert (Hlen : length team_dates = length hp + length ap).
  { unfold team_dates. now rewrite length_app, !take_length. }
  exists (pd.argsort team_dates), g.
  split; [assumption|]. split; [assumption|].
  split; [apply team_sequence_order_is_permutation|].
  split; [apply take_argsort_sorted|]. split.
  { intros Hnt order' Hp' Hs'.
    apply (sorted_order_unique team_dates); auto.
    - apply (sortable_drawn dates); [assumption|].
      intros c Hc. apply in_app_or in Hc. destruct Hc as [Hc|Hc];
        now apply In_take in Hc.
    - apply argsort_perm.
    - now rewrite Hlen.
    - apply take_argsort_sorted. }
  split; [assumption|]. split.
  - exists r. split; [assumption|].
    destruct (Hst "result") as (r' & Hr' & Hnum); [pick_in|].
    assert (r' = r) by congruence. subst r'.
    rewrite mul_negated in Hneg by now apply numeric_take.
    inversion Hneg; subst negr. exact Hres.
  - intros own h a Hin. simpl in Hin.
    repeat (destruct Hin as [E|Hin];
            [inversion E; subst; apply Hteam; pick_in|]).
    contradiction.
Qed.

Lemma team_sequence_is_own_perspective_witness :
  exists g,
    team_games season_of_A (Str "C") = Ok g /\
    nrows g = 3 /\
    pd.getcol g "date" = Ok [Ts 2; Ts 3; Ts 6] /\
    pd.getcol g "result" = Ok [Num (-1); Num ((-1) * (-1)); Num 1].
Proof.
  assert (Hst : forall n, In n stat_columns ->
            exists s, pd.getcol season_of_A n = Ok s /\ numeric s = true).
  { intros n Hn. simpl in Hn.
    repeat (destruct Hn as [<-|Hn]; [eexists; split; reflexivity|]).
    contradiction. }
  destruct (team_sequence_is_own_perspective season_of_A (Str "C")
              [Str "A"; Str "C"; Str "A"; Str "B"; Str "A"; Str "C"]
              [Str "B"; Str "A"; Str "C"; Str "A"; Str "B"; Str "A"]
              [Ts 1; Ts 2; Ts 3; Ts 4; Ts 5; Ts 6]
              eq_refl eq_refl eq_refl eq_refl Hst)
    as (order & g & Hg & Hn & _ & _ & Huniq & Hdate & (r & Hr & Hres) & _).
  assert (Hperm : Permutation [0; 2; 1] (seq 0 3)).
  { exact (team_sequence_order_is_permutation
             [Str "A"; Str "C"; Str "A"; Str "B"; Str "A"; Str "C"]
             [Str "B"; Str "A"; Str "C"; Str "A"; Str "B"; Str "A"]
             [Ts 1; Ts 2; Ts 3; Ts 4; Ts 5; Ts 6] (Str "C")). }
  assert (Hsorted : Sorted chronological (pd.take [0; 2; 1] [Ts 2; Ts 6; Ts 3])).
  { exact (take_argsort_sorted [Ts 2; Ts 6; Ts 3]). }
  pose proof (Huniq eq_refl [0; 2; 1] Hperm Hsorted) as E. subst order.
  vm_compute in Hr. inversion Hr; subst r.
  exists g. split; [exact Hg|]. split; [exact Hn|].
  split; [exact Hdate | exact Hres].
Defined.

(** ** Bounds of the rolling statistics (lines 68-75) *)

Lemma Qsum_within lo hi (l : list Q) :
  (forall q, In q l -> lo <= q <= hi)%Q ->
  (inject_Z (Z.of_nat (length l)) * lo <= pd.Qsum l
   /\ pd.Qsum l <= inject_Z (Z.of_nat (length l)) * hi)%Q.
Proof.
  induction l as [|q l IH]; intros H.
  - simpl. change (inject_Z 0) with 0%Q. split; lra.
  - assert (Hq : (lo <= q <= hi)%Q) by (apply H; now left).
    destruct IH as [IH1 IH2]; [intros; apply H; now right|].
    cbn [length pd.Qsum fold_right]. fold (pd.Qsum l).
    rewrite Nat2Z.inj_succ. unfold Z.succ. rewrite inject_Z_plus.
    change (inject_Z 1) with 1%Q.
    set (n := inject_Z (Z.of_nat (length l))) in *.
    split; lra.
Qed.

Lemma average_within lo hi (l : list Q) :
  l <> [] ->
  (forall q, In q l -> lo <= q <= hi)%Q ->
  (lo <= pd.average l <= hi)%Q.
Proof.
  intros Hne H. destruct (Qsum_within lo hi l H) as [H1 H2].
  assert (Hpos : (0 < inject_Z (Z.of_nat (length l)))%Q).
  { destruct l; [congruence|]. change 0%Q with (inject_Z 0).
    rewrite <- Zlt_Qlt. simpl. lia. }
  unfold pd.average. split.
  - apply Qle_shift_div_l; [assumption|]. lra.
  - apply Qle_shift_div_r; [assumption|]. lra.
Qed.

Lemma observations_In w q : In q (pd.observations w) -> In (Num q) w.
Proof.
  induction w as [|c w IH]; simpl; [tauto|].
  destruct c; simpl; intuition congruence.
Qed.

Lemma window_mean_within lo hi w :
  Forall (within lo hi) w -> within lo hi (pd.window_mean 1 w).
Proof.
  intros H. unfold pd.window_mean.
  destruct (pd.observations w) as [|q obs] eqn:E; simpl; [exact I|].
  apply average_within; [discriminate|].
  intros q' Hq'. rewrite <- E in Hq'. apply observations_In in Hq'.
  rewrite Forall_forall in H. exact (H _ Hq').
Qed.


Lemma In_firstn_list {A : Type} (n : nat) (l : list A) (x : A) :
  In x (firstn n l) -> In x l.
Proof.
  revert l. induction n as [|n IH]; intros [|a l]; simpl; try tauto.
  intros [->|H]; auto.
Qed.

Lemma In_skipn_list {A : Type} (n : nat) (l : list A) (x : A) :
  In x (skipn n l) -> In x l.
Proof.
  revert l. induction n as [|n IH]; intros [|a l]; simpl; try tauto.
  intros H. right. auto.
Qed.

Lemma In_removelast_list {A : Type} (l : list A) (x : A) :
  In x (removelast l) -> In x l.
Proof.
  induction l as [|a l IH]; simpl; [tauto|].
  destruct l as [|b l]; [simpl; tauto|].
  intros [->|H]; [now left | right; auto].
Qed.

(** A rolling mean stays between the bounds of the values it averages. *)
Lemma rolled_within lo hi s m :
  rolled s = Ok m ->
  Forall (within lo hi) s -> Forall (within lo hi) m.
Proof.
  intros Hm Hs. apply rolled_Ok in Hm. destruct Hm as (r & Hr & ->).
  unfold pd.rolling_mean in Hr. destruct (numeric s); [|discriminate].
  inversion Hr as [Hr']. clear Hr.
  assert (Hall : Forall (within lo hi)
            (map (fun i => pd.window_mean 1 (pd.slice (i + 1 - 5) (i + 1) s))
                 (seq 0 (length s)))).
  { apply Forall_map, Forall_forall. intros i _.
    apply window_mean_within, Forall_forall. intros c Hc.
    unfold pd.slice in Hc. apply In_firstn_list, In_skipn_list in Hc.
    rewrite Forall_forall in Hs. auto. }
  unfold pd.shift.
  destruct (map _ (seq 0 (length s))) as [|c l] eqn:E; [constructor|].
  constructor; [exact I|].
  apply Forall_forall. intros x Hx. apply In_removelast_list in Hx.
  rewrite Forall_forall in Hall. auto.
Qed.

Lemma within_take lo hi ps s :
  Forall (within lo hi) s -> Forall (within lo hi) (pd.take ps s).
Proof.
  intros H. apply Forall_forall. intros c Hc. apply In_take in Hc.
  destruct Hc as [Hc| ->]; [|exact I].
  rewrite Forall_forall in H. auto.
Qed.

Lemma within_negated b c :
  within (- b) b c -> within (- b) b (negated c).
Proof. destruct c; simpl; try tauto. intros [H1 H2]. split; lra. Qed.

(** With outcomes between -1 and 1 (as [load_and_prepare_data] produces
    them), every form value of every team is missing or lies between -1
    and 1, whatever the mix of home and away matches. *)
Theorem form_is_between_minus_one_and_one
    (df : DataFrame) (team : cell) (results : Series) :
  prepared df = true ->
  pd.getcol df "result" = Ok results ->
  Forall (within (-1) 1) results ->
  exists games all_team_games form,
    team_games df team = Ok games /\
    rolling_stats games = Ok all_team_games /\
    pd.getcol all_team_games "form_last_5" = Ok form /\
    length form = nrows games /\
    Forall (within (-1) 1) form.
Proof.
  intros Hp Hres Hin.
  destruct (team_games_ready df team Hp) as (games & Hg & _ & Hnum).
  destruct (rolling_stats_total games) as [atg Hatg].
  { intros src Hsrc. destruct (Hnum src Hsrc) as (s & ? & ? & _). eauto. }
  destruct (rolling_stats_spec _ _ Hatg) as (_ & _ & Hspec).
  destruct (Hspec "form_last_5" "result") as (own & form & Hown & Hform & Hget);
    [pick_in|].
  exists games, atg, form. repeat split; auto.
  { destruct (Hnum "result") as (own' & E & _ & Hlen); [pick_in|].
    assert (own' = own) by congruence. subst own'.
    apply rolled_Ok in Hform. destruct Hform as (r & Hr & ->).
    apply rolling_mean_length in Hr.
    destruct r as [|c r]; [simpl in *; lia|].
    unfold pd.shift. cbn [length].
    rewrite removelast_firstn_len, length_firstn. simpl in *. lia. }
  apply (rolled_within _ _ own); [assumption|].
  apply prepared_spec in Hp.
  destruct Hp as ((home & Hh & _) & (away & Ha & _) & (dates & Hd & _ & Hs) & Hst).
  assert (Hst' : forall n, In n stat_columns ->
                   exists s, pd.getcol df n = Ok s /\ numeric s = true).
  { intros n Hn. destruct (Hst n Hn) as (s & ? & _ & ?). eauto. }
  destruct (team_games_spec df team home away dates Hh Ha Hd Hs Hst')
    as (g & Hg' & _ & _ & (r & negr & Hr & Hneg & Hres') & _).
  assert (g = games) by congruence. subst g.
  assert (r = results) by congruence. subst r.
  assert (Hn : numeric results = true).
  { destruct (Hst' "result") as (r' & E & N); [pick_in|]. congruence. }
  rewrite mul_negated in Hneg by now apply numeric_take.
  inversion Hneg; subst negr.
  assert (own = pd.take
            (pd.argsort (pd.take (pd.positions (pd.mask_eq home team)) dates ++
                         pd.take (pd.positions (pd.mask_eq away team)) dates))
            (pd.take (pd.positions (pd.mask_eq home team)) results ++
             map negated (pd.take (pd.positions (pd.mask_eq away team)) results)))
    by congruence.
  subst own. apply within_take. apply Forall_app. split.
  - now apply within_take.
  - apply Forall_map.
    eapply Forall_impl; [|apply within_take; exact Hin].
    intros c Hc. exact (within_negated 1 c Hc).
Qed.

Lemma form_is_between_minus_one_and_one_witness :
  prepared season_of_A = true /\
  pd.getcol season_of_A "result" =
    Ok [int 1; int (-1); int (-1); int 0; int 1; int 1] /\
  Forall (within (-1) 1) [int 1; int (-1); int (-1); int 0; int 1; int 1] /\
  exists games all_team_games form,
    team_games season_of_A (Str "A") = Ok games /\
    rolling_stats games = Ok all_team_games /\
    pd.getcol all_team_games "form_last_5" = Ok form /\
    length form = nrows games /\
    Forall (within (-1) 1) form.
Proof.
  assert (Hin : Forall (within (-1) 1)
                  [int 1; int (-1); int (-1); int 0; int 1; int 1]).
  { repeat constructor; simpl; unfold Qle; simpl; lia. }
  split; [reflexivity|]. split; [reflexivity|]. split; [exact Hin|].
  exact (form_is_between_minus_one_and_one season_of_A (Str "A") _
           eq_refl eq_refl Hin).
Defined.

(** ** Sorted distinct names *)

Lemma label_lt_trans a b c : label_lt a b -> label_lt b c -> label_lt a c.
Proof. unfold label_lt. apply string_compare_lt_trans. Qed.

Lemma label_lt_irrefl a : ~ label_lt a a.
Proof.
  unfold label_lt. induction a as [|x a IH]; simpl; [discriminate|].
  now rewrite ascii_compare_refl.
Qed.

Lemma insert_string_In x l v :
  In v (pd.insert_string x l) <-> v = x \/ In v l.
Proof.
  induction l as [|y l IH]; simpl; [intuition|].
  destruct (String.eqb x y) eqn:E.
  - apply String.eqb_eq in E. subst. simpl. intuition.
  - destruct (String.leb x y); simpl; [intuition|].
    rewrite IH. intuition.
Qed.

Lemma insert_string_sorted x l :
  Sorted label_lt l -> Sorted label_lt (pd.insert_string x l).
Proof.
  induction l as [|y l IH]; simpl; intros H; [repeat constructor|].
  destruct (String.eqb x y) eqn:E; [assumption|].
  apply String.eqb_neq in E.
  destruct (String.leb x y) eqn:L.
  - constructor; [assumption|]. constructor. unfold label_lt.
    unfold String.leb in L.
    destruct (String.compare x y) eqn:C; try discriminate; [|reflexivity].
    apply String.compare_eq_iff in C. contradiction.
  - assert (Hyx : label_lt y x).
    { unfold label_lt, String.leb in *. rewrite String.compare_antisym.
      destruct (String.compare x y); try discriminate. reflexivity. }
    inversion H as [|? ? Hs Hh]; subst.
    constructor; [now apply IH|].
    destruct l as [|z l]; simpl; [now constructor|].
    destruct (String.eqb x z); [assumption|].
    destruct (String.leb x z); [now constructor|].
    inversion Hh; subst. now constructor.
Qed.

Lemma categories_sorted s : Sorted label_lt (pd.categories s).
Proof.
  induction s as [|c s IH]; simpl; [constructor|].
  destruct c; auto. now apply insert_string_sorted.
Qed.

Lemma sorted_labels_NoDup l : Sorted label_lt l -> NoDup l.
Proof.
  intros H. apply Sorted_StronglySorted in H;
    [|intros a b c; apply label_lt_trans].
  induction H as [|a l Hs IH Hall]; constructor; [|assumption].
  intros Hin. rewrite Forall_forall in Hall.
  exact (label_lt_irrefl a (Hall a Hin)).
Qed.

(** The categories of a column are its distinct texts. *)
Lemma categories_In s v : In v (pd.categories s) <-> In (Str v) s.
Proof.
  induction s as [|c s IH]; simpl; [tauto|].
  destruct c as [|q|t|z]; try (rewrite IH; intuition congruence).
  rewrite insert_string_In, IH. intuition congruence.
Qed.

Lemma categories_NoDup s : NoDup (pd.categories s).
Proof. apply sorted_labels_NoDup, categories_sorted. Qed.

(** ** [encode_teams]: one indicator column for each team and side *)

Lemma lookup_dummies prefix s w :
  In w (pd.categories s) ->
  pd.lookup (feature_name prefix w) (pd.dummies_of prefix s)
  = Some (map (pd.indicator w) s).
Proof.
  unfold pd.dummies_of.
  change (fun v => (String.append prefix (String.append "_" v),
                    map (pd.indicator v) s))
    with (fun v => (feature_name prefix v, map (pd.indicator v) s)).
  induction (pd.categories s) as [|v l IH]; [simpl; tauto|].
  cbn [map pd.lookup].
  intros [->|Hin]; [now rewrite String.eqb_refl|].
  destruct (String.eqb (feature_name prefix v) (feature_name prefix w)) eqn:E;
    [|auto].
  apply String.eqb_eq, feature_name_injective in E. now subst.
Qed.

Lemma lookup_dummies_other_side s w :
  pd.lookup (feature_name "away" w) (pd.dummies_of "home" s) = None.
Proof.
  unfold pd.dummies_of. induction (pd.categories s) as [|v l IH]; simpl; auto.
Qed.

Lemma names_dummies prefix s :
  map fst (pd.dummies_of prefix s) = map (feature_name prefix) (pd.categories s).
Proof. unfold pd.dummies_of. rewrite map_map. reflexivity. Qed.

(** On text team columns [encode_teams] appends, after the columns of the
    input, one indicator column [home_<team>] for each distinct home team
    and then one column [away_<team>] for each distinct away team, each
    group in the sorted order of the names.  The column of a team holds 1
    on the rows where the team plays on that side and 0 on every other
    row, rows without a team included: a row with a team has exactly one 1
    among the indicators of a side. *)
Theorem encode_teams_is_one_hot (df : DataFrame) (home away : Series) :
  pd.getcol df "home_team" = Ok home ->
  pd.getcol df "away_team" = Ok away ->
  pd.text home = true ->
  pd.text away = true ->
  exists e indicators,
    encode_teams df = Ok e /\
    nrows e = nrows df /\
    columns e = columns df ++ indicators /\
    map fst indicators =
      map (feature_name "home") (pd.categories home)
      ++ map (feature_name "away") (pd.categories away) /\
    Sorted label_lt (pd.categories home) /\
    Sorted label_lt (pd.categories away) /\
    (forall v, In v (pd.categories home) <-> In (Str v) home) /\
    (forall v, In v (pd.categories away) <-> In (Str v) away) /\
    (forall w, In w (pd.categories home) ->
       pd.lookup (feature_name "home" w) indicators =
       Some (map (fun c => if cell_eq c (Str w) then Num 1 else Num 0) home)) /\
    (forall w, In w (pd.categories away) ->
       pd.lookup (feature_name "away" w) indicators =
       Some (map (fun c => if cell_eq c (Str w) then Num 1 else Num 0) away)).
Proof.
  intros Hh Ha Th Ta.
  exists (pd.concat_columns df (pd.dummies_of "home" home ++ pd.dummies_of "away" away)),
         (pd.dummies_of "home" home ++ pd.dummies_of "away" away).
  split.
  { unfold encode_teams, pd.select. simpl mapM. rewrite Hh, Ha. cbn [bind].
    unfold pd.get_dummies. cbn [columns length combine forallb snd fst].
    rewrite Th, Ta. simpl. now rewrite app_nil_r. }
  split; [reflexivity|]. split; [reflexivity|].
  split; [now rewrite map_app, !names_dummies|].
  split; [apply categories_sorted|]. split; [apply categories_sorted|].
  split; [apply categories_In|]. split; [apply categories_In|].
  split.
  - intros w Hw. rewrite lookup_app. now rewrite (lookup_dummies "home" home w Hw).
  - intros w Hw. rewrite lookup_app, lookup_dummies_other_side.
    exact (lookup_dummies "away" away w Hw).
Qed.

Lemma encode_teams_is_one_hot_witness :
  exists home away,
    pd.getcol season_of_A "home_team" = Ok home /\
    pd.getcol season_of_A "away_team" = Ok away /\
    pd.text home = true /\
    pd.text away = true /\
    exists e, encode_teams season_of_A = Ok e /\ nrows e = 6.
Proof.
  do 2 eexists.
  split; [reflexivity|]. split; [reflexivity|].
  split; [reflexivity|]. split; [reflexivity|].
  destruct (encode_teams_is_one_hot season_of_A _ _ eq_refl eq_refl
              eq_refl eq_refl) as (e & ind & He & Hn & _).
  exists e. split; [exact He|]. rewrite Hn. reflexivity.
Defined.

(** ** What the map-back loops write, row by row (lines 77-105) *)

Lemma update_at idx v s r :
  nth_error (pd.update idx v s) r =
  if (r =? idx) && (idx <? length s) then Some v else nth_error s r.
Proof.
  revert idx r. induction s as [|c s IH]; intros idx r.
  - simpl. rewrite andb_false_r. now destruct idx.
  - destruct idx as [|idx], r as [|r]; simpl; auto.
Qed.

Lemma update_length_eq idx v s : length (pd.update idx v s) = length s.
Proof.
  revert idx. induction s as [|c s IH]; intros [|idx]; simpl; auto.
Qed.

Lemma well_shaped_assign n name s cols :
  length s = n ->
  forallb (fun c => length (snd c) =? n) cols = true ->
  forallb (fun c => length (snd c) =? n) (pd.assign name s cols) = true.
Proof.
  intros Hs. induction cols as [|[m s0] cols IH]; simpl; intros H.
  - rewrite Hs, Nat.eqb_refl. reflexivity.
  - apply andb_true_iff in H. destruct H as [H0 H].
    destruct (String.eqb m name); simpl.
    + rewrite Hs, Nat.eqb_refl, H. reflexivity.
    + rewrite H0, (IH H). reflexivity.
Qed.

Lemma well_shaped_loc_set df idx name v :
  well_shaped df = true -> well_shaped (pd.loc_set df idx name v) = true.
Proof.
  intros H. unfold well_shaped, pd.loc_set, pd.setcol. cbn [nrows columns].
  apply well_shaped_assign; [|exact H].
  rewrite update_length_eq. now apply well_shaped_col_or_nan.
Qed.

Lemma foldM_invariant {A B : Type} (P : A -> Prop)
    (f : A -> B -> result A) (l : list B) :
  (forall a x a', P a -> f a x = Ok a' -> P a') ->
  forall a a', P a -> foldM f l a = Ok a' -> P a'.
Proof.
  intros Hf. induction l as [|x l IH]; intros a a' Ha H; simpl in H.
  - inversion H. now subst.
  - inv_bind H. eauto.
Qed.

Lemma map_back_well_shaped side atg df idx df' :
  map_back side atg df idx = Ok df' ->
  well_shaped df = true -> well_shaped df' = true.
Proof.
  unfold map_back. intros H Hw. inv_bind H. inv_bind H.
  destruct (pd.empty _); [inversion H; subst; assumption|].
  revert H. revert Hw.
  apply (foldM_invariant (fun d => well_shaped d = true)).
  intros d name d' Hd Hstep. inv_bind Hstep. inv_bind Hstep.
  inversion Hstep. now apply well_shaped_loc_set.
Qed.

(** One pass of the body of a map-back loop: the cell of row [idx] takes
    the statistic of the first record found on the date of the row; every
    other cell stays. *)
Lemma map_back_cell side atg df idx d gdates :
  well_shaped df = true ->
  pd.loc df idx "date" = Ok d ->
  pd.getcol atg "date" = Ok gdates ->
  (forall name, In name rolling_names -> exists s, pd.getcol atg name = Ok s) ->
  exists df',
    map_back side atg df idx = Ok df' /\
    well_shaped df' = true /\
    forall name s, In name rolling_names -> pd.getcol atg name = Ok s ->
    forall r,
      cell_at df' (feature_name side name) r =
      match pd.positions (pd.mask_eq gdates d) with
      | [] => cell_at df (feature_name side name) r
      | first :: _ =>
          if r =? idx then Some (nth first s NaN)
          else cell_at df (feature_name side name) r
      end.
Proof.
  intros Hw Hloc Hdates Hall.
  destruct (map_back_spec side atg df idx d gdates Hloc Hdates Hall)
    as (df' & Hmb & Hspec).
  exists df'. split; [assumption|].
  split; [eapply map_back_well_shaped; eassumption|].
  intros name s Hin Hs r.
  destruct (pd.positions (pd.mask_eq gdates d)) as [|first rest].
  - now subst df'.
  - unfold cell_at.
    rewrite (col_or_nan_getcol _ _ _ (Hspec name s Hin Hs)).
    rewrite update_at, well_shaped_col_or_nan by assumption.
    assert (Hlt : idx < nrows df) by (eapply loc_bound; eassumption).
    apply Nat.ltb_lt in Hlt. rewrite Hlt, andb_true_r. reflexivity.
Qed.

(** A whole map-back loop over the rows [idxs]. *)
Lemma map_back_rows side atg gdates dates :
  ~ In "date" (map (feature_name side) rolling_names) ->
  pd.getcol atg "date" = Ok gdates ->
  (forall name, In name rolling_names -> exists s, pd.getcol atg name = Ok s) ->
  forall idxs df,
    well_shaped df = true ->
    pd.getcol df "date" = Ok dates ->
    (forall idx, In idx idxs -> idx < length dates) ->
    exists df',
      foldM (map_back side atg) idxs df = Ok df' /\
      well_shaped df' = true /\
      forall name s, In name rolling_names -> pd.getcol atg name = Ok s ->
      forall r,
        cell_at df' (feature_name side name) r =
        if existsb (Nat.eqb r) idxs
        then match pd.positions (pd.mask_eq gdates (nth r dates NaN)) with
             | [] => cell_at df (feature_name side name) r
             | first :: _ => Some (nth first s NaN)
             end
        else cell_at df (feature_name side name) r.
Proof.
  intros Hdate Hgd Hall.
  induction idxs as [|idx idxs IH]; intros df Hw Hd Hb.
  - exists df. repeat split; auto.
  - assert (Hlt : idx < length dates) by (apply Hb; now left).
    assert (Hloc : pd.loc df idx "date" = Ok (nth idx dates NaN)).
    { unfold pd.loc. rewrite Hd. cbn [bind].
      now rewrite (nth_error_nth' dates NaN Hlt). }
    destruct (map_back_cell side atg df idx _ gdates Hw Hloc Hgd Hall)
      as (df1 & H1 & Hw1 & Hcell1).
    destruct (IH df1 Hw1) as (df' & Hfold & Hw' & Hcell).
    { destruct (map_back_frame _ _ _ _ _ H1) as [_ Hf]. now rewrite Hf. }
    { intros; apply Hb; now right. }
    exists df'. split; [simpl; now rewrite H1|]. split; [assumption|].
    intros name s Hin Hs r.
    rewrite (Hcell name s Hin Hs r), (Hcell1 name s Hin Hs r).
    cbn [existsb].
    destruct (Nat.eqb_spec r idx) as [->|Hne]; cbn [orb].
    + destruct (existsb (Nat.eqb idx) idxs);
        destruct (pd.positions (pd.mask_eq gdates (nth idx dates NaN)));
        reflexivity.
    + destruct (existsb (Nat.eqb r) idxs);
        destruct (pd.positions (pd.mask_eq gdates (nth idx dates NaN)));
        reflexivity.
Qed.

(** ** Cells, masks and distinct values *)

Lemma Qeq_bool_sym p q : Qeq_bool p q = Qeq_bool q p.
Proof. unfold Qeq_bool. apply Z.eqb_sym. Qed.

Lemma cell_eq_sym a b : cell_eq a b = cell_eq b a.
Proof.
  destruct a, b; simpl; auto using Qeq_bool_sym, String.eqb_sym, Z.eqb_sym.
Qed.

Lemma cell_eq_trans a b c :
  cell_eq a b = true -> cell_eq c a = cell_eq c b.
Proof.
  destruct a as [|p|s|t], b as [|q|s'|t']; simpl; try discriminate.
  - intros H. apply Qeq_bool_iff in H. destruct c; simpl; auto.
    destruct (Qeq_bool q0 p) eqn:E1, (Qeq_bool q0 q) eqn:E2; auto.
    + apply Qeq_bool_iff in E1. apply Qeq_bool_neq in E2.
      exfalso. apply E2. now rewrite E1.
    + apply Qeq_bool_iff in E2. apply Qeq_bool_neq in E1.
      exfalso. apply E1. now rewrite E2.
  - intros H. apply String.eqb_eq in H. now subst.
  - intros H. apply Z.eqb_eq in H. now subst.
Qed.

Lemma mask_eq_same_team s a b :
  cell_eq a b = true -> pd.mask_eq s a = pd.mask_eq s b.
Proof.
  intros H. unfold pd.mask_eq. apply map_ext. intros c.
  now apply cell_eq_trans.
Qed.

Lemma existsb_positions_from (mask : list bool) : forall k r,
  existsb (Nat.eqb r) (pd.positions_from k mask) =
  (k <=? r) && nth (r - k) mask false.
Proof.
  induction mask as [|b mask IH]; intros k r; simpl.
  - destruct (r - k); now rewrite andb_false_r.
  - assert (Hrest : existsb (Nat.eqb r) (pd.positions_from (S k) mask) =
                    (S k <=? r) && nth (r - S k) mask false) by apply IH.
    destruct (Nat.eqb_spec r k) as [->|Hne].
    + rewrite Nat.sub_diag, Nat.leb_refl.
      destruct b; simpl; [now rewrite Nat.eqb_refl|].
      rewrite Hrest.
      destruct (Nat.leb_spec (S k) k); [lia | reflexivity].
    + assert (E : existsb (Nat.eqb r)
                    (if b then k :: pd.positions_from (S k) mask
                     else pd.positions_from (S k) mask)
                  = existsb (Nat.eqb r) (pd.positions_from (S k) mask)).
      { destruct b; simpl; [|reflexivity].
        destruct (Nat.eqb_spec r k); [contradiction | reflexivity]. }
      rewrite E, Hrest.
      destruct (Nat.leb_spec (S k) r) as [H1|H1].
      * destruct (Nat.leb_spec k r) as [H2|H2]; [|lia].
        replace (r - k) with (S (r - S k)) by lia. reflexivity.
      * destruct (Nat.leb_spec k r) as [H2|H2]; [lia | reflexivity].
Qed.

(** Row [r] is selected by [s == v] when its cell equals [v]. *)
Lemma existsb_positions s v r :
  existsb (Nat.eqb r) (pd.positions (pd.mask_eq s v)) =
  match nth_error s r with
  | Some c => cell_eq c v
  | None => false
  end.
Proof.
  unfold pd.positions. rewrite existsb_positions_from. simpl.
  rewrite Nat.sub_0_r. unfold pd.mask_eq.
  destruct (nth_error s r) as [c|] eqn:E.
  - rewrite (nth_error_nth _ _ false (map_nth_error _ _ _ E)). reflexivity.
  - apply nth_error_None in E. apply nth_overflow. now rewrite length_map.
Qed.

Lemma In_positions s v r :
  In r (pd.positions (pd.mask_eq s v)) <->
  exists c, nth_error s r = Some c /\ cell_eq c v = true.
Proof.
  pose proof (existsb_positions s v r) as H.
  split.
  - intros Hin.
    assert (E : existsb (Nat.eqb r) (pd.positions (pd.mask_eq s v)) = true).
    { apply existsb_exists. exists r. split; [assumption | apply Nat.eqb_refl]. }
    rewrite E in H. destruct (nth_error s r) as [c|]; [eauto | discriminate].
  - intros (c & Hc & Hv). rewrite Hc, Hv in H.
    apply existsb_exists in H. destruct H as (x & Hx & E).
    apply Nat.eqb_eq in E. now subst.
Qed.

Lemma cell_same_refl c : cell_same c c = true.
Proof.
  destruct c; simpl; auto using String.eqb_refl, Z.eqb_refl.
  apply Qeq_bool_iff. reflexivity.
Qed.

Lemma unique_acc_covers s : forall seen c,
  In c s ->
  existsb (cell_same c) seen = true \/
  existsb (cell_same c) (pd.unique_acc seen s) = true.
Proof.
  induction s as [|x s IH]; intros seen c Hin; [contradiction|]. simpl.
  destruct Hin as [->|Hin].
  - destruct (existsb (cell_same c) seen) eqn:E; [now left|].
    right. simpl. now rewrite cell_same_refl.
  - destruct (existsb (cell_same x) seen) eqn:E; [now apply IH|].
    destruct (IH (x :: seen) c Hin) as [H|H].
    + simpl in H. apply orb_true_iff in H. destruct H as [H|H]; [|now left].
      right. simpl. now rewrite H.
    + right. simpl. rewrite H. apply orb_true_r.
Qed.

Lemma unique_acc_In s : forall seen u, In u (pd.unique_acc seen s) -> In u s.
Proof.
  induction s as [|x s IH]; intros seen u H; simpl in *; [assumption|].
  destruct (existsb (cell_same x) seen).
  - right. eauto.
  - destruct H as [->|H]; [now left | right; eauto].
Qed.

(** A value of the column that is not missing is met again, up to [==],
    among the distinct values. *)
Lemma unique_meets s v :
  existsb (cell_eq v) s = true -> existsb (cell_eq v) (pd.unique s) = true.
Proof.
  intros H. apply existsb_exists in H. destruct H as (c & Hin & Hv).
  destruct (unique_acc_covers s [] c Hin) as [H|H]; [discriminate|].
  apply existsb_exists in H. destruct H as (u & Hu & Hcu).
  apply existsb_exists. exists u. split; [assumption|].
  assert (Hcu' : cell_eq c u = true).
  { destruct c; simpl in *; try discriminate; try assumption.
    destruct v; discriminate. }
  rewrite <- (cell_eq_trans c u v Hcu'). exact Hv.
Qed.

Lemma unique_only s v :
  existsb (cell_eq v) s = false -> existsb (cell_eq v) (pd.unique s) = false.
Proof.
  intros H. destruct (existsb (cell_eq v) (pd.unique s)) eqn:E; [|reflexivity].
  apply existsb_exists in E. destruct E as (u & Hu & Hv).
  apply unique_acc_In in Hu.
  assert (existsb (cell_eq v) s = true) by (apply existsb_exists; eauto).
  congruence.
Qed.

(** ** The statistics of a team do not depend on the feature columns *)

Lemma team_games_agree df df1 team :
  prepared df = true ->
  same_outside feature_names df df1 ->
  exists g g1,
    team_games df team = Ok g /\
    team_games df1 team = Ok g1 /\
    forall n, In n ("date" :: map snd rolling_columns) ->
              pd.getcol g1 n = pd.getcol g n.
Proof.
  intros Hp [_ Hf].
  assert (Hb : forall n, In n ("home_team" :: "away_team" :: "date" :: stat_columns) ->
                         pd.getcol df1 n = pd.getcol df n).
  { intros n Hn. apply Hf. now apply base_columns_not_features. }
  apply prepared_spec in Hp.
  destruct Hp as ((home & Hh & _) & (away & Ha & _) & (dates & Hd & _ & Hs) & Hst).
  assert (Hst0 : forall n, In n stat_columns ->
                   exists s, pd.getcol df n = Ok s /\ numeric s = true).
  { intros n Hn. destruct (Hst n Hn) as (s & ? & _ & ?). eauto. }
  assert (Hst1 : forall n, In n stat_columns ->
                   exists s, pd.getcol df1 n = Ok s /\ numeric s = true).
  { intros n Hn. destruct (Hst0 n Hn) as (s & Hs0 & Hn0). exists s.
    split; [|assumption]. rewrite Hb; [assumption|]. now do 3 right. }
  assert (Hh1 : pd.getcol df1 "home_team" = Ok home)
    by (rewrite Hb; [assumption | pick_in]).
  assert (Ha1 : pd.getcol df1 "away_team" = Ok away)
    by (rewrite Hb; [assumption | pick_in]).
  assert (Hd1 : pd.getcol df1 "date" = Ok dates)
    by (rewrite Hb; [assumption | pick_in]).
  destruct (team_games_spec df team home away dates Hh Ha Hd Hs Hst0)
    as (g & Hg & _ & Hdate & (r & negr & Hr & Hneg & Hres) & Hteam).
  destruct (team_games_spec df1 team home away dates Hh1 Ha1 Hd1 Hs Hst1)
    as (g1 & Hg1 & _ & Hdate1 & (r1 & negr1 & Hr1 & Hneg1 & Hres1) & Hteam1).
  exists g, g1. split; [assumption|]. split; [assumption|].
  assert (Hown : forall own h a, In (own, h) home_remap -> In (own, a) away_remap ->
            pd.getcol g1 own = pd.getcol g own).
  { intros own h a Hh' Ha'.
    destruct (Hteam own h a Hh' Ha') as (sh & sa & Hsh & Hsa & Hget).
    destruct (Hteam1 own h a Hh' Ha') as (sh1 & sa1 & Hsh1 & Hsa1 & Hget1).
    destruct (remap_sources_are_stats h (or_introl (in_map snd _ _ Hh'))) as [Hin _].
    destruct (remap_sources_are_stats a (or_intror (in_map snd _ _ Ha'))) as [Hin' _].
    rewrite Hb in Hsh1 by now do 3 right. rewrite Hb in Hsa1 by now do 3 right.
    assert (sh1 = sh) by congruence. assert (sa1 = sa) by congruence. subst.
    congruence. }
  intros n Hn. simpl in Hn.
  destruct Hn as [<-|[<-|Hn]]; [congruence | |].
  { rewrite Hb in Hr1 by pick_in.
    assert (r1 = r) by congruence. subst r1.
    assert (negr1 = negr) by congruence. subst negr1. congruence. }
  repeat (destruct Hn as [<-|Hn]; [eapply Hown; pick_in|]).
  contradiction.
Qed.

Lemma rolling_stats_agree g g1 atg :
  (forall n, In n ("date" :: map snd rolling_columns) ->
             pd.getcol g1 n = pd.getcol g n) ->
  rolling_stats g = Ok atg ->
  exists atg1,
    rolling_stats g1 = Ok atg1 /\
    forall n, In n ("date" :: rolling_names) ->
              pd.getcol atg1 n = pd.getcol atg n.
Proof.
  intros Hag Hatg.
  destruct (rolling_stats_spec _ _ Hatg) as (_ & Hframe & Hspec).
  assert (Htot : exists atg1, rolling_stats g1 = Ok atg1).
  { unfold rolling_stats. rewrite (foldM_ext _ _ _ _ add_rolling_derive).
    apply derive_fold_total; [reflexivity|].
    intros src Hsrc. apply in_map_iff in Hsrc.
    destruct Hsrc as ([dst src'] & <- & Hin).
    destruct (Hspec _ _ Hin) as (s & m & Hs & Hm & _).
    exists s, m. split; [|assumption].
    rewrite Hag; [assumption|]. right. exact (in_map snd _ _ Hin). }
  destruct Htot as [atg1 Hatg1]. exists atg1. split; [assumption|].
  destruct (rolling_stats_spec _ _ Hatg1) as (_ & Hframe1 & Hspec1).
  intros n [<-|Hn].
  - rewrite Hframe1, Hframe by (simpl; intuition discriminate).
    apply Hag. now left.
  - unfold rolling_names in Hn. apply in_map_iff in Hn.
    destruct Hn as ([dst src] & <- & Hin).
    destruct (Hspec _ _ Hin) as (s & m & Hs & Hm & Hget).
    destruct (Hspec1 _ _ Hin) as (s1 & m1 & Hs1 & Hm1 & Hget1).
    rewrite Hag in Hs1 by (right; exact (in_map snd _ _ Hin)).
    simpl. congruence.
Qed.

Lemma team_stats_of_prepared df team :
  prepared df = true ->
  exists atg gdates,
    team_stats_of df team = Ok atg /\
    pd.getcol atg "date" = Ok gdates /\
    forall name, In name rolling_names -> exists s, pd.getcol atg name = Ok s.
Proof.
  intros Hp.
  destruct (team_games_ready df team Hp) as (games & Hg & (gd & Hgd & _) & Hnum).
  destruct (rolling_stats_total games) as [atg Hatg].
  { intros src Hsrc. destruct (Hnum src Hsrc) as (s & ? & ? & _). eauto. }
  destruct (rolling_stats_spec _ _ Hatg) as (_ & Hframe & Hspec).
  exists atg, gd. split; [unfold team_stats_of; now rewrite Hg|]. split.
  - rewrite Hframe; [assumption|]. simpl. intuition discriminate.
  - intros name Hin. unfold rolling_names in Hin. apply in_map_iff in Hin.
    destruct Hin as ([n own] & <- & Hin).
    destruct (Hspec _ _ Hin) as (? & m & _ & _ & ?). eauto.
Qed.

Lemma looked_up_agree df df1 team d name :
  prepared df = true ->
  same_outside feature_names df df1 ->
  In name rolling_names ->
  looked_up df1 team d name = looked_up df team d name.
Proof.
  intros Hp Hso Hin.
  destruct (team_games_agree df df1 team Hp Hso) as (g & g1 & Hg & Hg1 & Hag).
  destruct (team_stats_of_prepared df team Hp) as (atg & gd & Hatg & _ & _).
  unfold team_stats_of in Hatg. rewrite Hg in Hatg. cbn [bind] in Hatg.
  destruct (rolling_stats_agree g g1 atg Hag Hatg) as (atg1 & Hatg1 & Hcols).
  unfold looked_up, team_stats_of. rewrite Hg, Hg1. cbn [bind].
  rewrite Hatg, Hatg1.
  rewrite (Hcols "date") by now left.
  rewrite (Hcols name) by now right.
  reflexivity.
Qed.

Lemma looked_up_same_team df a b d name :
  cell_eq a b = true -> looked_up df a d name = looked_up df b d name.
Proof.
  intros H. unfold looked_up, team_stats_of, team_games.
  destruct (pd.getcol df "home_team") as [home|]; [|reflexivity]. cbn [bind].
  destruct (pd.getcol df "away_team") as [away|]; [|reflexivity]. cbn [bind].
  now rewrite (mask_eq_same_team home a b H), (mask_eq_same_team away a b H).
Qed.

(** ** One turn of the loop over teams, row by row *)

Lemma looked_up_unfold df team atg gdates s d name :
  team_stats_of df team = Ok atg ->
  pd.getcol atg "date" = Ok gdates ->
  pd.getcol atg name = Ok s ->
  forall old,
    written_or (looked_up df team d name) old =
    match pd.positions (pd.mask_eq gdates d) with
    | [] => old
    | first :: _ => Some (nth first s NaN)
    end.
Proof.
  intros H1 H2 H3 old. unfold looked_up. rewrite H1, H2, H3.
  now destruct (pd.positions (pd.mask_eq gdates d)).
Qed.

Lemma sides_write_apart name name' :
  feature_name "home" name <> feature_name "away" name'.
Proof. unfold feature_name. simpl. discriminate. Qed.

Lemma team_features_rows df team home away dates :
  prepared df = true ->
  well_shaped df = true ->
  pd.getcol df "home_team" = Ok home ->
  pd.getcol df "away_team" = Ok away ->
  pd.getcol df "date" = Ok dates ->
  exists df',
    team_features df team = Ok df' /\
    well_shaped df' = true /\
    forall name r, In name rolling_names ->
      cell_at df' (feature_name "home" name) r =
        (if selected home team r
         then written_or (looked_up df team (nth r dates NaN) name)
                         (cell_at df (feature_name "home" name) r)
         else cell_at df (feature_name "home" name) r) /\
      cell_at df' (feature_name "away" name) r =
        (if selected away team r
         then written_or (looked_up df team (nth r dates NaN) name)
                         (cell_at df (feature_name "away" name) r)
         else cell_at df (feature_name "away" name) r).
Proof.
  intros Hp Hw Hh Ha Hd.
  destruct (team_stats_of_prepared df team Hp) as (atg & gd & Hatg & Hgd & Hall).
  pose proof Hatg as Hatg'. unfold team_stats_of in Hatg'. inv_bind Hatg'.
  rename x into games, Hx into Hg.
  pose proof (prepared_spec df Hp) as Hps.
  destruct Hps as ((home' & Hh' & Lh) & (away' & Ha' & La)
                   & (dates' & Hd' & Ld & _) & _).
  assert (home' = home) by congruence. assert (away' = away) by congruence.
  assert (dates' = dates) by congruence. subst home' away' dates'.
  destruct (map_back_rows "home" atg gd dates) with
    (idxs := pd.positions (pd.mask_eq home team)) (df := df)
    as (df1 & H1 & Hw1 & Hc1); auto.
  { simpl. intuition discriminate. }
  { intros idx Hin. apply positions_bound in Hin. lia. }
  assert (Hf1 : same_outside (map (feature_name "home") rolling_names) df df1).
  { revert H1. apply foldM_same_outside. intros ? ? ? _. apply map_back_frame. }
  assert (Hd1 : pd.getcol df1 "date" = Ok dates).
  { destruct Hf1 as [_ Hf1]. rewrite Hf1; [assumption|].
    simpl. intuition discriminate. }
  assert (Ha1 : pd.getcol df1 "away_team" = Ok away).
  { destruct Hf1 as [_ Hf1]. rewrite Hf1; [assumption|].
    simpl. intuition discriminate. }
  destruct (map_back_rows "away" atg gd dates) with
    (idxs := pd.positions (pd.mask_eq away team)) (df := df1)
    as (df2 & H2 & Hw2 & Hc2); auto.
  { simpl. intuition discriminate. }
  { intros idx Hin. apply positions_bound in Hin. lia. }
  assert (Hf2 : same_outside (map (feature_name "away") rolling_names) df1 df2).
  { revert H2. apply foldM_same_outside. intros ? ? ? _. apply map_back_frame. }
  exists df2. split.
  { unfold team_features. rewrite Hg. cbn [bind]. rewrite Hatg'. cbn [bind].
    rewrite Hh. cbn [bind]. rewrite H1. cbn [bind]. rewrite Ha1. cbn [bind].
    exact H2. }
  split; [assumption|].
  intros name r Hin. destruct (Hall name Hin) as [s Hs]. split.
  - unfold cell_at at 1.
    rewrite (col_or_nan_same_outside _ _ _ _ Hf2).
    2:{ intros Hc. apply in_map_iff in Hc. destruct Hc as (n' & E & _).
        symmetry in E. exact (sides_write_apart _ _ E). }
    fold (cell_at df1 (feature_name "home" name) r).
    rewrite (Hc1 name s Hin Hs r), existsb_positions.
    fold (selected home team r).
    now rewrite (looked_up_unfold df team atg gd s _ name Hatg Hgd Hs).
  - rewrite (Hc2 name s Hin Hs r), existsb_positions.
    fold (selected away team r).
    rewrite (looked_up_unfold df team atg gd s _ name Hatg Hgd Hs).
    unfold cell_at.
    rewrite (col_or_nan_same_outside _ _ _ _ Hf1).
    2:{ intros Hc. apply in_map_iff in Hc. destruct Hc as (n' & E & _).
        exact (sides_write_apart _ _ E). }
    reflexivity.
Qed.

(** ** The whole loop over teams, row by row *)

Lemma written_or_twice v old : written_or v (written_or v old) = written_or v old.
Proof. now destruct v. Qed.

Lemma selected_cell s v r :
  selected s v r = true ->
  exists c, nth_error s r = Some c /\ nth r s NaN = c /\ cell_eq c v = true.
Proof.
  unfold selected. destruct (nth_error s r) as [c|] eqn:E; [|discriminate].
  intros H. exists c. repeat split; auto. now apply nth_error_nth.
Qed.

Section Loop.

Variables (df : DataFrame) (home away dates : Series).

Hypothesis Hp : prepared df = true.
Hypothesis Hh : pd.getcol df "home_team" = Ok home.
Hypothesis Ha : pd.getcol df "away_team" = Ok away.
Hypothesis Hd : pd.getcol df "date" = Ok dates.

Lemma features_rows_fold : forall (teams : list cell) (df1 : DataFrame),
  same_outside feature_names df df1 ->
  well_shaped df1 = true ->
  exists out,
    foldM team_features teams df1 = Ok out /\
    forall name r, In name rolling_names ->
      cell_at out (feature_name "home" name) r =
        (if existsb (fun t => selected home t r) teams
         then written_or (looked_up df (nth r home NaN) (nth r dates NaN) name)
                         (cell_at df1 (feature_name "home" name) r)
         else cell_at df1 (feature_name "home" name) r) /\
      cell_at out (feature_name "away" name) r =
        (if existsb (fun t => selected away t r) teams
         then written_or (looked_up df (nth r away NaN) (nth r dates NaN) name)
                         (cell_at df1 (feature_name "away" name) r)
         else cell_at df1 (feature_name "away" name) r).
Proof.
  induction teams as [|t0 teams IH]; intros df1 Hso Hw1.
  - exists df1. split; [reflexivity|]. intros; split; reflexivity.
  - assert (Hp1 : prepared df1 = true)
      by (rewrite (prepared_same_outside df df1 Hso); exact Hp).
    assert (Hb : forall n, In n ("home_team" :: "away_team" :: "date" :: stat_columns) ->
                           pd.getcol df1 n = pd.getcol df n).
    { intros n Hn. destruct Hso as [_ Hf]. apply Hf.
      now apply base_columns_not_features. }
    assert (Hh1 : pd.getcol df1 "home_team" = Ok home)
      by (rewrite Hb; [assumption | pick_in]).
    assert (Ha1 : pd.getcol df1 "away_team" = Ok away)
      by (rewrite Hb; [assumption | pick_in]).
    assert (Hd1 : pd.getcol df1 "date" = Ok dates)
      by (rewrite Hb; [assumption | pick_in]).
    destruct (team_features_rows df1 t0 home away dates Hp1 Hw1 Hh1 Ha1 Hd1)
      as (df2 & H2 & Hw2 & Hc2).
    destruct (IH df2) as (out & Hout & Hc); [|assumption|].
    { eapply same_outside_trans; [exact Hso|].
      now apply team_features_frame in H2. }
    exists out. split; [simpl; now rewrite H2|].
    intros name r Hin.
    destruct (Hc name r Hin) as [Hch Hca].
    destruct (Hc2 name r Hin) as [Hch2 Hca2].
    assert (Hside : forall (col : Series) (old : option cell),
              (if selected col t0 r
               then written_or (looked_up df1 t0 (nth r dates NaN) name) old
               else old) =
              (if selected col t0 r
               then written_or (looked_up df (nth r col NaN) (nth r dates NaN) name) old
               else old)).
    { intros col old. destruct (selected col t0 r) eqn:E; [|reflexivity].
      apply selected_cell in E. destruct E as (c & _ & -> & Hc0).
      rewrite (looked_up_agree df df1 t0 _ name Hp Hso Hin).
      rewrite (looked_up_same_team df t0 c); [reflexivity|].
      now rewrite cell_eq_sym. }
    split.
    + rewrite Hch, Hch2, Hside. cbn [existsb].
      destruct (selected home t0 r), (existsb (fun t => selected home t r) teams);
        cbn [orb]; try reflexivity. apply written_or_twice.
    + rewrite Hca, Hca2, Hside. cbn [existsb].
      destruct (selected away t0 r), (existsb (fun t => selected away t r) teams);
        cbn [orb]; try reflexivity. apply written_or_twice.
Qed.

(** Every cell of the sixteen feature columns after the loop of line 39:
    the cell of a row is written when the team of that side is one of the
    home teams of the table, with the statistic of that team looked up by
    the date of the row; otherwise it is the cell of the input. *)
Lemma create_rolling_features_rows :
  well_shaped df = true ->
  exists out,
    create_rolling_features df = Ok out /\
    forall name r, In name rolling_names ->
      cell_at out (feature_name "home" name) r =
        (if existsb (fun t => selected home t r) (pd.unique home)
         then written_or (looked_up df (nth r home NaN) (nth r dates NaN) name)
                         (cell_at df (feature_name "home" name) r)
         else cell_at df (feature_name "home" name) r) /\
      cell_at out (feature_name "away" name) r =
        (if existsb (fun t => selected away t r) (pd.unique home)
         then written_or (looked_up df (nth r away NaN) (nth r dates NaN) name)
                         (cell_at df (feature_name "away" name) r)
         else cell_at df (feature_name "away" name) r).
Proof.
  intros Hw. unfold create_rolling_features. rewrite Hh. cbn [bind].
  apply features_rows_fold; [apply same_outside_refl | assumption].
Qed.

End Loop.




Lemma existsb_agree {A : Type} (f g : A -> bool) (l : list A) :
  (forall x, f x = g x) -> existsb f l = existsb g l.
Proof.
  intros H. induction l as [|a l IH]; simpl; [reflexivity|].
  now rewrite H, IH.
Qed.

(** The rows that are never written.  On a prepared table, the [away_*]
    cells of a row whose away team plays at home nowhere in the table are
    the cells of the input (missing, when the input has no such column):
    the loop of line 39 visits the home teams only.  The cells of a row
    without a date are left alone on both sides. *)
Theorem unvisited_rows_keep_their_cells
    (df : DataFrame) (home away dates : Series) (r : nat) :
  prepared df = true ->
  well_shaped df = true ->
  pd.getcol df "home_team" = Ok home ->
  pd.getcol df "away_team" = Ok away ->
  pd.getcol df "date" = Ok dates ->
  exists out,
    create_rolling_features df = Ok out /\
    (existsb (cell_eq (nth r away NaN)) home = false ->
     forall name, In name rolling_names ->
       cell_at out (feature_name "away" name) r =
       cell_at df (feature_name "away" name) r) /\
    (nth r dates NaN = NaN ->
     forall name, In name rolling_names ->
       cell_at out (feature_name "home" name) r =
       cell_at df (feature_name "home" name) r /\
       cell_at out (feature_name "away" name) r =
       cell_at df (feature_name "away" name) r).
Proof.
  intros Hp Hw Hh Ha Hd.
  destruct (create_rolling_features_rows df home away dates Hp Hh Ha Hd Hw)
    as (out & Hout & Hcells).
  exists out. split; [assumption|]. split.
  - intros Hnot name Hin. destruct (Hcells name r Hin) as [_ Hc]. rewrite Hc.
    assert (E : existsb (fun t => selected away t r) (pd.unique home) = false).
    { unfold selected. destruct (nth_error away r) as [c|] eqn:Er.
      - rewrite (nth_error_nth _ _ NaN Er) in Hnot. now apply unique_only.
      - clear. induction (pd.unique home); simpl; auto. }
    now rewrite E.
  - intros Hnat name Hin.
    assert (Hnone : forall team, looked_up df team NaN name = None).
    { intros team. unfold looked_up.
      destruct (team_stats_of df team) as [atg|]; [|reflexivity].
      destruct (pd.getcol atg "date") as [gd|]; [|reflexivity].
      destruct (pd.getcol atg name) as [s|]; [|reflexivity].
      assert (E : pd.positions (pd.mask_eq gd NaN) = []).
      { destruct (pd.positions (pd.mask_eq gd NaN)) as [|k ks] eqn:E;
          [reflexivity|].
        assert (Hk : In k (pd.positions (pd.mask_eq gd NaN)))
          by (rewrite E; now left).
        apply In_positions in Hk. destruct Hk as (c & _ & Hc).
        destruct c; discriminate. }
      now rewrite E. }
    destruct (Hcells name r Hin) as [Hc1 Hc2].
    rewrite Hc1, Hc2, Hnat, !Hnone. cbn [written_or].
    split;
      match goal with |- (if ?b then _ else _) = _ => now destruct b end.
Qed.

Lemma unvisited_rows_keep_their_cells_witness :
  prepared away_only = true /\
  well_shaped away_only = true /\
  pd.getcol away_only "home_team" = Ok [Str "A"; Str "C"] /\
  pd.getcol away_only "away_team" = Ok [Str "B"; Str "B"] /\
  pd.getcol away_only "date" = Ok [Ts 1; Ts 2] /\
  exists out,
    create_rolling_features away_only = Ok out /\
    cell_at out "away_form_last_5" 1 = Some NaN.
Proof.
  split; [reflexivity|]. split; [reflexivity|]. split; [reflexivity|].
  split; [reflexivity|]. split; [reflexivity|].
  destruct (unvisited_rows_keep_their_cells away_only _ _ _ 1
              eq_refl eq_refl eq_refl eq_refl eq_refl)
    as (out & Hout & Haway & _).
  exists out. split; [exact Hout|].
  assert (Hin : In "form_last_5" rolling_names) by pick_in.
  exact (Haway eq_refl "form_last_5" Hin).
Defined.

(** ** [process_season_data]: what the pipeline hands on *)

Lemma load_and_prepare_data_Ok to_datetime raw df :
  load_and_prepare_data to_datetime raw = Ok df ->
  exists dates parsed labels mapped,
    pd.getcol raw "date" = Ok dates /\
    to_datetime dates = Ok parsed /\
    pd.getcol raw "result" = Ok labels /\
    mapM map_result labels = Ok mapped /\
    df = pd.setcol (pd.setcol raw "date" parsed) "result" mapped.
Proof.
  unfold load_and_prepare_data. intros H.
  inv_bind H. rename x into dates, Hx into Hd.
  inv_bind H. rename x into parsed, Hx into Hp.
  inv_bind H. rename x into labels, Hx into Hl.
  inv_bind H. rename x into mapped, Hx into Hm.
  inversion H. rewrite getcol_setcol_other in Hl by discriminate.
  eauto 10.
Qed.

Lemma touched_not n :
  In n ["date"; "home_team"; "away_team"; "result"] -> ~ In n touched_columns.
Proof.
  assert (H : disjoint ["date"; "home_team"; "away_team"; "result"]
                       touched_columns = true) by reflexivity.
  intros Hn Hin. exact (disjoint_spec _ _ H n n Hn Hin eq_refl).
Qed.

(** When [process_season_data] returns, the table has the rows of the
    season file, its team columns unchanged, its dates parsed and its
    outcome labels W, D, L replaced by 1, 0, -1; it holds the five
    difference columns and no [season] column. *)
Theorem process_season_data_output
    (to_datetime : Series -> result Series) (raw out : DataFrame) :
  process_season_data to_datetime raw = Ok out ->
  nrows out = nrows raw /\
  (forall n s, In n ["home_team"; "away_team"] ->
               pd.getcol raw n = Ok s -> pd.getcol out n = Ok s) /\
  (exists dates, pd.getcol raw "date" = Ok dates /\
                 to_datetime dates = pd.getcol out "date") /\
  (exists labels mapped,
      pd.getcol raw "result" = Ok labels /\
      pd.getcol out "result" = Ok mapped /\
      length mapped = length labels /\
      forall i x, nth_error labels i = Some x ->
        (x = Str "W" /\ nth_error mapped i = Some (Num 1)) \/
        (x = Str "D" /\ nth_error mapped i = Some (Num 0)) \/
        (x = Str "L" /\ nth_error mapped i = Some (Num (-1)))) /\
  (forall n, In n (map fst comparison_columns) ->
             exists s, pd.getcol out n = Ok s) /\
  pd.getcol out "season" = Raise KeyError.
Proof.
  rewrite process_season_data_stages. intros H. inv_bind H.
  rename x into df, Hx into Hload.
  apply load_and_prepare_data_Ok in Hload.
  destruct Hload as (dates & parsed & labels & mapped & Hd & Hp & Hl & Hm & ->).
  set (df := pd.setcol (pd.setcol raw "date" parsed) "result" mapped) in *.
  pose proof H as Heng. unfold engineer in Heng.
  inv_bind Heng. rename x into d1, Hx into H1.
  inv_bind Heng. rename x into d2, Hx into H2.
  inv_bind Heng. rename x into d3, Hx into H3.
  assert (Hk : keeps_outside touched_columns df out).
  { eapply keeps_outside_trans; [apply rolling_stage_keeps; eassumption|].
    eapply keeps_outside_trans; [apply encoding_stage_keeps; eassumption|].
    eapply keeps_outside_trans; [apply comparison_stage_keeps; eassumption|].
    now apply cleaning_stage_keeps. }
  destruct Hk as [Hn Hk].
  split; [exact Hn|]. split.
  { intros n s Hin Hs. apply Hk.
    - apply touched_not. simpl in *. tauto.
    - unfold df. rewrite !getcol_setcol_other; [assumption| |];
        simpl in Hin; intuition (subst; discriminate). }
  split.
  { exists dates. split; [assumption|]. rewrite Hp. symmetry.
    apply Hk; [apply touched_not; pick_in|].
    unfold df. rewrite getcol_setcol_other by discriminate.
    apply getcol_setcol_same. }
  split.
  { exists labels, mapped. split; [assumption|]. split.
    - apply Hk; [apply touched_not; pick_in|]. apply getcol_setcol_same.
    - split; [eapply mapM_length; eassumption|].
      intros i x Hi.
      destruct (mapM_nth_error _ _ _ Hm i x Hi) as (c & Hc & Hnth).
      apply map_result_Ok in Hc. rewrite Hnth.
      destruct Hc as [[-> ->]|[[-> ->]|[-> ->]]]; auto. }
  rewrite (clean_data_spec d3 None) in Heng. inversion Heng as [Hout].
  assert (Hget : forall n, ~ In n default_columns_to_drop ->
            pd.getcol (mkDF (nrows d3)
              (filter (fun c => negb (mem (fst c) default_columns_to_drop))
                      (columns d3))) n = pd.getcol d3 n).
  { intros n Hnot. unfold pd.getcol. cbn [columns].
    rewrite (lookup_filter (fun m => negb (mem m default_columns_to_drop))).
    apply mem_not_In in Hnot. now rewrite Hnot. }
  split.
  - intros n Hin. rewrite Hget.
    + apply differences_spec in H3; [|reflexivity]. destruct H3 as [_ Hspec].
      apply in_map_iff in Hin. destruct Hin as ([new [a b]] & <- & Hin).
      destruct (Hspec new a b Hin) as (_ & _ & sd & _ & _ & _ & Hsd). eauto.
    + assert (Hdj : disjoint (map fst comparison_columns)
                             default_columns_to_drop = true) by reflexivity.
      intros Hdrop. exact (disjoint_spec _ _ Hdj n n Hin Hdrop eq_refl).
  - unfold pd.getcol. cbn [columns].
    rewrite (lookup_filter (fun m => negb (mem m default_columns_to_drop))).
    reflexivity.
Qed.

Lemma process_season_data_output_witness :
  process_season_data iso_to_datetime raw_season_of_A = Ok processed_season_of_A /\
  nrows processed_season_of_A = nrows raw_season_of_A /\
  pd.getcol processed_season_of_A "season" = Raise KeyError.
Proof.
  assert (H : process_season_data iso_to_datetime raw_season_of_A
              = Ok processed_season_of_A) by (vm_compute; reflexivity).
  split; [exact H|].
  destruct (process_season_data_output iso_to_datetime raw_season_of_A
              processed_season_of_A H) as (Hn & _ & _ & _ & _ & Hs).
  split; assumption.
Defined.

(** ** Preprocessing: the columns it needs (line 22) *)

Lemma mapM_first_error {A B : Type} (f : A -> result B) (E : exn) (l : list A) :
  (forall x e, f x = Raise e -> e = E) ->
  (exists x, In x l /\ raises (f x)) ->
  mapM f l = Raise E.
Proof.
  intros Honly (x & Hin & Hx).
  induction l as [|a l IH]; [contradiction|]. simpl.
  destruct (f a) as [y|e] eqn:Ea; cbn [bind].
  - destruct Hin as [->|Hin].
    + destruct Hx as [e He]. congruence.
    + now rewrite (IH Hin).
  - now rewrite (Honly _ _ Ea).
Qed.

Lemma select_missing df labels missing :
  In missing labels ->
  pd.has_column df missing = false ->
  pd.select df labels = Raise KeyError.
Proof.
  intros Hin Hmiss. unfold pd.select.
  rewrite (mapM_first_error _ KeyError); [reflexivity | |].
  - intros n e H. unfold pd.getcol in H.
    destruct (pd.lookup n (columns df)); simpl in H; congruence.
  - exists missing. split; [assumption|].
    exists KeyError. now rewrite (getcol_absent _ _ Hmiss).
Qed.

(** [preprocess_match_data] raises [KeyError], before anything else, when
    the raw table lacks one of the eighteen columns of [column_order]. *)
Theorem preprocessing_needs_every_column
    (to_csv : string -> Indexed -> result unit)
    (raw : DataFrame) (output_dir missing : string) :
  In missing column_order ->
  pd.has_column raw missing = false ->
  preprocess_match_data to_csv raw output_dir = Raise KeyError.
Proof.
  intros Hin Hmiss. unfold preprocess_match_data, fixtures_table.
  now rewrite (select_missing raw column_order missing Hin Hmiss).
Qed.

Lemma preprocessing_needs_every_column_witness :
  In "venue" column_order /\
  pd.has_column season_of_A "venue" = false /\
  preprocess_match_data every_write season_of_A "data/02_preprocessed/"
    = Raise KeyError.
Proof.
  assert (Hin : In "venue" column_order) by pick_in.
  split; [exact Hin|]. split; [reflexivity|].
  exact (preprocessing_needs_every_column every_write season_of_A
           "data/02_preprocessed/" "venue" Hin eq_refl).
Defined.

(** ** Preprocessing: the standardisation of team names (lines 24-30) *)

Lemma team_name_Ok d a b :
  team_name d a = Ok b ->
  exists k, nth_error (map fst d) k = Some a /\ nth_error (map snd d) k = Some b.
Proof.
  induction d as [|[k0 v0] d IH]; simpl; [discriminate|].
  destruct (String.eqb k0 a) eqn:E.
  - apply String.eqb_eq in E. subst. intros H. inversion H. now exists 0.
  - intros H. destruct (IH H) as (k & H1 & H2). now exists (S k).
Qed.

Lemma team_name_absent d a :
  ~ In a (map fst d) -> team_name d a = Raise KeyError.
Proof.
  induction d as [|[k0 v0] d IH]; simpl; [reflexivity|].
  intros H. destruct (String.eqb k0 a) eqn:E.
  - apply String.eqb_eq in E. tauto.
  - apply IH. tauto.
Qed.

Lemma team_name_present d a :
  In a (map fst d) -> exists b, team_name d a = Ok b.
Proof.
  induction d as [|[k0 v0] d IH]; simpl; [tauto|].
  destruct (String.eqb k0 a) eqn:E; [eauto|].
  apply String.eqb_neq in E. intros [H|H]; [contradiction | auto].
Qed.

Lemma team_name_same l a : In a l -> team_name (combine l l) a = Ok a.
Proof.
  induction l as [|x l IH]; simpl; [tauto|].
  destruct (String.eqb x a) eqn:E.
  - apply String.eqb_eq in E. now subst.
  - apply String.eqb_neq in E. intros [H|H]; [contradiction | auto].
Qed.

Lemma map_fst_combine_firstn {A B : Type} (l1 : list A) : forall (l2 : list B),
  map fst (combine l1 l2) = firstn (length l2) l1.
Proof.
  induction l1 as [|a l1 IH]; intros [|b l2]; simpl; auto.
  now rewrite IH.
Qed.

Lemma map_snd_combine_firstn {A B : Type} (l1 : list A) : forall (l2 : list B),
  map snd (combine l1 l2) = firstn (length l1) l2.
Proof.
  induction l1 as [|a l1 IH]; intros [|b l2]; simpl; auto.
  now rewrite IH.
Qed.

Lemma sorted_names_Ok s l :
  sorted_names s = Ok l -> forallb pd.is_str s = true /\ l = pd.categories s.
Proof.
  unfold sorted_names. destruct (forallb pd.is_str s); [|discriminate].
  intros H. inversion H. auto.
Qed.

Lemma assign_same name s cols :
  pd.lookup name cols = Some s -> pd.assign name s cols = cols.
Proof.
  induction cols as [|[n s0] cols IH]; simpl; [discriminate|].
  destruct (String.eqb n name) eqn:E.
  - intros H. inversion H. reflexivity.
  - intros H. now rewrite IH.
Qed.

Lemma is_str_In s c : forallb pd.is_str s = true -> In c s -> exists a, c = Str a.
Proof.
  intros H Hin. rewrite forallb_forall in H. specialize (H c Hin).
  destruct c; try discriminate. eauto.
Qed.

Lemma nth_error_firstn_Some {A : Type} (l : list A) : forall n k x,
  nth_error (firstn n l) k = Some x -> k < n /\ nth_error l k = Some x.
Proof.
  induction l as [|a l IH]; intros [|n] [|k] x; simpl; try discriminate.
  - intros H. split; [lia | assumption].
  - intros H. destruct (IH _ _ _ H). split; [lia | assumption].
Qed.

Lemma NoDup_nth_error_eq {A : Type} (l : list A) i j x :
  NoDup l -> nth_error l i = Some x -> nth_error l j = Some x -> i = j.
Proof.
  intros Hnd Hi Hj. rewrite NoDup_nth_error in Hnd. apply Hnd.
  - apply nth_error_Some. congruence.
  - congruence.
Qed.

Lemma standardize_teams_unfold df t o :
  pd.getcol df "team" = Ok t ->
  pd.getcol df "opponent" = Ok o ->
  forallb pd.is_str t = true ->
  forallb pd.is_str o = true ->
  standardize_teams df =
  (t' <- mapM (standardized (combine (pd.categories t) (pd.categories o))) t ;;
   Ok (pd.setcol df "team" t')).
Proof.
  intros Ht Ho Htt Hot. unfold standardize_teams, sorted_names.
  rewrite Ht. cbn [bind]. rewrite Htt. cbn [bind]. rewrite Ho. cbn [bind].
  rewrite Hot. reflexivity.
Qed.

(** Lines 24-30 pair the two sorted lists of names by rank: a team name
    is replaced by the opponent name of the same rank, whatever the two
    spell. *)
Theorem team_names_are_paired_by_rank (df : DataFrame) (t o : Series) :
  pd.getcol df "team" = Ok t ->
  pd.getcol df "opponent" = Ok o ->
  forallb pd.is_str t = true ->
  forallb pd.is_str o = true ->
  length (pd.categories t) <= length (pd.categories o) ->
  exists t',
    standardize_teams df = Ok (pd.setcol df "team" t') /\
    length t' = length t /\
    forall i a, nth_error t i = Some (Str a) ->
      exists k b,
        nth_error (pd.categories t) k = Some a /\
        (forall k', nth_error (pd.categories t) k' = Some a -> k' = k) /\
        nth_error (pd.categories o) k = Some b /\
        nth_error t' i = Some (Str b).
Proof.
  intros Ht Ho Htt Hot Hlen.
  rewrite (standardize_teams_unfold df t o Ht Ho Htt Hot).
  set (d := combine (pd.categories t) (pd.categories o)).
  assert (Hkeys : map fst d = pd.categories t).
  { unfold d. rewrite map_fst_combine_firstn. apply firstn_all2. exact Hlen. }
  destruct (mapM_total (standardized d) t) as [t' Hm].
  { intros c Hin. destruct (is_str_In t c Htt Hin) as [a ->].
    destruct (team_name_present d a) as [b Hb].
    - rewrite Hkeys. now apply categories_In.
    - exists (Str b). simpl. now rewrite Hb. }
  exists t'. rewrite Hm. cbn [bind]. split; [reflexivity|].
  split; [exact (mapM_length _ _ _ Hm)|].
  intros i a Hi.
  destruct (mapM_nth_error _ _ _ Hm i (Str a) Hi) as (y & Hy & Hyi).
  simpl in Hy. destruct (team_name d a) as [b|] eqn:Hb; [|discriminate].
  cbn [bind] in Hy. inversion Hy; subst y.
  destruct (team_name_Ok d a b Hb) as (k & Hk1 & Hk2).
  rewrite Hkeys in Hk1. unfold d in Hk2. rewrite map_snd_combine_firstn in Hk2.
  apply nth_error_firstn_Some in Hk2. destruct Hk2 as [_ Hk2].
  exists k, b. split; [exact Hk1|]. split; [|split; assumption].
  intros k' Hk'.
  exact (NoDup_nth_error_eq _ _ _ _ (categories_NoDup t) Hk' Hk1).
Qed.

Lemma team_names_are_paired_by_rank_witness :
  exists t',
    standardize_teams raw_matches = Ok (pd.setcol raw_matches "team" t') /\
    nth_error t' 0 = Some (Str "Arsenal").
Proof.
  destruct (team_names_are_paired_by_rank raw_matches
              [Str "Arsenal"; Str "Fulham"; Str "Arsenal"; Str "Fulham";
               Str "Arsenal"; Str "Fulham"]
              [Str "Fulham"; Str "Arsenal"; Str "Fulham"; Str "Arsenal";
               Str "Fulham"; Str "Arsenal"]
              eq_refl eq_refl eq_refl eq_refl)
    as (t' & Hout & _ & Hrank).
  - vm_compute. lia.
  - exists t'. split; [exact Hout|].
    destruct (Hrank 0 "Arsenal" eq_refl) as (k & b & Hk & _ & Hb & Hcell).
    destruct k as [|[|k]]; vm_compute in Hk; try discriminate;
      [|destruct k; discriminate].
    vm_compute in Hb. inversion Hb; subst b. exact Hcell.
Defined.

Lemma standardized_same ks (l : Series) :
  (forall c, In c l -> exists a, c = Str a /\ In a ks) ->
  mapM (standardized (combine ks ks)) l = Ok l.
Proof.
  induction l as [|c l IH]; intros Hall; [reflexivity|]. simpl.
  destruct (Hall c (or_introl eq_refl)) as (a & -> & Ha). simpl.
  rewrite (team_name_same ks a Ha). cbn [bind].
  rewrite IH; [reflexivity|]. intros c Hc. apply Hall. now right.
Qed.

(** When the team column and the opponent column hold the same set of
    names, the standardisation of lines 24-30 leaves the table as it
    is. *)
Theorem same_names_are_left_alone (df : DataFrame) (t o : Series) :
  pd.getcol df "team" = Ok t ->
  pd.getcol df "opponent" = Ok o ->
  forallb pd.is_str t = true ->
  forallb pd.is_str o = true ->
  pd.categories t = pd.categories o ->
  standardize_teams df = Ok df.
Proof.
  intros Ht Ho Htt Hot Hsame.
  rewrite (standardize_teams_unfold df t o Ht Ho Htt Hot), <- Hsame.
  rewrite (standardized_same (pd.categories t) t).
  2:{ intros c Hin. destruct (is_str_In t c Htt Hin) as [a ->].
      exists a. split; [reflexivity|]. now apply categories_In. } cbn [bind]. unfold pd.setcol.
  apply getcol_lookup in Ht. rewrite (assign_same _ _ _ Ht).
  now destruct df.
Qed.

Lemma same_names_are_left_alone_witness :
  standardize_teams raw_matches = Ok raw_matches.
Proof.
  apply (same_names_are_left_alone raw_matches
           [Str "Arsenal"; Str "Fulham"; Str "Arsenal"; Str "Fulham";
            Str "Arsenal"; Str "Fulham"]
           [Str "Fulham"; Str "Arsenal"; Str "Fulham"; Str "Arsenal";
            Str "Fulham"; Str "Arsenal"]); reflexivity.
Defined.

(** With more distinct names in the team column than in the opponent
    column, the dictionary of line 29 has no entry for the last ones and
    line 30 raises [KeyError]. *)
Theorem unpaired_team_name_raises (df : DataFrame) (t o : Series) :
  pd.getcol df "team" = Ok t ->
  pd.getcol df "opponent" = Ok o ->
  forallb pd.is_str t = true ->
  forallb pd.is_str o = true ->
  length (pd.categories o) < length (pd.categories t) ->
  standardize_teams df = Raise KeyError.
Proof.
  intros Ht Ho Htt Hot Hlen.
  rewrite (standardize_teams_unfold df t o Ht Ho Htt Hot).
  set (d := combine (pd.categories t) (pd.categories o)).
  rewrite (mapM_first_error (standardized d) KeyError); [reflexivity | |].
  - intros c e H. destruct c; simpl in H; try congruence.
    destruct (team_name d s) as [v|e'] eqn:Hv; cbn [bind] in H; [discriminate|].
    inversion H; subst e'. revert Hv. clear.
    induction d as [|[k0 v0] d IH]; simpl.
    + intros Hv. now inversion Hv.
    + destruct (String.eqb k0 s); [discriminate | exact IH].
  - destruct (nth_error (pd.categories t) (length (pd.categories o)))
      as [a|] eqn:Ha; [|apply nth_error_None in Ha; lia].
    exists (Str a). split.
    + apply categories_In. eapply nth_error_In; eassumption.
    + exists KeyError. simpl. rewrite team_name_absent; [reflexivity|].
      unfold d. rewrite map_fst_combine_firstn. intros Hin.
      apply In_nth_error in Hin. destruct Hin as [k Hk].
      apply nth_error_firstn_Some in Hk. destruct Hk as [Hlt Hk].
      pose proof (NoDup_nth_error_eq _ _ _ _ (categories_NoDup t) Hk Ha). lia.
Qed.

Lemma unpaired_team_name_raises_witness :
  standardize_teams raw_unpaired = Raise KeyError.
Proof.
  apply (unpaired_team_name_raises raw_unpaired
           [Str "Arsenal"; Str "Leeds"] [Str "Fulham"; Str "Fulham"]);
    try reflexivity.
  vm_compute. lia.
Defined.

(** ** Preprocessing: the split into seasons (lines 68-74) *)

Lemma positions_from_length {A : Type} (f : A -> bool) (l : list A) : forall k,
  length (pd.positions_from k (map f l)) = length (filter f l).
Proof.
  induction l as [|a l IH]; intros k; simpl; [reflexivity|].
  destruct (f a); simpl; now rewrite IH.
Qed.

Lemma take_positions_all s v :
  forallb (fun c => cell_eq c v) (pd.take (pd.positions (pd.mask_eq s v)) s) = true.
Proof.
  apply forallb_forall. intros c Hin. unfold pd.take in Hin.
  apply in_map_iff in Hin. destruct Hin as (r & Hr & Hin).
  apply In_positions in Hin. destruct Hin as (c' & Hc' & Heq).
  rewrite (nth_error_nth _ _ NaN Hc') in Hr. now subst.
Qed.

Lemma one_season_at_most c :
  list_sum (map (fun p => if in_season (snd p) c then 1 else 0) season_years) =
  if in_some_season c then 1 else 0.
Proof.
  unfold in_some_season, in_season, season_years, list_sum.
  cbn [map fold_right existsb snd].
  assert (Hx : forall y z, cell_eq c (int y) = true ->
                 cell_eq (int y) (int z) = false -> cell_eq c (int z) = false).
  { intros y z H1 H2.
    rewrite (cell_eq_sym c), (cell_eq_trans c (int y) (int z) H1).
    now rewrite cell_eq_sym. }
  destruct (cell_eq c (int 2021)) eqn:E1.
  { rewrite (Hx _ 2022%Z E1 eq_refl), (Hx _ 2023%Z E1 eq_refl),
      (Hx _ 2024%Z E1 eq_refl), (Hx _ 2025%Z E1 eq_refl). reflexivity. }
  destruct (cell_eq c (int 2022)) eqn:E2.
  { rewrite (Hx _ 2023%Z E2 eq_refl), (Hx _ 2024%Z E2 eq_refl),
      (Hx _ 2025%Z E2 eq_refl). reflexivity. }
  destruct (cell_eq c (int 2023)) eqn:E3.
  { rewrite (Hx _ 2024%Z E3 eq_refl), (Hx _ 2025%Z E3 eq_refl). reflexivity. }
  destruct (cell_eq c (int 2024)) eqn:E4.
  { rewrite (Hx _ 2025%Z E4 eq_refl). reflexivity. }
  destruct (cell_eq c (int 2025)); reflexivity.
Qed.

Lemma list_sum_pointwise {A : Type} (f g : A -> nat) (l : list A) :
  list_sum (map (fun x => f x + g x) l) = list_sum (map f l) + list_sum (map g l).
Proof. induction l as [|a l IH]; simpl; [reflexivity | rewrite IH; lia]. Qed.

Lemma seasons_count (s : Series) :
  list_sum (map (fun p => length (filter (in_season (snd p)) s)) season_years) =
  length (filter in_some_season s).
Proof.
  induction s as [|c s IH]; [reflexivity|].
  pose proof (one_season_at_most c) as Hc.
  unfold season_years, list_sum in *. cbn [map fold_right snd filter] in *.
  destruct (in_some_season c), (in_season 2021 c), (in_season 2022 c),
    (in_season 2023 c), (in_season 2024 c), (in_season 2025 c);
    cbn [length]; lia.
Qed.

(** Lines 68-74: each of the five season tables holds, in their order,
    the fixtures whose season cell is its year; a fixture of another year
    is in no table, and none is in two. *)
Theorem seasons_are_split_by_year (fixtures_df : DataFrame) (s : Series) :
  pd.getcol fixtures_df "season" = Ok s ->
  exists tables,
    split_seasons fixtures_df = Ok tables /\
    Forall2 (fun p t =>
               fst t = fst p /\
               snd t = pd.filter_rows (pd.mask_eq s (int (snd p))) fixtures_df /\
               nrows (snd t) = length (filter (in_season (snd p)) s) /\
               exists col, pd.getcol (snd t) "season" = Ok col /\
                           forallb (in_season (snd p)) col = true)
            season_years tables /\
    list_sum (map (fun t => nrows (snd t)) tables) =
    length (filter in_some_season s).
Proof.
  intros Hs.
  exists (map (fun p => (fst p, pd.filter_rows (pd.mask_eq s (int (snd p)))
                                  fixtures_df)) season_years).
  split; [|split].
  - unfold split_seasons. rewrite Hs. reflexivity.
  - assert (Hall : forall l : list (string * Z),
              Forall2 (fun p t =>
                 fst t = fst p /\
                 snd t = pd.filter_rows (pd.mask_eq s (int (snd p))) fixtures_df /\
                 nrows (snd t) = length (filter (in_season (snd p)) s) /\
                 exists col, pd.getcol (snd t) "season" = Ok col /\
                             forallb (in_season (snd p)) col = true)
                l (map (fun p => (fst p, pd.filter_rows
                                           (pd.mask_eq s (int (snd p))) fixtures_df)) l)).
    { induction l as [|p l IH]; constructor; [|exact IH].
      cbn [fst snd]. split; [reflexivity|]. split; [reflexivity|]. split.
      - unfold pd.filter_rows, pd.take_rows, pd.positions, pd.mask_eq. cbn [nrows].
        apply positions_from_length.
      - exists (pd.take (pd.positions (pd.mask_eq s (int (snd p)))) s). split.
        + unfold pd.filter_rows. now apply getcol_take_rows_Ok.
        + apply take_positions_all. }
    apply Hall.
  - rewrite map_map. cbn [snd].
    rewrite <- seasons_count. f_equal. apply map_ext. intros p.
    unfold pd.filter_rows, pd.take_rows, pd.positions, pd.mask_eq. cbn [nrows].
    apply positions_from_length.
Qed.

Lemma seasons_are_split_by_year_witness :
  exists tables,
    split_seasons fixtures_of_raw_matches = Ok tables /\
    list_sum (map (fun t => nrows (snd t)) tables) = 2.
Proof.
  destruct (seasons_are_split_by_year fixtures_of_raw_matches
              [int 2020; int 2021; int 2022] eq_refl)
    as (tables & Hsplit & _ & Hsum).
  exists tables. split; [exact Hsplit | exact Hsum].
Defined.

(** ** Preprocessing: selection, sorting and renaming of columns *)

Lemma select_columns df : forall labels,
  forallb (pd.has_column df) labels = true ->
  exists cols,
    mapM (fun n => s <- pd.getcol df n ;; Ok (n, s)) labels = Ok cols /\
    map fst cols = labels /\
    forall n, In n labels -> pd.lookup n cols = pd.lookup n (columns df).
Proof.
  induction labels as [|l labels IH]; simpl; intros H.
  - exists []. repeat split. intros n [].
  - apply andb_true_iff in H. destruct H as [Hl H].
    destruct (getcol_present _ _ Hl) as [s Hs].
    destruct (IH H) as (cols & Hm & Hn & Hlook).
    exists ((l, s) :: cols). rewrite Hs. cbn [bind]. rewrite Hm. cbn [bind].
    split; [reflexivity|]. split; [simpl; now rewrite Hn|].
    intros n Hin. simpl. destruct (String.eqb l n) eqn:E.
    + apply String.eqb_eq in E. subst n. symmetry. now apply getcol_lookup.
    + apply String.eqb_neq in E. destruct Hin as [Hin|Hin]; [contradiction|].
      now apply Hlook.
Qed.

Lemma select_spec df labels :
  forallb (pd.has_column df) labels = true ->
  exists t,
    pd.select df labels = Ok t /\ names t = labels /\ nrows t = nrows df /\
    forall n, In n labels -> pd.getcol t n = pd.getcol df n.
Proof.
  intros H. destruct (select_columns df labels H) as (cols & Hm & Hn & Hlook).
  exists (mkDF (nrows df) cols). unfold pd.select. rewrite Hm. cbn [bind].
  split; [reflexivity|]. split; [exact Hn|]. split; [reflexivity|].
  intros n Hin. unfold pd.getcol. cbn [columns]. now rewrite (Hlook n Hin).
Qed.

Lemma has_column_names df n : pd.has_column df n = mem n (names df).
Proof. reflexivity. Qed.

Lemma insert_row_perm x l : Permutation (pd2.insert_row x l) (x :: l).
Proof.
  induction l as [|y l IH]; simpl; [reflexivity|].
  destruct (pd2.lex_leb (fst x) (fst y)); [reflexivity|].
  rewrite IH. apply perm_swap.
Qed.

Lemma sort_rows_perm l : Permutation (pd2.sort_rows l) l.
Proof.
  induction l as [|x l IH]; simpl; [reflexivity|].
  rewrite insert_row_perm. now constructor.
Qed.

(** The order of a sort on several keys lists every row once. *)
Lemma argsort_by_perm keys n : Permutation (pd2.argsort_by keys n) (seq 0 n).
Proof.
  unfold pd2.argsort_by.
  rewrite (Permutation_map snd (sort_rows_perm _)).
  rewrite map_map. cbn [snd]. now rewrite map_id.
Qed.

Lemma take_take a b s :
  (forall i, In i a -> i < length b) ->
  pd.take a (pd.take b s) = pd.take (map (fun i => nth i b 0) a) s.
Proof.
  intros H. unfold pd.take. rewrite map_map. apply map_ext_in.
  intros i Hi. specialize (H i Hi).
  rewrite (nth_indep _ NaN ((fun j => nth j s NaN) 0)) by now rewrite length_map.
  now rewrite (map_nth (fun j => nth j s NaN) b 0 i).
Qed.

Lemma take_rows_take_rows a b df :
  (forall i, In i a -> i < length b) ->
  pd.take_rows a (pd.take_rows b df) =
  pd.take_rows (map (fun i => nth i b 0) a) df.
Proof.
  intros H. unfold pd.take_rows. cbn [columns]. rewrite length_map. f_equal.
  rewrite map_map. apply map_ext. intros c. cbn [fst snd].
  now rewrite take_take.
Qed.

Lemma sortable_take ps s : pd.sortable s = true -> pd.sortable (pd.take ps s) = true.
Proof. intros H. apply (sortable_drawn s); [assumption|]. apply In_take. Qed.

(** Lines 33-34 on a table with sortable dates and times: the rows of the
    venue, in the order [venue_order]. *)
Lemma venue_rows_spec df venue date time v :
  pd.getcol df "venue" = Ok venue ->
  pd.getcol df "date" = Ok date ->
  pd.getcol df "time" = Ok time ->
  pd.sortable date = true ->
  pd.sortable time = true ->
  venue_rows df v = Ok (pd.take_rows (venue_order venue date time v) df).
Proof.
  intros Hv Hd Ht Hsd Hst. unfold venue_rows, pd2.sort_values_by, pd.filter_rows.
  rewrite Hv. cbn [bind mapM].
  rewrite (getcol_take_rows_Ok _ _ _ _ Hd), (getcol_take_rows_Ok _ _ _ _ Ht).
  cbn [bind forallb].
  rewrite (sortable_take _ _ Hsd), (sortable_take _ _ Hst). cbn [andb].
  unfold venue_order. cbn zeta. f_equal.
  change (nrows (pd.take_rows ?ps df)) with (length ps).
  apply take_rows_take_rows.
  intros i Hi. apply (Permutation_in _ (argsort_by_perm _ _)) in Hi.
  apply in_seq in Hi. lia.
Qed.

Lemma venue_order_In venue date time v i :
  In i (venue_order venue date time v) <->
  exists c, nth_error venue i = Some c /\ cell_eq c (Str v) = true.
Proof.
  rewrite <- In_positions. unfold venue_order. cbn zeta.
  set (ps := pd.positions (pd.mask_eq venue (Str v))).
  set (order := pd2.argsort_by _ _).
  assert (Hperm : Permutation order (seq 0 (length ps))) by apply argsort_by_perm.
  rewrite in_map_iff. split.
  - intros (k & <- & Hk). apply (Permutation_in _ Hperm) in Hk.
    apply in_seq in Hk. apply nth_In. lia.
  - intros Hin. apply (In_nth _ _ 0) in Hin. destruct Hin as (k & Hk & <-).
    exists k. split; [reflexivity|].
    apply (Permutation_in _ (Permutation_sym Hperm)). apply in_seq. lia.
Qed.

Lemma lookup_renamed_injective (rn : string -> string) n cols :
  (forall m, In m (map fst cols) -> rn m = rn n -> m = n) ->
  pd.lookup (rn n) (map (fun c => (rn (fst c), snd c)) cols) = pd.lookup n cols.
Proof.
  induction cols as [|[m s] cols IH]; simpl; intros Hinj; [reflexivity|].
  destruct (String.eqb m n) eqn:E.
  - apply String.eqb_eq in E. subst m. now rewrite String.eqb_refl.
  - destruct (String.eqb (rn m) (rn n)) eqn:E'.
    + apply String.eqb_eq in E'. apply Hinj in E'; [|now left].
      apply String.eqb_neq in E. contradiction.
    + apply IH. intros m' Hm'. apply Hinj. now right.
Qed.

Lemma getcol_rename df mapping n :
  forallb (fun m => implb (String.eqb (pd2.renamed mapping m) (pd2.renamed mapping n))
                          (String.eqb m n)) (names df) = true ->
  pd.getcol (pd2.rename df mapping) (pd2.renamed mapping n) = pd.getcol df n.
Proof.
  intros H. unfold pd.getcol, pd2.rename. cbn [columns].
  rewrite lookup_renamed_injective; [reflexivity|].
  intros m Hm E. rewrite forallb_forall in H. specialize (H m Hm).
  rewrite E, String.eqb_refl in H. simpl in H. now apply String.eqb_eq.
Qed.

Lemma names_rename df mapping :
  names (pd2.rename df mapping) = map (pd2.renamed mapping) (names df).
Proof. unfold names, pd2.rename. cbn [columns]. now rewrite !map_map. Qed.

Lemma names_take_rows ps df : names (pd.take_rows ps df) = names df.
Proof. unfold names, pd.take_rows. cbn [columns]. now rewrite map_map. Qed.

(** ** Preprocessing: the merge (lines 52-55) *)

Lemma merge_no_clash left right on lk rk :
  mapM (pd.getcol left) on = Ok lk ->
  mapM (pd.getcol right) on = Ok rk ->
  (forall n, pd.has_column left n = true -> pd.has_column right n = true ->
             mem n on = true) ->
  let pairs := pd.join_pairs lk rk (nrows left) (nrows right) in
  pd.merge left right on =
  Ok (mkDF (length pairs)
        (map (fun c => (fst c, pd.take (map fst pairs) (snd c))) (columns left)
         ++ map (fun c => (fst c, pd.take (map snd pairs) (snd c)))
                (filter (fun c => negb (mem (fst c) on)) (columns right)))).
Proof.
  intros Hl Hr Hno pairs. unfold pd.merge. rewrite Hl, Hr. cbn [bind].
  fold pairs.
  assert (Hclash : forall n,
            negb (existsb (String.eqb n) on) && pd.has_column left n
            && pd.has_column right n = false).
  { intros n. specialize (Hno n). unfold mem in Hno.
    destruct (pd.has_column left n), (pd.has_column right n);
      rewrite ?andb_false_r; try reflexivity.
    now rewrite Hno. }
  f_equal. f_equal. f_equal.
  - apply map_ext. intros c. now rewrite Hclash.
  - apply map_ext. intros c. now rewrite Hclash.
Qed.

Lemma has_column_false_lookup df n :
  pd.has_column df n = false -> pd.lookup n (columns df) = None.
Proof.
  intros H. destruct (pd.lookup n (columns df)) as [s|] eqn:E; [|reflexivity].
  assert (Hc : pd.has_column df n = true) by (apply lookup_has_column; eauto).
  congruence.
Qed.

Lemma merge_home_away_columns df_home df_away hk ak :
  mapM (pd.getcol df_home) merge_keys = Ok hk ->
  mapM (pd.getcol df_away) merge_keys = Ok ak ->
  (forall n, In n away_stats -> exists s, pd.getcol df_away n = Ok s) ->
  (forall n, In n away_stats -> pd.has_column df_home n = false) ->
  let pairs := pd.join_pairs hk ak (nrows df_home) (nrows df_away) in
  exists out,
    merge_home_away df_home df_away = Ok out /\
    nrows out = length pairs /\
    names out = names df_home ++ away_stats /\
    (forall n s, pd.getcol df_home n = Ok s ->
       pd.getcol out n = Ok (pd.take (map fst pairs) s)) /\
    (forall n s, In n away_stats -> pd.getcol df_away n = Ok s ->
       pd.getcol out n = Ok (pd.take (map snd pairs) s)).
Proof.
  intros Hhome Haway Hstats Hfree pairs.
  destruct (mapM_getcol_keys _ _ Haway) as (ad & ah & aa & -> & Had & Hah & Haa).
  destruct (Hstats "away_sh") as [s1 Hs1]; [pick_in|].
  destruct (Hstats "away_shot_on_target") as [s2 Hs2]; [pick_in|].
  destruct (Hstats "away_dist_covered") as [s3 Hs3]; [pick_in|].
  destruct (Hstats "away_poss") as [s4 Hs4]; [pick_in|].
  unfold merge_home_away, away_stats_to_add, pd.select. simpl mapM.
  rewrite Had, Hah, Haa, Hs1, Hs2, Hs3, Hs4. cbn [bind].
  set (stats := mkDF (nrows df_away) _).
  fold merge_keys.
  rewrite (merge_no_clash df_home stats merge_keys hk [ad; ah; aa] Hhome eq_refl).
  2:{ intros n Hl Hr. rewrite has_column_names in Hr. apply mem_In in Hr.
      cbn [names stats columns map fst] in Hr.
      destruct Hr as [<-|[<-|[<-|Hr]]]; try reflexivity.
      rewrite (Hfree n) in Hl; [discriminate|].
      simpl in Hr. simpl. tauto. }
  cbn zeta. change (nrows stats) with (nrows df_away). fold pairs.
  eexists. split; [reflexivity|]. split; [reflexivity|]. split; [|split].
  - unfold names. cbn [columns]. rewrite map_app, !map_map. cbn [fst].
    f_equal.
  - intros n s Hs. apply getcol_lookup in Hs. apply getcol_lookup.
    cbn [columns]. rewrite lookup_app.
    rewrite (lookup_map n (fun _ => pd.take (map fst pairs))), Hs. reflexivity.
  - intros n s Hn Hs. apply getcol_lookup. cbn [columns]. rewrite lookup_app.
    rewrite (lookup_map n (fun _ => pd.take (map fst pairs))).
    rewrite (has_column_false_lookup _ _ (Hfree n Hn)). cbn [option_map].
    rewrite (lookup_map n (fun _ => pd.take (map snd pairs))).
    simpl in Hn.
    destruct Hn as [<-|[<-|[<-|[<-|[]]]]]; cbn [stats columns filter fst mem
      existsb merge_keys String.eqb Ascii.eqb Bool.eqb negb orb pd.lookup andb];
      cbn; congruence.
Qed.

Lemma map_flat_map {A B C : Type} (g : B -> C) (f : A -> list B) (l : list A) :
  map g (flat_map f l) = flat_map (fun x => map g (f x)) l.
Proof. induction l as [|a l IH]; simpl; [reflexivity|]. now rewrite map_app, IH. Qed.

Lemma flat_map_of_map {A B C : Type} (h : A -> B) (f : B -> list C) (l : list A) :
  flat_map f (map h l) = flat_map (fun x => f (h x)) l.
Proof. induction l as [|a l IH]; simpl; [reflexivity|]. now rewrite IH. Qed.

Lemma flat_map_agree {A B : Type} (f g : A -> list B) (l : list A) :
  (forall x, In x l -> f x = g x) -> flat_map f l = flat_map g l.
Proof.
  induction l as [|a l IH]; simpl; intros H; [reflexivity|].
  rewrite H by now left. f_equal. apply IH. intros; apply H; now right.
Qed.

Lemma filter_of_map {A B : Type} (h : A -> B) (p : B -> bool) (l : list A) :
  filter p (map h l) = map h (filter (fun x => p (h x)) l).
Proof.
  induction l as [|a l IH]; simpl; [reflexivity|].
  destruct (p (h a)); simpl; now rewrite IH.
Qed.

Lemma list_by_index (l : list nat) :
  l = map (fun i => nth i l 0) (seq 0 (length l)).
Proof.
  apply (nth_ext _ _ 0 (nth 0 l 0)).
  - now rewrite length_map, length_seq.
  - intros n Hn.
    rewrite (map_nth (fun i => nth i l 0) (seq 0 (length l)) 0 n).
    now rewrite seq_nth.
Qed.

Lemma nth_take i ps s : i < length ps -> nth i (pd.take ps s) NaN = nth (nth i ps 0) s NaN.
Proof.
  intros H. unfold pd.take.
  rewrite (nth_indep _ NaN ((fun j => nth j s NaN) 0)) by now rewrite length_map.
  now rewrite (map_nth (fun j => nth j s NaN) ps 0 i).
Qed.

(** The pairs of the join, read as pairs of raw rows. *)
Lemma join_pairs_rows (H A : list nat) (d t o : Series) :
  map (fun p => (nth (fst p) H 0, nth (snd p) A 0))
      (pd.join_pairs [pd.take H d; pd.take H t; pd.take H o]
                     [pd.take A d; pd.take A o; pd.take A t]
                     (length H) (length A)) =
  flat_map (fun i => map (fun j => (i, j)) (filter (same_match d t o i) A)) H.
Proof.
  unfold pd.join_pairs. rewrite map_flat_map.
  assert (EH : forall (F : nat -> list (nat * nat)) l,
            l = map (fun a => nth a H 0) (seq 0 (length H)) ->
            flat_map F l = flat_map (fun a => F (nth a H 0)) (seq 0 (length H))).
  { intros F l ->. apply flat_map_of_map. }
  rewrite (EH _ H (list_by_index H)).
  apply flat_map_agree. intros a Ha. apply in_seq in Ha.
  rewrite map_map. cbn [fst snd].
  assert (E : forall l, l = map (fun b => nth b A 0) (seq 0 (length A)) ->
            map (fun j => (nth a H 0, j)) (filter (same_match d t o (nth a H 0)) l) =
            map (fun b => (nth a H 0, nth b A 0))
                (filter (fun b => same_match d t o (nth a H 0) (nth b A 0))
                        (seq 0 (length A)))).
  { intros l ->. now rewrite filter_of_map, map_map. }
  rewrite (E A (list_by_index A)). f_equal. unfold pd.matches.
  apply filter_agree. intros b Hb. apply in_seq in Hb.
  unfold same_match, pd.row_key. cbn [map].
  rewrite !nth_take by lia. reflexivity.
Qed.

Lemma join_pairs_bound lk rk nl nr a b :
  In (a, b) (pd.join_pairs lk rk nl nr) -> a < nl /\ b < nr.
Proof.
  unfold pd.join_pairs. rewrite in_flat_map. intros (i & Hi & Hin).
  apply in_map_iff in Hin. destruct Hin as (j & E & Hj). inversion E; subst.
  apply in_seq in Hi. apply matches_spec in Hj. lia.
Qed.

Lemma fixture_pairs_In venue date time team opponent i j :
  In (i, j) (fixture_pairs venue date time team opponent) <->
  (exists c, nth_error venue i = Some c /\ cell_eq c (Str "Home") = true) /\
  (exists c, nth_error venue j = Some c /\ cell_eq c (Str "Away") = true) /\
  same_match date team opponent i j = true.
Proof.
  unfold fixture_pairs. rewrite in_flat_map.
  rewrite <- !venue_order_In with (date := date) (time := time).
  split.
  - intros (i' & Hi' & Hin). apply in_map_iff in Hin.
    destruct Hin as (j' & E & Hj'). inversion E; subst.
    apply filter_In in Hj'. tauto.
  - intros (Hi & Hj & Hm). exists i. split; [assumption|].
    apply in_map_iff. exists j. split; [reflexivity|].
    apply filter_In. tauto.
Qed.

(** ** Preprocessing: lines 16-61 as a whole *)

Lemma home_source_labels src n :
  In (src, n) home_source ->
  n = pd2.renamed home_labels src /\ In src column_order /\ src <> "team" /\
  In n new_order.
Proof.
  intros Hin. simpl in Hin.
  repeat (destruct Hin as [E|Hin];
          [inversion E; subst; split; [reflexivity|];
           split; [pick_in|]; split; [discriminate | pick_in]|]).
  contradiction.
Qed.

Lemma away_source_labels src n :
  In (src, n) away_source ->
  n = pd2.renamed away_labels src /\ In src column_order /\ src <> "team" /\
  In n new_order /\ In n away_stats.
Proof.
  intros Hin. simpl in Hin.
  repeat (destruct Hin as [E|Hin];
          [inversion E; subst; split; [reflexivity|];
           split; [pick_in|]; split; [discriminate|]; split; pick_in|]).
  contradiction.
Qed.

Lemma fixtures_table_spec (raw : DataFrame) (venue date time t o team : Series) :
  forallb (pd.has_column raw) column_order = true ->
  pd.getcol raw "venue" = Ok venue ->
  pd.getcol raw "date" = Ok date ->
  pd.getcol raw "time" = Ok time ->
  pd.getcol raw "team" = Ok t ->
  pd.getcol raw "opponent" = Ok o ->
  pd.sortable date = true ->
  pd.sortable time = true ->
  forallb pd.is_str t = true ->
  forallb pd.is_str o = true ->
  mapM (standardized (combine (pd.categories t) (pd.categories o))) t = Ok team ->
  let rows := fixture_pairs venue date time team o in
  exists out,
    fixtures_table raw = Ok out /\
    names out = new_order /\
    nrows out = length rows /\
    (forall src n col, In (src, n) home_source -> pd.getcol raw src = Ok col ->
       pd.getcol out n = Ok (pd.take (map fst rows) col)) /\
    pd.getcol out "home_team" = Ok (pd.take (map fst rows) team) /\
    (forall src n col, In (src, n) away_source -> pd.getcol raw src = Ok col ->
       pd.getcol out n = Ok (pd.take (map snd rows) col)).
Proof.
  intros Hcols Hvenue Hdate Htime Ht Ho Hsd Hst Htt Hot Hteam rows.
  destruct (select_spec raw column_order Hcols) as (df0 & Hsel & Hn0 & _ & Hg0).
  set (df1 := pd.setcol df0 "team" team).
  assert (Ht0 : pd.getcol df0 "team" = Ok t) by (rewrite Hg0; [exact Ht | pick_in]).
  assert (Ho0 : pd.getcol df0 "opponent" = Ok o) by (rewrite Hg0; [exact Ho | pick_in]).
  assert (Hstd : standardize_teams df0 = Ok df1).
  { rewrite (standardize_teams_unfold df0 t o Ht0 Ho0 Htt Hot). now rewrite Hteam. }
  assert (Hn1 : names df1 = column_order).
  { unfold df1. now rewrite (names_setcol_existing df0 "team" t team Ht0). }
  assert (Hg1 : forall n, In n column_order -> n <> "team" ->
                          pd.getcol df1 n = pd.getcol raw n).
  { intros n Hin Hne. unfold df1. rewrite getcol_setcol_other by congruence.
    now apply Hg0. }
  assert (Hg1t : pd.getcol df1 "team" = Ok team) by apply getcol_setcol_same.
  assert (Hv1 : pd.getcol df1 "venue" = Ok venue)
    by (rewrite Hg1; [exact Hvenue | pick_in | discriminate]).
  assert (Hd1 : pd.getcol df1 "date" = Ok date)
    by (rewrite Hg1; [exact Hdate | pick_in | discriminate]).
  assert (Htm1 : pd.getcol df1 "time" = Ok time)
    by (rewrite Hg1; [exact Htime | pick_in | discriminate]).
  assert (Ho1 : pd.getcol df1 "opponent" = Ok o)
    by (rewrite Hg1; [exact Ho | pick_in | discriminate]).
  set (H := venue_order venue date time "Home").
  set (A := venue_order venue date time "Away").
  unfold fixtures_table. rewrite Hsel. cbn [bind]. rewrite Hstd. cbn [bind].
  rewrite (venue_rows_spec df1 venue date time "Home" Hv1 Hd1 Htm1 Hsd Hst).
  cbn [bind].
  rewrite (venue_rows_spec df1 venue date time "Away" Hv1 Hd1 Htm1 Hsd Hst).
  cbn [bind]. fold H A.
  set (df_home := pd2.rename (pd.take_rows H df1) home_labels).
  set (df_away := pd2.rename (pd.take_rows A df1) away_labels).
  assert (Hnh : names df_home = map (pd2.renamed home_labels) column_order).
  { unfold df_home. now rewrite names_rename, names_take_rows, Hn1. }
  assert (Hgh : forall src col, In src column_order -> pd.getcol df1 src = Ok col ->
            pd.getcol df_home (pd2.renamed home_labels src) = Ok (pd.take H col)).
  { intros src col Hin Hc. unfold df_home. rewrite getcol_rename.
    - now apply getcol_take_rows_Ok.
    - rewrite names_take_rows, Hn1. simpl in Hin.
      repeat (destruct Hin as [<-|Hin]; [reflexivity|]). contradiction. }
  assert (Hga : forall src col, In src column_order -> pd.getcol df1 src = Ok col ->
            pd.getcol df_away (pd2.renamed away_labels src) = Ok (pd.take A col)).
  { intros src col Hin Hc. unfold df_away. rewrite getcol_rename.
    - now apply getcol_take_rows_Ok.
    - rewrite names_take_rows, Hn1. simpl in Hin.
      repeat (destruct Hin as [<-|Hin]; [reflexivity|]). contradiction. }
  set (hk := [pd.take H date; pd.take H team; pd.take H o]).
  set (ak := [pd.take A date; pd.take A o; pd.take A team]).
  assert (Hhk : mapM (pd.getcol df_home) merge_keys = Ok hk).
  { assert (E1 : pd.getcol df_home "date" = Ok (pd.take H date))
      by exact (Hgh "date" date ltac:(pick_in) Hd1).
    assert (E2 : pd.getcol df_home "home_team" = Ok (pd.take H team))
      by exact (Hgh "team" team ltac:(pick_in) Hg1t).
    assert (E3 : pd.getcol df_home "away_team" = Ok (pd.take H o))
      by exact (Hgh "opponent" o ltac:(pick_in) Ho1).
    cbn [merge_keys mapM]. now rewrite E1, E2, E3. }
  assert (Hak : mapM (pd.getcol df_away) merge_keys = Ok ak).
  { assert (E1 : pd.getcol df_away "date" = Ok (pd.take A date))
      by exact (Hga "date" date ltac:(pick_in) Hd1).
    assert (E2 : pd.getcol df_away "home_team" = Ok (pd.take A o))
      by exact (Hga "opponent" o ltac:(pick_in) Ho1).
    assert (E3 : pd.getcol df_away "away_team" = Ok (pd.take A team))
      by exact (Hga "team" team ltac:(pick_in) Hg1t).
    cbn [merge_keys mapM]. now rewrite E1, E2, E3. }
  assert (Hraw : forall src, In src column_order ->
                   exists col, pd.getcol raw src = Ok col).
  { intros src Hin. apply getcol_present.
    rewrite forallb_forall in Hcols. now apply Hcols. }
  destruct (merge_home_away_columns df_home df_away hk ak Hhk Hak)
    as (m & Hm & Hmn & Hmnames & Hmh & Hma).
  { intros n Hn.
    assert (Hsrc : exists src, In src column_order /\ src <> "team" /\
                               n = pd2.renamed away_labels src).
    { simpl in Hn. destruct Hn as [<-|[<-|[<-|[<-|[]]]]].
      - exists "sh". split; [pick_in|]. split; [discriminate | reflexivity].
      - exists "sot". split; [pick_in|]. split; [discriminate | reflexivity].
      - exists "dist". split; [pick_in|]. split; [discriminate | reflexivity].
      - exists "poss". split; [pick_in|]. split; [discriminate | reflexivity]. }
    destruct Hsrc as (src & Hin & Hne & ->).
    destruct (Hraw src Hin) as [col Hc].
    exists (pd.take A col). apply Hga; [assumption|]. now rewrite Hg1. }
  { intros n Hn. rewrite has_column_names, Hnh. simpl in Hn.
    destruct Hn as [<-|[<-|[<-|[<-|[]]]]]; reflexivity. }
  rewrite Hm. cbn [bind].
  destruct (select_spec m new_order) as (out & Hout & Hno & Hnr & Hgo).
  { unfold pd.has_column. rewrite Hmnames, Hnh. reflexivity. }
  exists out. split; [exact Hout|]. split; [exact Hno|].
  set (pairs := pd.join_pairs hk ak (nrows df_home) (nrows df_away)) in *.
  assert (Hrows : rows = map (fun p => (nth (fst p) H 0, nth (snd p) A 0)) pairs).
  { unfold rows, fixture_pairs. fold H A. symmetry.
    exact (join_pairs_rows H A date team o). }
  assert (Hfst : forall col, pd.take (map fst pairs) (pd.take H col) =
                             pd.take (map fst rows) col).
  { intros col. rewrite take_take.
    - rewrite Hrows, !map_map. reflexivity.
    - intros i Hi. apply in_map_iff in Hi. destruct Hi as ([a b] & <- & Hab).
      apply join_pairs_bound in Hab. exact (proj1 Hab). }
  assert (Hsnd : forall col, pd.take (map snd pairs) (pd.take A col) =
                             pd.take (map snd rows) col).
  { intros col. rewrite take_take.
    - rewrite Hrows, !map_map. reflexivity.
    - intros i Hi. apply in_map_iff in Hi. destruct Hi as ([a b] & <- & Hab).
      apply join_pairs_bound in Hab. exact (proj2 Hab). }
  split; [|split; [|split]].
  - rewrite Hnr, Hmn, Hrows. now rewrite length_map.
  - intros src n col Hin Hc.
    destruct (home_source_labels src n Hin) as (-> & Hsrc & Hne & Hn).
    rewrite (Hgo _ Hn). rewrite <- Hfst. apply Hmh. apply Hgh; [assumption|].
    now rewrite Hg1.
  - rewrite (Hgo "home_team" ltac:(pick_in)). rewrite <- Hfst. apply Hmh.
    exact (Hgh "team" team ltac:(pick_in) Hg1t).
  - intros src n col Hin Hc.
    destruct (away_source_labels src n Hin) as (-> & Hsrc & Hne & Hn & Hst').
    rewrite (Hgo _ Hn). rewrite <- Hsnd. apply Hma; [assumption|].
    apply Hga; [assumption|]. now rewrite Hg1.
Qed.

(** Lines 22-61 on a raw log with its eighteen columns, text names and
    sortable dates and times.  The fixtures table has one row for each
    pair of a home record and an away record of the same match (same
    date, each naming the other as opponent).  Date, time, round, venue,
    outcome, season, both teams, both goal counts, both xG values and the
    home shots, shots on target and possession are read off the home
    record; the away shots, shots on target and possession off the away
    record. *)
Theorem fixture_joins_home_and_away_record
    (raw : DataFrame) (venue date time t o team : Series) :
  forallb (pd.has_column raw) column_order = true ->
  pd.getcol raw "venue" = Ok venue ->
  pd.getcol raw "date" = Ok date ->
  pd.getcol raw "time" = Ok time ->
  pd.getcol raw "team" = Ok t ->
  pd.getcol raw "opponent" = Ok o ->
  pd.sortable date = true ->
  pd.sortable time = true ->
  forallb pd.is_str t = true ->
  forallb pd.is_str o = true ->
  mapM (standardized (combine (pd.categories t) (pd.categories o))) t = Ok team ->
  let rows := fixture_pairs venue date time team o in
  exists out,
    fixtures_table raw = Ok out /\
    nrows out = length rows /\
    (forall i j, In (i, j) rows <->
       (exists c, nth_error venue i = Some c /\ cell_eq c (Str "Home") = true) /\
       (exists c, nth_error venue j = Some c /\ cell_eq c (Str "Away") = true) /\
       same_match date team o i j = true) /\
    (forall src n col, In (src, n) home_source -> pd.getcol raw src = Ok col ->
       pd.getcol out n = Ok (pd.take (map fst rows) col)) /\
    pd.getcol out "home_team" = Ok (pd.take (map fst rows) team) /\
    (forall src n col, In (src, n) away_source -> pd.getcol raw src = Ok col ->
       pd.getcol out n = Ok (pd.take (map snd rows) col)).
Proof.
  intros Hcols Hvenue Hdate Htime Ht Ho Hsd Hst Htt Hot Hteam rows.
  destruct (fixtures_table_spec raw venue date time t o team
              Hcols Hvenue Hdate Htime Ht Ho Hsd Hst Htt Hot Hteam)
    as (out & Hout & _ & Hn & Hhome & Hteam' & Haway).
  exists out. split; [exact Hout|]. split; [exact Hn|].
  split; [intros i j; apply fixture_pairs_In|].
  split; [exact Hhome|]. split; [exact Hteam' | exact Haway].
Qed.

Lemma fixture_joins_home_and_away_record_witness :
  exists out,
    fixtures_table raw_matches = Ok out /\
    nrows out = 3 /\
    pd.getcol out "home_goals" = Ok [int 1; int 0; int 0] /\
    pd.getcol out "away_sh" = Ok [int 10; int 10; int 10].
Proof.
  destruct (fixture_joins_home_and_away_record raw_matches
              [Str "Away"; Str "Home"; Str "Home"; Str "Away"; Str "Home"; Str "Away"]
              [Str "2020-09-12"; Str "2020-09-12"; Str "2021-08-13";
               Str "2021-08-13"; Str "2019-08-11"; Str "2019-08-11"]
              [Str "15:00"; Str "15:00"; Str "20:00"; Str "20:00";
               Str "14:00"; Str "14:00"]
              [Str "Arsenal"; Str "Fulham"; Str "Arsenal"; Str "Fulham";
               Str "Arsenal"; Str "Fulham"]
              [Str "Fulham"; Str "Arsenal"; Str "Fulham"; Str "Arsenal";
               Str "Fulham"; Str "Arsenal"]
              [Str "Arsenal"; Str "Fulham"; Str "Arsenal"; Str "Fulham";
               Str "Arsenal"; Str "Fulham"]
              eq_refl eq_refl eq_refl eq_refl eq_refl eq_refl eq_refl eq_refl
              eq_refl eq_refl eq_refl)
    as (out & Hout & Hn & _ & Hhome & _ & Haway).
  exists out. split; [exact Hout|]. split; [exact Hn|]. split.
  - exact (Hhome "gf" "home_goals" _ ltac:(pick_in) eq_refl).
  - exact (Haway "sh" "away_sh" _ ltac:(pick_in) eq_refl).
Defined.

(** ** Preprocessing: the function as a whole *)

Lemma standardized_total t o :
  forallb pd.is_str t = true ->
  length (pd.categories t) <= length (pd.categories o) ->
  exists team,
    mapM (standardized (combine (pd.categories t) (pd.categories o))) t = Ok team.
Proof.
  intros Htt Hlen. apply mapM_total.
  intros c Hin. destruct (is_str_In t c Htt Hin) as [a ->].
  destruct (team_name_present (combine (pd.categories t) (pd.categories o)) a)
    as [b Hb].
  - rewrite map_fst_combine_firstn, firstn_all2 by exact Hlen.
    now apply categories_In.
  - exists (Str b). simpl. now rewrite Hb.
Qed.

Lemma split_seasons_Ok fixtures_df s :
  pd.getcol fixtures_df "season" = Ok s ->
  split_seasons fixtures_df =
  Ok (map (fun p => (fst p, pd.filter_rows (pd.mask_eq s (int (snd p)))
                              fixtures_df)) season_years).
Proof. intros Hs. unfold split_seasons. now rewrite Hs. Qed.

Lemma mapM_all_Ok {A B : Type} (f : A -> result B) (b : B) (l : list A) :
  (forall x, In x l -> f x = Ok b) -> mapM f l = Ok (map (fun _ => b) l).
Proof.
  induction l as [|a l IH]; intros H; [reflexivity|].
  simpl. rewrite (H a) by now left. cbn [bind].
  rewrite IH by (intros; apply H; now right). reflexivity.
Qed.

Lemma names_filter (keep : string -> bool) (cols : list (string * Series)) :
  map fst (filter (fun c => keep (fst c)) cols) = filter keep (map fst cols).
Proof.
  induction cols as [|c cols IH]; simpl; [reflexivity|].
  destruct (keep (fst c)); simpl; now rewrite IH.
Qed.

(** Lines 64-65 on the fixtures table: the dates label the rows, and the
    seventeen other columns stay. *)
Lemma date_as_index_spec fixtures_df dates :
  names fixtures_df = new_order ->
  pd.getcol fixtures_df "date" = Ok dates ->
  exists columns_left,
    pd.drop fixtures_df ["date"] = Ok columns_left /\
    date_as_index fixtures_df = Ok (mkIndexed "date" dates columns_left) /\
    names columns_left = tl new_order /\
    nrows columns_left = nrows fixtures_df /\
    forall n, n <> "date" -> pd.getcol columns_left n = pd.getcol fixtures_df n.
Proof.
  intros Hn Hd. unfold date_as_index. rewrite Hd. cbn [bind].
  unfold pd.drop.
  assert (Hhas : forallb (pd.has_column fixtures_df) ["date"] = true).
  { unfold pd.has_column. now rewrite Hn. }
  rewrite Hhas. cbn [bind]. eexists. split; [reflexivity|].
  split; [reflexivity|]. split; [|split; [reflexivity|]].
  - unfold names. cbn [columns].
    rewrite (names_filter (fun n => negb (existsb (String.eqb n) ["date"]))).
    fold (names fixtures_df). now rewrite Hn.
  - intros n Hne. unfold pd.getcol. cbn [columns].
    rewrite (lookup_filter (fun m => negb (existsb (String.eqb m) ["date"]))).
    cbn [existsb]. apply String.eqb_neq in Hne. now rewrite Hne.
Qed.

Lemma season_tables_Ok t s :
  pd.getcol (frame t) "season" = Ok s ->
  season_tables t =
  Ok (map (fun p => (fst p, rows_where (pd.mask_eq s (int (snd p))) t))
          season_years).
Proof. intros Hs. unfold season_tables. now rewrite Hs. Qed.

(** [preprocess_match_data] on a well-formed raw log, up to the writes of
    lines 77-78. *)
Lemma preprocess_match_data_spec
    (to_csv : string -> Indexed -> result unit)
    (raw : DataFrame) (output_dir : string) (venue date time t o : Series) :
  forallb (pd.has_column raw) column_order = true ->
  pd.getcol raw "venue" = Ok venue ->
  pd.getcol raw "date" = Ok date ->
  pd.getcol raw "time" = Ok time ->
  pd.getcol raw "team" = Ok t ->
  pd.getcol raw "opponent" = Ok o ->
  pd.sortable date = true ->
  pd.sortable time = true ->
  forallb pd.is_str t = true ->
  forallb pd.is_str o = true ->
  length (pd.categories t) <= length (pd.categories o) ->
  exists fixtures_df dates season columns_left,
    fixtures_table raw = Ok fixtures_df /\
    pd.getcol fixtures_df "date" = Ok dates /\
    pd.getcol fixtures_df "season" = Ok season /\
    pd.drop fixtures_df ["date"] = Ok columns_left /\
    names columns_left = tl new_order /\
    (forall n, n <> "date" ->
               pd.getcol columns_left n = pd.getcol fixtures_df n) /\
    let seasons :=
      map (fun p => (fst p, rows_where (pd.mask_eq season (int (snd p)))
                              (mkIndexed "date" dates columns_left)))
          season_years in
    preprocess_match_data to_csv raw output_dir =
    (_ <- mapM (fun season =>
                  to_csv (String.append output_dir
                            (String.append (fst season) ".csv"))
                         (snd season))
               seasons ;;
     Ok seasons).
Proof.
  intros Hcols Hvenue Hdate Htime Ht Ho Hsd Hst Htt Hot Hlen.
  destruct (standardized_total t o Htt Hlen) as [team Hteam].
  destruct (fixtures_table_spec raw venue date time t o team
              Hcols Hvenue Hdate Htime Ht Ho Hsd Hst Htt Hot Hteam)
    as (out & Hout & Hnames & _ & Hhome & _ & _).
  assert (Hs : exists s, pd.getcol raw "season" = Ok s).
  { apply getcol_present. rewrite forallb_forall in Hcols. apply Hcols. pick_in. }
  destruct Hs as [s Hs].
  pose proof (Hhome "season" "season" s ltac:(pick_in) Hs) as Hseason.
  pose proof (Hhome "date" "date" date ltac:(pick_in) Hdate) as Hdates.
  destruct (date_as_index_spec out _ Hnames Hdates)
    as (rest & Hdrop & Hindex & Hleft & _ & Hget).
  do 4 eexists. split; [exact Hout|]. split; [exact Hdates|].
  split; [exact Hseason|]. split; [exact Hdrop|]. split; [exact Hleft|].
  split; [exact Hget|].
  cbn zeta. unfold preprocess_match_data. rewrite Hout. cbn [bind].
  rewrite Hindex. cbn [bind].
  pose proof (eq_trans (Hget "season" ltac:(discriminate)) Hseason) as Hs'.
  unfold season_tables. cbn [frame]. rewrite Hs'. reflexivity.
Qed.

(** [preprocess_match_data] returns on every raw log that has the
    eighteen columns, names as text with a counterpart for each team
    name, and sortable dates and times, when every write succeeds.  It
    returns the five season tables in the order of lines 68-74.  The rows
    of each are labelled by their dates ([date] is the index and no
    column any more), its seventeen columns are those that
    [split_seasons] gives for its year, and the file written for it has
    the eighteen columns of [new_order], the date first.  Between them
    the tables hold the fixtures of the seasons 2021 to 2025. *)
Theorem preprocessing_returns_the_season_tables
    (to_csv : string -> Indexed -> result unit)
    (raw : DataFrame) (output_dir : string) (venue date time t o : Series) :
  forallb (pd.has_column raw) column_order = true ->
  pd.getcol raw "venue" = Ok venue ->
  pd.getcol raw "date" = Ok date ->
  pd.getcol raw "time" = Ok time ->
  pd.getcol raw "team" = Ok t ->
  pd.getcol raw "opponent" = Ok o ->
  pd.sortable date = true ->
  pd.sortable time = true ->
  forallb pd.is_str t = true ->
  forallb pd.is_str o = true ->
  length (pd.categories t) <= length (pd.categories o) ->
  (forall season table,
     to_csv (String.append output_dir (String.append season ".csv")) table
     = Ok tt) ->
  exists fixtures_df dates season columns_left tables,
    fixtures_table raw = Ok fixtures_df /\
    pd.getcol fixtures_df "date" = Ok dates /\
    pd.getcol fixtures_df "season" = Ok season /\
    pd.drop fixtures_df ["date"] = Ok columns_left /\
    preprocess_match_data to_csv raw output_dir = Ok tables /\
    split_seasons columns_left =
      Ok (map (fun table => (fst table, frame (snd table))) tables) /\
    map fst tables =
      ["2020-2021"; "2021-2022"; "2022-2023"; "2023-2024"; "2024-2025"] /\
    Forall2 (fun p table =>
               let rows := pd.positions (pd.mask_eq season (int (snd p))) in
               index_name (snd table) = "date" /\
               index (snd table) = pd.take rows dates /\
               pd.has_column (frame (snd table)) "date" = false /\
               names (frame (snd table)) = tl new_order /\
               names (csv_table (snd table)) = new_order /\
               nrows (frame (snd table)) = length (filter (in_season (snd p)) season) /\
               forall n col, n <> "date" -> pd.getcol fixtures_df n = Ok col ->
                 pd.getcol (frame (snd table)) n = Ok (pd.take rows col))
            season_years tables /\
    list_sum (map (fun table => nrows (frame (snd table))) tables) =
    length (filter in_some_season season).
Proof.
  intros Hcols Hvenue Hdate Htime Ht Ho Hsd Hst Htt Hot Hlen Hwrite.
  destruct (preprocess_match_data_spec to_csv raw output_dir venue date time t o
              Hcols Hvenue Hdate Htime Ht Ho Hsd Hst Htt Hot Hlen)
    as (f & dates & season & rest & Hf & Hdates & Hseason & Hdrop & Hleft & Hget &
        Hrun).
  cbn zeta in Hrun.
  rewrite (mapM_all_Ok _ tt) in Hrun by (intros x _; apply Hwrite).
  cbn [bind] in Hrun.
  exists f, dates, season, rest. eexists. split; [exact Hf|].
  split; [exact Hdates|]. split; [exact Hseason|]. split; [exact Hdrop|].
  split; [exact Hrun|]. split.
  { rewrite (split_seasons_Ok rest season)
      by (rewrite Hget; [exact Hseason | discriminate]).
    now rewrite map_map. }
  split; [reflexivity|]. split.
  - assert (Hall : forall l : list (string * Z),
              Forall2 (fun p table =>
                 let rows := pd.positions (pd.mask_eq season (int (snd p))) in
                 index_name (snd table) = "date" /\
                 index (snd table) = pd.take rows dates /\
                 pd.has_column (frame (snd table)) "date" = false /\
                 names (frame (snd table)) = tl new_order /\
                 names (csv_table (snd table)) = new_order /\
                 nrows (frame (snd table))
                   = length (filter (in_season (snd p)) season) /\
                 forall n col, n <> "date" -> pd.getcol f n = Ok col ->
                   pd.getcol (frame (snd table)) n = Ok (pd.take rows col))
                l (map (fun p => (fst p, rows_where (pd.mask_eq season (int (snd p)))
                                           (mkIndexed "date" dates rest))) l)).
    { induction l as [|p l IH]; constructor; [|exact IH].
      cbn [fst snd rows_where index_name index frame]. cbn zeta.
      assert (Hnames : names (pd.filter_rows (pd.mask_eq season (int (snd p))) rest)
                       = tl new_order).
      { unfold pd.filter_rows. now rewrite names_take_rows. }
      split; [reflexivity|]. split; [reflexivity|]. split.
      { unfold pd.has_column. now rewrite Hnames. }
      split; [exact Hnames|]. split.
      { exact (f_equal (cons "date") Hnames). }
      split.
      { unfold pd.filter_rows, pd.take_rows, pd.positions, pd.mask_eq. cbn [nrows].
        apply positions_from_length. }
      intros n col Hne Hcol. unfold pd.filter_rows.
      apply getcol_take_rows_Ok. now rewrite Hget. }
    apply Hall.
  - rewrite map_map. cbn [snd rows_where frame].
    rewrite <- seasons_count. f_equal. apply map_ext. intros p.
    unfold pd.filter_rows, pd.take_rows, pd.positions, pd.mask_eq. cbn [nrows].
    apply positions_from_length.
Qed.

Lemma preprocessing_returns_the_season_tables_witness :
  exists tables,
    preprocess_match_data every_write raw_matches "data/02_preprocessed/"
      = Ok tables /\
    list_sum (map (fun table => nrows (frame (snd table))) tables) = 2.
Proof.
  destruct (preprocessing_returns_the_season_tables every_write raw_matches
              "data/02_preprocessed/"
              [Str "Away"; Str "Home"; Str "Home"; Str "Away"; Str "Home"; Str "Away"]
              [Str "2020-09-12"; Str "2020-09-12"; Str "2021-08-13";
               Str "2021-08-13"; Str "2019-08-11"; Str "2019-08-11"]
              [Str "15:00"; Str "15:00"; Str "20:00"; Str "20:00";
               Str "14:00"; Str "14:00"]
              [Str "Arsenal"; Str "Fulham"; Str "Arsenal"; Str "Fulham";
               Str "Arsenal"; Str "Fulham"]
              [Str "Fulham"; Str "Arsenal"; Str "Fulham"; Str "Arsenal";
               Str "Fulham"; Str "Arsenal"]
              eq_refl eq_refl eq_refl eq_refl eq_refl eq_refl eq_refl eq_refl
              eq_refl eq_refl)
    as (f & dates & season & rest & tables & Hf & _ & Hseason & _ & Htables & _ &
        _ & _ & Hsum).
  - vm_compute. lia.
  - reflexivity.
  - exists tables. split; [exact Htables|].
    vm_compute in Hf. inversion Hf; subst f.
    vm_compute in Hseason. inversion Hseason; subst season.
    exact Hsum.
Defined.



(** ** The season files that [process_season_data] accepts *)























(** ** [main]: the files it reads and writes *)











(** ** The feature cells of a fixture as trailing means *)

Lemma cell_eq_tied a b : cell_eq a b = true -> tied a b = true.
Proof.
  unfold tied. destruct a as [|p|s|t], b as [|q|s'|t']; simpl; try discriminate.
  - intros H. apply Qeq_bool_iff in H. apply andb_true_iff.
    split; apply Qle_bool_iff; rewrite H; apply Qle_refl.
  - intros H. apply String.eqb_eq in H. subst.
    unfold String.leb. now rewrite string_compare_refl.
  - intros H. apply Z.eqb_eq in H. subst. now rewrite Z.leb_refl.
Qed.

Lemma nth_shift_is_trailing_mean xs r first :
  pd.rolling_mean 5 1 xs = Ok r ->
  first < length xs ->
  nth first (pd.shift r) NaN = trailing_mean first xs.
Proof.
  intros Hr Hlt. destruct first as [|f].
  - destruct r; reflexivity.
  - cbn [trailing_mean]. rewrite <- window_mean_spec.
    apply nth_error_nth. apply rolling_shift_at; [exact Hr | lia].
Qed.

(** With at most one record of the team on a date, the statistic looked
    up for a date is the trailing mean at the position of the one record
    of that date. *)
Lemma looked_up_is_trailing_mean
    (df : DataFrame) (team d : cell) (home away dates : Series) (p0 : nat) :
  prepared df = true ->
  pd.getcol df "home_team" = Ok home ->
  pd.getcol df "away_team" = Ok away ->
  pd.getcol df "date" = Ok dates ->
  let hp := pd.positions (pd.mask_eq home team) in
  let ap := pd.positions (pd.mask_eq away team) in
  let team_dates := pd.take hp dates ++ pd.take ap dates in
  no_ties team_dates = true ->
  p0 < length hp + length ap ->
  cell_eq (nth p0 team_dates NaN) d = true ->
  exists order first,
    Permutation order (seq 0 (length hp + length ap)) /\
    Sorted chronological (pd.take order team_dates) /\
    (forall order', Permutation order' (seq 0 (length hp + length ap)) ->
                    Sorted chronological (pd.take order' team_dates) ->
                    order' = order) /\
    nth_error order first = Some p0 /\
    forall stat hcol acol neg, In (stat, (hcol, acol, neg)) own_statistics ->
      exists sh sa,
        pd.getcol df hcol = Ok sh /\
        pd.getcol df acol = Ok sa /\
        looked_up df team d stat =
          Some (trailing_mean first (own_values order hp ap sh sa neg)).
Proof.
  intros Hp Hh Ha Hd hp ap team_dates Hnt Hp0 Hdate.
  destruct (team_sequence_spec df team home away dates Hp Hh Ha Hd)
    as (order & games & atg & Hg & Hatg & Hperm & Hsorted & Huniq & Hn & Hn' &
        _ & Hgd & Hstats).
  fold hp ap team_dates in Hperm, Hsorted, Huniq, Hn, Hn', Hgd, Hstats.
  assert (Hlen : length team_dates = length hp + length ap).
  { unfold team_dates. now rewrite length_app, !take_length. }
  assert (Hbound : forall i p, nth_error order i = Some p ->
                               p < length hp + length ap).
  { intros i p Hi. apply nth_error_In in Hi.
    apply (Permutation_in _ Hperm) in Hi. apply in_seq in Hi. lia. }
  assert (Hat : forall i p, nth_error order i = Some p ->
            nth_error (pd.take order team_dates) i = Some (nth p team_dates NaN)).
  { intros i p Hi. unfold pd.take. rewrite nth_error_map, Hi. reflexivity. }
  assert (Hin0 : In p0 order).
  { apply (Permutation_in _ (Permutation_sym Hperm)). apply in_seq. lia. }
  apply In_nth_error in Hin0. destruct Hin0 as [f0 Hf0].
  assert (Hpos0 : In f0 (pd.positions (pd.mask_eq (pd.take order team_dates) d))).
  { apply In_positions. exists (nth p0 team_dates NaN). split; [|exact Hdate].
    now apply Hat. }
  destruct (pd.positions (pd.mask_eq (pd.take order team_dates) d))
    as [|first others] eqn:Hpos; [contradiction|].
  assert (Hfirst : In first (pd.positions (pd.mask_eq (pd.take order team_dates) d)))
    by (rewrite Hpos; now left).
  apply In_positions in Hfirst. destruct Hfirst as (c & Hc & Hcd).
  assert (Hflt : first < length order).
  { apply nth_error_Some. unfold pd.take in Hc. rewrite nth_error_map in Hc.
    destruct (nth_error order first); [discriminate | discriminate Hc]. }
  destruct (nth_error order first) as [p|] eqn:Hpf;
    [|apply nth_error_None in Hpf; lia].
  rewrite (Hat first p Hpf) in Hc. inversion Hc; subst c. clear Hc.
  assert (p = p0).
  { destruct (Nat.eq_dec p p0) as [E|Hne]; [exact E | exfalso].
    assert (Ht : tied (nth p team_dates NaN) (nth p0 team_dates NaN) = true).
    { apply cell_eq_tied. rewrite (cell_eq_trans _ _ _ Hdate).
      exact Hcd. }
    rewrite (no_ties_spec team_dates Hnt p p0) in Ht; [discriminate| | |exact Hne].
    - rewrite Hlen. exact (Hbound first p Hpf).
    - now rewrite Hlen. }
  subst p.
  exists order, first. split; [exact Hperm|]. split; [exact Hsorted|].
  split; [exact (Huniq Hnt)|]. split; [exact Hpf|].
  intros stat hcol acol neg Hin.
  destruct (Hstats stat hcol acol neg Hin)
    as (own & sh & sa & r & _ & Hsh & Hsa & _ & Hr & Hys).
  exists sh, sa. split; [exact Hsh|]. split; [exact Hsa|].
  unfold looked_up, team_stats_of. rewrite Hg. cbn [bind]. rewrite Hatg, Hgd, Hys.
  rewrite Hpos. f_equal. apply nth_shift_is_trailing_mean; [exact Hr|].
  unfold own_values. rewrite take_length. exact Hflt.
Qed.

(** The home features of a fixture.  On a prepared table, take a dated
    row whose home team plays at most once on a date.  The row is one
    match of the date-ordered sequence of that team, and each of its
    eight [home_*] cells is the mean of the team's own values of the
    statistic over its up to five matches before that one: missing when
    the row is the team's first match. *)
Theorem home_features_are_trailing_means
    (df : DataFrame) (home away dates : Series) (r : nat) (team : cell) :
  prepared df = true ->
  well_shaped df = true ->
  pd.getcol df "home_team" = Ok home ->
  pd.getcol df "away_team" = Ok away ->
  pd.getcol df "date" = Ok dates ->
  nth_error home r = Some team ->
  cell_eq team team = true ->
  cell_eq (nth r dates NaN) (nth r dates NaN) = true ->
  let hp := pd.positions (pd.mask_eq home team) in
  let ap := pd.positions (pd.mask_eq away team) in
  let team_dates := pd.take hp dates ++ pd.take ap dates in
  no_ties team_dates = true ->
  exists out order first k,
    create_rolling_features df = Ok out /\
    Permutation order (seq 0 (length hp + length ap)) /\
    Sorted chronological (pd.take order team_dates) /\
    (forall order', Permutation order' (seq 0 (length hp + length ap)) ->
                    Sorted chronological (pd.take order' team_dates) ->
                    order' = order) /\
    k < length hp /\ nth k hp 0 = r /\
    nth_error order first = Some k /\
    forall stat hcol acol neg, In (stat, (hcol, acol, neg)) own_statistics ->
      exists sh sa,
        pd.getcol df hcol = Ok sh /\
        pd.getcol df acol = Ok sa /\
        cell_at out (feature_name "home" stat) r =
          Some (trailing_mean first (own_values order hp ap sh sa neg)).
Proof.
  intros Hp Hw Hh Ha Hd Hr Ht Hdate hp ap team_dates Hnt.
  assert (Hin : In r hp).
  { apply In_positions. exists team. auto. }
  apply (In_nth _ _ 0) in Hin. destruct Hin as (k & Hk & Hkr).
  assert (Hrec : nth k team_dates NaN = nth r dates NaN).
  { unfold team_dates. rewrite app_nth1 by now rewrite take_length.
    now rewrite nth_take, Hkr. }
  destruct (looked_up_is_trailing_mean df team (nth r dates NaN) home away dates k
              Hp Hh Ha Hd Hnt)
    as (order & first & Hperm & Hsorted & Huniq & Hfirst & Hlook).
  { fold hp. lia. }
  { fold hp ap team_dates. now rewrite Hrec. }
  destruct (create_rolling_features_rows df home away dates Hp Hh Ha Hd Hw)
    as (out & Hout & Hcells).
  exists out, order, first, k. split; [exact Hout|]. split; [exact Hperm|].
  split; [exact Hsorted|]. split; [exact Huniq|]. split; [exact Hk|].
  split; [exact Hkr|]. split; [exact Hfirst|].
  intros stat hcol acol neg Hin.
  destruct (Hlook stat hcol acol neg Hin) as (sh & sa & Hsh & Hsa & Hval).
  exists sh, sa. split; [exact Hsh|]. split; [exact Hsa|].
  assert (Hname : In stat rolling_names).
  { destruct (own_statistics_columns stat hcol acol neg Hin) as (own & Hown & _).
    exact (in_map fst _ _ Hown). }
  destruct (Hcells stat r Hname) as [Hc _]. rewrite Hc.
  rewrite (existsb_agree _ (cell_eq team))
    by (intros t; unfold selected; now rewrite Hr).
  rewrite unique_meets.
  2:{ apply existsb_exists. exists team. split; [|assumption].
      eapply nth_error_In; eassumption. }
  rewrite (nth_error_nth _ _ NaN Hr). fold hp ap in Hval. now rewrite Hval.
Qed.

(** The away features of a fixture.  On a prepared table, take a dated
    row whose away team also plays at home somewhere in the table, and at
    most once on a date.  Each of the eight [away_*] cells of the row is
    the mean of that team's own values of the statistic over its up to
    five matches before this one: missing when the row is the team's
    first match. *)
Theorem away_features_are_trailing_means
    (df : DataFrame) (home away dates : Series) (r : nat) (team : cell) :
  prepared df = true ->
  well_shaped df = true ->
  pd.getcol df "home_team" = Ok home ->
  pd.getcol df "away_team" = Ok away ->
  pd.getcol df "date" = Ok dates ->
  nth_error away r = Some team ->
  existsb (cell_eq team) home = true ->
  cell_eq (nth r dates NaN) (nth r dates NaN) = true ->
  let hp := pd.positions (pd.mask_eq home team) in
  let ap := pd.positions (pd.mask_eq away team) in
  let team_dates := pd.take hp dates ++ pd.take ap dates in
  no_ties team_dates = true ->
  exists out order first k,
    create_rolling_features df = Ok out /\
    Permutation order (seq 0 (length hp + length ap)) /\
    Sorted chronological (pd.take order team_dates) /\
    (forall order', Permutation order' (seq 0 (length hp + length ap)) ->
                    Sorted chronological (pd.take order' team_dates) ->
                    order' = order) /\
    k < length ap /\ nth k ap 0 = r /\
    nth_error order first = Some (length hp + k) /\
    forall stat hcol acol neg, In (stat, (hcol, acol, neg)) own_statistics ->
      exists sh sa,
        pd.getcol df hcol = Ok sh /\
        pd.getcol df acol = Ok sa /\
        cell_at out (feature_name "away" stat) r =
          Some (trailing_mean first (own_values order hp ap sh sa neg)).
Proof.
  intros Hp Hw Hh Ha Hd Hr Ht Hdate hp ap team_dates Hnt.
  assert (Htt : cell_eq team team = true).
  { apply existsb_exists in Ht. destruct Ht as (c & _ & Hc).
    destruct team, c; simpl in *; try discriminate;
      auto using String.eqb_refl, Z.eqb_refl.
    apply Qeq_bool_iff. reflexivity. }
  assert (Hin : In r ap).
  { apply In_positions. exists team. auto. }
  apply (In_nth _ _ 0) in Hin. destruct Hin as (k & Hk & Hkr).
  assert (Hrec : nth (length hp + k) team_dates NaN = nth r dates NaN).
  { unfold team_dates. rewrite app_nth2 by (rewrite take_length; lia).
    rewrite take_length.
    replace (length hp + k - length hp) with k by lia.
    now rewrite nth_take, Hkr. }
  destruct (looked_up_is_trailing_mean df team (nth r dates NaN) home away dates
              (length hp + k) Hp Hh Ha Hd Hnt)
    as (order & first & Hperm & Hsorted & Huniq & Hfirst & Hlook).
  { fold hp ap. lia. }
  { fold hp ap team_dates. now rewrite Hrec. }
  destruct (create_rolling_features_rows df home away dates Hp Hh Ha Hd Hw)
    as (out & Hout & Hcells).
  exists out, order, first, k. split; [exact Hout|]. split; [exact Hperm|].
  split; [exact Hsorted|]. split; [exact Huniq|]. split; [exact Hk|].
  split; [exact Hkr|]. split; [exact Hfirst|].
  intros stat hcol acol neg Hin.
  destruct (Hlook stat hcol acol neg Hin) as (sh & sa & Hsh & Hsa & Hval).
  exists sh, sa. split; [exact Hsh|]. split; [exact Hsa|].
  assert (Hname : In stat rolling_names).
  { destruct (own_statistics_columns stat hcol acol neg Hin) as (own & Hown & _).
    exact (in_map fst _ _ Hown). }
  destruct (Hcells stat r Hname) as [_ Hc]. rewrite Hc.
  rewrite (existsb_agree _ (cell_eq team))
    by (intros t; unfold selected; now rewrite Hr).
  rewrite (unique_meets _ _ Ht).
  rewrite (nth_error_nth _ _ NaN Hr). fold hp ap in Hval. now rewrite Hval.
Qed.

Lemma home_features_are_trailing_means_witness :
  exists out,
    create_rolling_features season_of_A = Ok out /\
    cell_at out "home_form_last_5" 5 = Some (Num (arithmetic_mean [-1; 1]%Q)).
Proof.
  destruct (home_features_are_trailing_means season_of_A
              [Str "A"; Str "C"; Str "A"; Str "B"; Str "A"; Str "C"]
              [Str "B"; Str "A"; Str "C"; Str "A"; Str "B"; Str "A"]
              [Ts 1; Ts 2; Ts 3; Ts 4; Ts 5; Ts 6] 5 (Str "C")
              eq_refl eq_refl eq_refl eq_refl eq_refl eq_refl eq_refl eq_refl
              eq_refl)
    as (out & order & first & k & Hout & _ & _ & Huniq & Hk & Hkr & Hfirst & Hcells).
  assert (Hperm : Permutation [0; 2; 1] (seq 0 3)).
  { exact (team_sequence_order_is_permutation
             [Str "A"; Str "C"; Str "A"; Str "B"; Str "A"; Str "C"]
             [Str "B"; Str "A"; Str "C"; Str "A"; Str "B"; Str "A"]
             [Ts 1; Ts 2; Ts 3; Ts 4; Ts 5; Ts 6] (Str "C")). }
  assert (Hsorted : Sorted chronological (pd.take [0; 2; 1] [Ts 2; Ts 6; Ts 3])).
  { exact (take_argsort_sorted [Ts 2; Ts 6; Ts 3]). }
  pose proof (Huniq [0; 2; 1] Hperm Hsorted) as E. subst order.
  simpl in Hk, Hkr.
  destruct k as [|[|k]]; [discriminate Hkr | | lia].
  destruct first as [|[|[|first]]]; simpl in Hfirst; try discriminate Hfirst;
    [|destruct first; discriminate Hfirst].
  destruct (Hcells "form_last_5" "result" "result" true)
    as (sh & sa & Hsh & Hsa & Hcell); [pick_in|].
  vm_compute in Hsh. inversion Hsh; subst sh.
  vm_compute in Hsa. inversion Hsa; subst sa.
  exists out. split; [exact Hout | exact Hcell].
Defined.

Lemma away_features_are_trailing_means_witness :
  exists out,
    create_rolling_features season_of_A = Ok out /\
    cell_at out "away_form_last_5" 5 =
      Some (Num (arithmetic_mean [1; 1; -1; 0; 1]%Q)).
Proof.
  destruct (away_features_are_trailing_means season_of_A
              [Str "A"; Str "C"; Str "A"; Str "B"; Str "A"; Str "C"]
              [Str "B"; Str "A"; Str "C"; Str "A"; Str "B"; Str "A"]
              [Ts 1; Ts 2; Ts 3; Ts 4; Ts 5; Ts 6] 5 (Str "A")
              eq_refl eq_refl eq_refl eq_refl eq_refl eq_refl eq_refl eq_refl
              eq_refl)
    as (out & order & first & k & Hout & _ & _ & Huniq & Hk & Hkr & Hfirst & Hcells).
  assert (Hperm : Permutation [0; 3; 1; 4; 2; 5] (seq 0 6)).
  { exact (team_sequence_order_is_permutation
             [Str "A"; Str "C"; Str "A"; Str "B"; Str "A"; Str "C"]
             [Str "B"; Str "A"; Str "C"; Str "A"; Str "B"; Str "A"]
             [Ts 1; Ts 2; Ts 3; Ts 4; Ts 5; Ts 6] (Str "A")). }
  assert (Hsorted : Sorted chronological
                      (pd.take [0; 3; 1; 4; 2; 5]
                         [Ts 1; Ts 3; Ts 5; Ts 2; Ts 4; Ts 6])).
  { exact (take_argsort_sorted [Ts 1; Ts 3; Ts 5; Ts 2; Ts 4; Ts 6]). }
  pose proof (Huniq [0; 3; 1; 4; 2; 5] Hperm Hsorted) as E. subst order.
  simpl in Hk, Hkr.
  destruct k as [|[|[|k]]]; try discriminate Hkr; [|lia].
  destruct first as [|[|[|[|[|[|first]]]]]]; simpl in Hfirst;
    try discriminate Hfirst; [|destruct first; discriminate Hfirst].
  destruct (Hcells "form_last_5" "result" "result" true)
    as (sh & sa & Hsh & Hsa & Hcell); [pick_in|].
  vm_compute in Hsh. inversion Hsh; subst sh.
  vm_compute in Hsa. inversion Hsa; subst sa.
  exists out. split; [exact Hout | exact Hcell].
Defined.
